(** * Cloudflare-DDNS: the record reconciliation engine of [main.py]

    A shallow embedding of [main.py] and the properties of its
    reconciliation logic.

    - Python values that travel through the program (the parsed
      [config.json], request payloads, provider responses) are values of
      [pyval]; dictionaries keep their insertion order and are compared
      as Python compares them, regardless of order.  Numbers are integers:
      JSON floats are not modelled.
    - Exceptions are values of [exn]; a function that may raise returns a
      [result].
    - [requests.request] is the only effect.  It is a parameter [http] of
      the development, acting on an arbitrary provider state; every request
      handed to it is recorded in [sent].
    - [Logger] only prints and is left out of the handlers; the f-strings
      it formats cannot raise.  The one message that is built with [+], on
      line 159, is evaluated: it raises on a domain name that is no string.
    - [str.lower] is exact on ASCII text; on any other text it is the
      parameter [unicode_lower]. *)

From Stdlib Require Import String Ascii List ZArith Bool Lia PeanoNat.
From Stdlib Require Import Permutation.
Import ListNotations.
Local Open Scope string_scope.
Local Open Scope list_scope.

Set Implicit Arguments.

(** ** Python values *)

Unset Elimination Schemes.
Inductive pyval : Type :=
| PyNone
| PyBool (b : bool)
| PyInt (n : Z)
| PyStr (s : string)
| PyList (items : list pyval)
| PyDict (entries : list (string * pyval)).
Set Elimination Schemes.

(** Structural induction that reaches into lists and dictionaries. *)
Section PyvalInd.
Variable P : pyval -> Prop.
Hypothesis HNone : P PyNone.
Hypothesis HBool : forall b, P (PyBool b).
Hypothesis HInt : forall n, P (PyInt n).
Hypothesis HStr : forall s, P (PyStr s).
Hypothesis HList : forall items, Forall P items -> P (PyList items).
Hypothesis HDict :
  forall entries, Forall (fun kv => P (snd kv)) entries -> P (PyDict entries).

Fixpoint pyval_ind (v : pyval) : P v :=
  match v with
  | PyNone => HNone
  | PyBool b => HBool b
  | PyInt n => HInt n
  | PyStr s => HStr s
  | PyList items =>
      HList ((fix go (l : list pyval) : Forall P l :=
                match l with
                | [] => Forall_nil P
                | x :: l' => Forall_cons x (pyval_ind x) (go l')
                end) items)
  | PyDict entries =>
      HDict ((fix go (l : list (string * pyval))
                : Forall (fun kv => P (snd kv)) l :=
                match l with
                | [] => Forall_nil _
                | kv :: l' =>
                    @Forall_cons _ (fun kv => P (snd kv)) kv l'
                      (pyval_ind (snd kv)) (go l')
                end) entries)
  end.
End PyvalInd.

(** Exceptions the program raises itself or gets from the interpreter. *)
Inductive exn : Type :=
| KeyError (key : pyval)
| TypeError
| AttributeError
| RuntimeError (msg : string)
| AuthenticationConfigError (msg : string)
| CloudflareAPIError (status_code : Z) (message : string)
| RequestException
| JSONDecodeError.

Inductive result (A : Type) : Type :=
| Ok (a : A)
| Raise (e : exn).
Arguments Ok {A} a.
Arguments Raise {A} e.

Definition rbind {A B} (r : result A) (k : A -> result B) : result B :=
  match r with
  | Ok a => k a
  | Raise e => Raise e
  end.

Declare Scope result_scope.
Delimit Scope result_scope with result.
Notation "x <- c ;; k" := (rbind c (fun x => k))
  (at level 61, c at next level, right associativity) : result_scope.

(** *** Truth value, [bool(v)] *)
Definition truthy (v : pyval) : bool :=
  match v with
  | PyNone => false
  | PyBool b => b
  | PyInt n => negb (n =? 0)%Z
  | PyStr s => negb (s =? "")
  | PyList items => negb (Nat.eqb (length items) 0)
  | PyDict entries => negb (Nat.eqb (length entries) 0)
  end.

(** *** Dictionaries *)
Fixpoint dict_get (k : string) (d : list (string * pyval)) : option pyval :=
  match d with
  | [] => None
  | (k', v) :: d' => if k' =? k then Some v else dict_get k d'
  end.

(** [d[k] = v]: an existing key keeps its place, a new one goes last. *)
Fixpoint dict_set (k : string) (v : pyval) (d : list (string * pyval))
  : list (string * pyval) :=
  match d with
  | [] => [(k, v)]
  | (k', v') :: d' =>
      if k' =? k then (k, v) :: d' else (k', v') :: dict_set k v d'
  end.

(** [{**base, **extra}] *)
Definition dict_update (base extra : list (string * pyval))
  : list (string * pyval) :=
  fold_left (fun d kv => dict_set (fst kv) (snd kv) d) extra base.

(** *** Equality, [a == b] *)
Definition int_of_bool (b : bool) : Z := if b then 1%Z else 0%Z.

Fixpoint py_eq (a b : pyval) {struct a} : bool :=
  match a, b with
  | PyNone, PyNone => true
  | PyBool x, PyBool y => Bool.eqb x y
  | PyBool x, PyInt n => (int_of_bool x =? n)%Z
  | PyInt n, PyBool y => (n =? int_of_bool y)%Z
  | PyInt n, PyInt m => (n =? m)%Z
  | PyStr s, PyStr t => (s =? t)
  | PyList xs, PyList ys =>
      (fix go (l : list pyval) (r : list pyval) {struct l} : bool :=
         match l, r with
         | [], [] => true
         | x :: l', y :: r' => py_eq x y && go l' r'
         | _, _ => false
         end) xs ys
  | PyDict d, PyDict e =>
      Nat.eqb (length d) (length e) &&
      forallb (fun kv =>
                 match dict_get (fst kv) e with
                 | Some w => py_eq (snd kv) w
                 | None => false
                 end) d
  | _, _ => false
  end.

(** *** Subscription and [dict.get] *)

(** [v[k]] for a string key [k]. *)
Definition getitem (v : pyval) (k : string) : result pyval :=
  match v with
  | PyDict d =>
      match dict_get k d with
      | Some x => Ok x
      | None => Raise (KeyError (PyStr k))
      end
  | _ => Raise TypeError
  end.

(** [v.get(k, default)] *)
Definition py_get (v : pyval) (k : string) (default : pyval) : result pyval :=
  match v with
  | PyDict d =>
      match dict_get k d with
      | Some x => Ok x
      | None => Ok default
      end
  | _ => Raise AttributeError
  end.

(** *** [a + b] *)
Definition py_add (a b : pyval) : result pyval :=
  match a, b with
  | PyStr s, PyStr t => Ok (PyStr (s ++ t))
  | PyInt n, PyInt m => Ok (PyInt (n + m))
  | PyInt n, PyBool y => Ok (PyInt (n + int_of_bool y))
  | PyBool x, PyInt m => Ok (PyInt (int_of_bool x + m))
  | PyBool x, PyBool y => Ok (PyInt (int_of_bool x + int_of_bool y))
  | PyList xs, PyList ys => Ok (PyList (xs ++ ys))
  | _, _ => Raise TypeError
  end.

(** *** Strings *)

(** Text is kept as the bytes of its UTF-8 form.  On text that is all
    ASCII, [str.lower] maps [A-Z] to [a-z] and keeps every other
    character.  On any other text it follows the Unicode tables of the
    interpreter, which are not part of the program: they are the parameter
    [unicode_lower]. *)
Class Unicode : Type := { unicode_lower : string -> string }.

Definition lower_ascii (c : ascii) : ascii :=
  let n := nat_of_ascii c in
  if (65 <=? n)%nat && (n <=? 90)%nat then ascii_of_nat (n + 32) else c.

Fixpoint lower_ascii_text (s : string) : string :=
  match s with
  | EmptyString => EmptyString
  | String c s' => String (lower_ascii c) (lower_ascii_text s')
  end.

Fixpoint ascii_only (s : string) : bool :=
  match s with
  | EmptyString => true
  | String c s' => (nat_of_ascii c <? 128)%nat && ascii_only s'
  end.

(** [s.lower()] *)
Definition lower {unicode : Unicode} (s : string) : string :=
  if ascii_only s then lower_ascii_text s else unicode_lower s.

(** [v.lower()] *)
Definition py_lower {unicode : Unicode} (v : pyval) : result string :=
  match v with
  | PyStr s => Ok (lower s)
  | _ => Raise AttributeError
  end.

(** [s.endswith(suffix)] on strings. *)
Fixpoint endswith (s suffix : string) : bool :=
  (s =? suffix) ||
  match s with
  | EmptyString => false
  | String _ s' => endswith s' suffix
  end.

(** [v.endswith(suffix)] *)
Definition py_endswith (v suffix : pyval) : result bool :=
  match v with
  | PyStr s =>
      match suffix with
      | PyStr t => Ok (endswith s t)
      | _ => Raise TypeError
      end
  | _ => Raise AttributeError
  end.

(** Iteration, [for x in v]. *)
Fixpoint chars (s : string) : list pyval :=
  match s with
  | EmptyString => []
  | String c s' => PyStr (String c EmptyString) :: chars s'
  end.

Definition py_iter (v : pyval) : result (list pyval) :=
  match v with
  | PyList items => Ok items
  | PyDict d => Ok (map (fun kv => PyStr (fst kv)) d)
  | PyStr s => Ok (chars s)
  | _ => Raise TypeError
  end.

(** [list(filter(f, items))]: [f] runs on every item, in order, and the
    first exception it raises ends the traversal. *)
Fixpoint py_filter (f : pyval -> result bool) (items : list pyval)
  : result (list pyval) :=
  match items with
  | [] => Ok []
  | x :: rest =>
      (keep <- f x ;;
       tl <- py_filter f rest ;;
       Ok (if keep then x :: tl else tl))%result
  end.

(** [sep.join(items)] *)
Fixpoint py_join (sep : string) (items : list pyval) : result string :=
  match items with
  | [] => Ok ""
  | [PyStr s] => Ok s
  | PyStr s :: rest =>
      (tl <- py_join sep rest ;; Ok (s ++ sep ++ tl)%string)%result
  | _ :: _ => Raise TypeError
  end.

(** ** Requests, responses and the effect monad *)

(** An f-string, kept as its pieces: literal text and the values that fill
    its holes. *)
Inductive fpart : Type :=
| Lit (text : string)
| Hole (v : pyval).

Definition fstring := list fpart.

(** The arguments of one [requests.request] call. *)
Record request : Type := mkRequest {
  method : string;
  url : fstring;
  headers : pyval;
  json : pyval
}.

(** What the program reads of a response: [status_code] and [.json()],
    which raises when the body is not JSON. *)
Record response : Type := mkResponse {
  status_code : Z;
  body : option pyval
}.

Definition response_json (r : response) : result pyval :=
  match body r with
  | Some v => Ok v
  | None => Raise JSONDecodeError
  end.

Section Effects.
(** The provider: some state [W] and its reaction to a request.  [None]
    stands for a transport failure. *)
Context {W : Type}.
Variable http : request -> W -> option response * W.

Record world : Type := mkWorld {
  provider : W;
  sent : list request
}.

Definition M (A : Type) : Type := world -> result A * world.

Definition ret {A} (a : A) : M A := fun w => (Ok a, w).

Definition raise {A} (e : exn) : M A := fun w => (Raise e, w).

Definition bind {A B} (c : M A) (k : A -> M B) : M B :=
  fun w =>
    match c w with
    | (Ok a, w') => k a w'
    | (Raise e, w') => (Raise e, w')
    end.

Definition lift {A} (r : result A) : M A := fun w => (r, w).

(** [requests.request(...)] *)
Definition requests_request (r : request) : M response :=
  fun w =>
    let (resp, p) := http r (provider w) in
    (match resp with
     | Some x => Ok x
     | None => Raise RequestException
     end,
     {| provider := p; sent := sent w ++ [r] |}).
End Effects.

Arguments world W : clear implicits.
Arguments M W A : clear implicits.

Declare Scope monad_scope.
Delimit Scope monad_scope with monad.
Notation "x <- c ;; k" := (bind c (fun x => k))
  (at level 61, c at next level, right associativity) : monad_scope.
Notation "c ;; k" := (bind c (fun _ => k))
  (at level 61, right associativity) : monad_scope.

(** ** class CloudflareAPI *)
Module CloudflareAPI.

Record t : Type := mk {
  is_token_authorized : pyval;
  email : pyval;
  api_auth : pyval
}.

Definition BASE_URL : string := "https://api.cloudflare.com/client/v4/".

(** [__init__] *)
Definition init (authentication : pyval) : result t :=
  (use_token <- py_get authentication "use-token" (PyBool false) ;;
   em <- py_get authentication "email" (PyStr "") ;;
   auth <- py_get authentication "api-auth" (PyStr "") ;;
   if negb (truthy auth) || (truthy use_token && negb (truthy em))
   then Raise (AuthenticationConfigError
                 "Please check your authentication configuration and correct it!")
   else Ok (mk use_token em auth))%result.

(** [{k1: v1, ..., **headers}] *)
Definition with_unpacked (base : list (string * pyval)) (extra : pyval)
  : result pyval :=
  match extra with
  | PyDict e => Ok (PyDict (dict_update base e))
  | _ => Raise TypeError
  end.

Definition getAuthHeaders (self : t) (headers : pyval) : result pyval :=
  if truthy (is_token_authorized self) then
    (bearer <- py_add (PyStr "Bearer ") (api_auth self) ;;
     with_unpacked [("Authorization", bearer)] headers)%result
  else
    with_unpacked [("X-Auth-Email", email self);
                   ("X-Auth-Key", api_auth self)] headers.

(** [[data["message"] for data in errors]] *)
Fixpoint messages (errors : list pyval) : result (list pyval) :=
  match errors with
  | [] => Ok []
  | data :: rest =>
      (m <- getitem data "message" ;;
       ms <- messages rest ;;
       Ok (m :: ms))%result
  end.

Section Methods.
Context {W : Type}.
Variable http : request -> W -> option response * W.
Variable self : t.

Local Open Scope monad_scope.

Definition make_request (method : string) (endpoint : fstring)
    (data : pyval) (headers : pyval) : M W pyval :=
  let data := if negb (truthy data) then PyDict [] else data in
  let headers := if negb (truthy headers) then PyDict [] else headers in
  auth_headers <- lift (getAuthHeaders self headers) ;;
  response <- requests_request http
    (mkRequest method (Lit BASE_URL :: endpoint) auth_headers data) ;;
  if (status_code response =? 200)%Z then
    lift (response_json response)
  else
    lift (payload <- response_json response ;;
          errors <- py_get payload "errors" (PyList []) ;;
          items <- py_iter errors ;;
          ms <- messages items ;;
          text <- py_join " | " ms ;;
          Raise (CloudflareAPIError (status_code response) text))%result.

Definition get_domain_name (zone_id : pyval) : M W pyval :=
  data <- make_request "GET" [Lit "zones/"; Hole zone_id] PyNone PyNone ;;
  lift (r <- getitem data "result" ;; getitem r "name")%result.

Definition check_record (zone_id : pyval) (name : pyval) (type : string)
  : M W pyval :=
  data <- make_request "GET"
            [Lit "zones/"; Hole zone_id;
             Lit "/dns_records?per_page=100&type="; Hole (PyStr type)]
            PyNone PyNone ;;
  lift (result_ <- getitem data "result" ;;
        items <- py_iter result_ ;;
        record <-
          (if type =? "SRV" then
             py_filter (fun rec => n <- getitem rec "name" ;;
                                   py_endswith n name) items
           else
             py_filter (fun rec => n <- getitem rec "name" ;;
                                   Ok (py_eq n name)) items) ;;
        match record with
        | [] => Ok PyNone
        | first :: _ => Ok first
        end)%result.

Definition add_record (zone_id : pyval) (data : pyval) : M W unit :=
  _ <- make_request "POST" [Lit "zones/"; Hole zone_id; Lit "/dns_records"]
         data PyNone ;;
  ret tt.

Definition update_record (zone_id : pyval) (record_id : pyval)
    (data : pyval) : M W unit :=
  _ <- make_request "PUT"
         [Lit "zones/"; Hole zone_id; Lit "/dns_records/"; Hole record_id]
         data PyNone ;;
  ret tt.
End Methods.
End CloudflareAPI.

(** ** The record handlers *)
Section Handlers.
Context {unicode : Unicode}.
Context {W : Type}.
Variable http : request -> W -> option response * W.

(** The module globals [api] and [public_ip], set once in [__main__]. *)
Variable api : CloudflareAPI.t.
Variable public_ip : string.

Local Open Scope monad_scope.

Definition handle_http_record
    (domain_name zone_id name ttl proxied record_data : pyval) : M W unit :=
  name_ <- lift (if py_eq name (PyStr "@") || py_eq name (PyStr "")
                 then Ok domain_name
                 else (n <- py_add name (PyStr ".") ;;
                       py_add n domain_name)%result) ;;
  let to_send := PyDict [("type", PyStr "A");
                         ("name", name_);
                         ("proxied", proxied);
                         ("ttl", ttl);
                         ("content", PyStr public_ip)] in
  lookup_name <- lift (getitem to_send "name") ;;
  record <- CloudflareAPI.check_record http api zone_id lookup_name "A" ;;
  if negb (truthy record) then
    CloudflareAPI.add_record http api zone_id to_send
  else
    content <- lift (getitem record "content") ;;
    same <-
      (if py_eq content (PyStr public_ip) then
         ttl_ <- lift (getitem record "ttl") ;;
         if py_eq ttl_ ttl then
           proxied_ <- lift (getitem record "proxied") ;;
           ret (py_eq proxied_ proxied)
         else ret false
       else ret false) ;;
    if same : bool then ret tt
    else
      id <- lift (getitem record "id") ;;
      CloudflareAPI.update_record http api zone_id id to_send.

Definition handle_srv_record
    (domain_name zone_id name ttl proxied record_data : pyval) : M W unit :=
  handle_http_record domain_name zone_id name ttl proxied PyNone ;;
  name <- lift (if py_eq name (PyStr "@") || py_eq name (PyStr "")
                then Ok domain_name
                else (n <- py_add name (PyStr ".") ;;
                      py_add n domain_name)%result) ;;
  proto_ <- lift (p <- getitem record_data "proto" ;; py_lower p)%result ;;
  let proto := PyStr ("_" ++ proto_) in
  service <- lift (getitem record_data "service") ;;
  priority <- lift (getitem record_data "priority") ;;
  weight <- lift (getitem record_data "weight") ;;
  port <- lift (getitem record_data "port") ;;
  let to_send := PyDict [("type", PyStr "SRV");
                         ("data", PyDict [("name", name);
                                          ("service", service);
                                          ("proto", proto);
                                          ("priority", priority);
                                          ("weight", weight);
                                          ("port", port);
                                          ("target", name)])] in
  record <- CloudflareAPI.check_record http api zone_id name "SRV" ;;
  if negb (truthy record) then
    CloudflareAPI.add_record http api zone_id to_send
  else
    found <- lift (getitem record "data") ;;
    wanted <- lift (getitem to_send "data") ;;
    if py_eq found wanted then ret tt
    else
      id <- lift (getitem record "id") ;;
      CloudflareAPI.update_record http api zone_id id to_send.

Definition handler : Type :=
  pyval -> pyval -> pyval -> pyval -> pyval -> pyval -> M W unit.

Definition HANDLES : list (string * handler) :=
  [("A", handle_http_record); ("SRV", handle_srv_record)].

(** [HANDLES[key]]: strings are looked up, other hashable values are
    never a key, lists and dicts cannot be hashed. *)
Definition HANDLES_getitem (key : pyval) : result handler :=
  match key with
  | PyStr s =>
      match find (fun kh => fst kh =? s) HANDLES with
      | Some kh => Ok (snd kh)
      | None => Raise (KeyError key)
      end
  | PyList _ | PyDict _ => Raise TypeError
  | _ => Raise (KeyError key)
  end.

Definition update_record (domain_name zone_id record : pyval) : M W unit :=
  name <- lift (getitem record "name") ;;
  ttl <- lift (py_get record "ttl" (PyInt 1)) ;;
  record_type <- lift (py_get record "type" PyNone) ;;
  proxied <- lift (if py_eq record_type (PyStr "SRV")
                   then py_get record "proxied" (PyBool false)
                   else py_get record "proxied" (PyBool true)) ;;
  if negb (truthy record_type) then
    raise (RuntimeError "Record type is not supported")
  else
    handle <- lift (HANDLES_getitem record_type) ;;
    handle domain_name zone_id name ttl proxied record.

(** [for record_data in records: update_record(...)] *)
Fixpoint for_each_record (domain_name zone_id : pyval)
    (records : list pyval) : M W unit :=
  match records with
  | [] => ret tt
  | record_data :: rest =>
      update_record domain_name zone_id record_data ;;
      for_each_record domain_name zone_id rest
  end.

Definition run_ddns (ddns : pyval) : M W unit :=
  zone_id <- lift (getitem ddns "zone-id") ;;
  domain_name <- CloudflareAPI.get_domain_name http api zone_id ;;
  (* the argument of [Logger.info], line 159 *)
  _ <- lift (py_add (PyStr "Running DDNS for ") domain_name) ;;
  records <- lift (rs <- py_get ddns "records" (PyList []) ;;
                   py_iter rs)%result ;;
  for_each_record domain_name zone_id records.
End Handlers.

(** ** The specification's vocabulary *)

(** The effective DNS name of a desired record, in the spec's words. *)
Definition effectiveName (name domainName : string) : string :=
  if (name =? "@") || (name =? "") then domainName
  else (name ++ "." ++ domainName)%string.

(** The Address payload of the spec, section 4.2 step 2. *)
Definition address_payload (name : string) (proxied ttl : pyval)
    (currentIP : string) : pyval :=
  PyDict [("type", PyStr "A");
          ("name", PyStr name);
          ("proxied", proxied);
          ("ttl", ttl);
          ("content", PyStr currentIP)].

(** The Service data and payload of the spec, section 4.3 step 3. *)
Definition service_data {unicode : Unicode} (name : string) (service : pyval)
    (proto : string) (priority weight port : pyval) : pyval :=
  PyDict [("name", PyStr name);
          ("service", service);
          ("proto", PyStr ("_" ++ lower proto));
          ("priority", priority);
          ("weight", weight);
          ("port", port);
          ("target", PyStr name)].

Definition service_payload (data : pyval) : pyval :=
  PyDict [("type", PyStr "SRV"); ("data", data)].

(** The spec's ReconcileAction, and the provider call that carries one
    out. *)
Inductive ReconcileAction : Type :=
| NoOp
| Create (payload : pyval)
| Update (recordId : pyval) (payload : pyval).

Definition perform {W} (http : request -> W -> option response * W)
    (api : CloudflareAPI.t) (zone_id : pyval) (a : ReconcileAction)
  : M W unit :=
  match a with
  | NoOp => ret tt
  | Create payload => CloudflareAPI.add_record http api zone_id payload
  | Update recordId payload =>
      CloudflareAPI.update_record http api zone_id recordId payload
  end.

(** The lookup rule of the spec, section 4.1: when does a provider record
    match a target name. *)
Definition matches (type name : string) (rec : pyval) : Prop :=
  exists stored, getitem rec "name" = Ok (PyStr stored) /\
    if type =? "SRV" then exists label, stored = (label ++ name)%string
    else stored = name.

(** A provider record carries its name as a string. *)
Definition named (rec : pyval) : Prop :=
  exists stored, getitem rec "name" = Ok (PyStr stored).

(** Reads and writes among the requests of a run. *)
Definition is_read (r : request) : bool := method r =? "GET".
Definition is_write (r : request) : bool :=
  (method r =? "POST") || (method r =? "PUT").

Definition reads (rs : list request) : nat := length (filter is_read rs).
Definition writes (rs : list request) : nat := length (filter is_write rs).

(** The two endpoints a lookup and a write go to. *)
Definition lookup_url (zone_id : pyval) (type : string) : fstring :=
  [Lit CloudflareAPI.BASE_URL; Lit "zones/"; Hole zone_id;
   Lit "/dns_records?per_page=100&type="; Hole (PyStr type)].

(** A request that concerns the records of one type: the listing of that
    type, or a write whose payload has that type. *)
Definition concerns (type : string) (zone_id : pyval) (r : request) : Prop :=
  (method r = "GET" /\ url r = lookup_url zone_id type) \/
  (method r <> "GET" /\ getitem (json r) "type" = Ok (PyStr type)).

(** Dictionaries as the JSON parser builds them: no key twice, at any
    depth. *)
Fixpoint unique_keys (v : pyval) : Prop :=
  match v with
  | PyList items =>
      (fix all (l : list pyval) : Prop :=
         match l with
         | [] => True
         | x :: l' => unique_keys x /\ all l'
         end) items
  | PyDict d =>
      NoDup (map fst d) /\
      (fix all (l : list (string * pyval)) : Prop :=
         match l with
         | [] => True
         | kv :: l' => unique_keys (snd kv) /\ all l'
         end) d
  | _ => True
  end.

(** An ASCII capital letter. *)
Definition is_upper (c : ascii) : bool :=
  (65 <=? nat_of_ascii c)%nat && (nat_of_ascii c <=? 90)%nat.

(** [c'] is the small letter of the ASCII capital [c], or [c] itself when
    [c] is no capital. *)
Definition lower_case_of (c c' : ascii) : Prop :=
  if is_upper c then nat_of_ascii c' = (nat_of_ascii c + 32)%nat
  else c' = c.

(** [t] is [s] spelled in small letters: character by character, every
    ASCII capital replaced by its small letter and nothing else changed. *)
Inductive spelled_lower : string -> string -> Prop :=
| spelled_empty : spelled_lower EmptyString EmptyString
| spelled_next c c' s s' :
    lower_case_of c c' -> spelled_lower s s' ->
    spelled_lower (String c s) (String c' s').

(** ** A provider that stores what it is sent

    The provider is outside the program.  This model of it holds one zone,
    keeps every record it is sent, never deletes one, and serves the
    listings the program asks for: the records of one type, in the order
    they were created, cut at the page size of the request.  A record's id
    is its position.  A Service record, sent without a name, is filed under
    [service.proto.name], the provider-side prefixing the spec describes. *)
Module Provider.

Record zone : Type := mkZone {
  zone_id : pyval;
  domain : string;
  stored : list pyval
}.

Definition page_size : nat := 100.

Definition set_id (i : nat) (rec : pyval) : pyval :=
  match rec with
  | PyDict d => PyDict (dict_set "id" (PyInt (Z.of_nat i)) d)
  | _ => rec
  end.

Fixpoint numbered (i : nat) (recs : list pyval) : list pyval :=
  match recs with
  | [] => []
  | rec :: rest => set_id i rec :: numbered (S i) rest
  end.

Definition of_type (type : pyval) (rec : pyval) : bool :=
  match getitem rec "type" with
  | Ok t => py_eq t type
  | Raise _ => false
  end.

Definition listing (type : pyval) (z : zone) : list pyval :=
  firstn page_size (filter (of_type type) (numbered 0 (stored z))).

Definition derived_name (data : pyval) : option string :=
  match getitem data "service", getitem data "proto", getitem data "name" with
  | Ok (PyStr s), Ok (PyStr p), Ok (PyStr n) =>
      Some (s ++ "." ++ p ++ "." ++ n)%string
  | _, _, _ => None
  end.

(** The record kept for a payload; [None] when the payload is refused. *)
Definition stored_form (payload : pyval) : option pyval :=
  match payload with
  | PyDict d =>
      match dict_get "type" d with
      | Some (PyStr _) =>
          match dict_get "name" d with
          | Some (PyStr _) => Some payload
          | Some _ => None
          | None =>
              match dict_get "data" d with
              | Some data =>
                  match derived_name data with
                  | Some n => Some (PyDict (dict_set "name" (PyStr n) d))
                  | None => None
                  end
              | None => None
              end
          end
      | _ => None
      end
  | _ => None
  end.

Fixpoint replace (i : nat) (x : pyval) (l : list pyval) : list pyval :=
  match l, i with
  | [], _ => []
  | _ :: l', O => x :: l'
  | y :: l', S j => y :: replace j x l'
  end.

Definition ok (result_ : pyval) : option response :=
  Some (mkResponse 200 (Some (PyDict [("result", result_)]))).

Definition failed (status : Z) (message : string) : option response :=
  Some (mkResponse status
          (Some (PyDict [("errors",
                          PyList [PyDict [("message", PyStr message)]])]))).

Definition http (r : request) (z : zone) : option response * zone :=
  match url r with
  | [Lit b; Lit p; Hole zid] =>
      if (b =? CloudflareAPI.BASE_URL) && (p =? "zones/")
         && (method r =? "GET") && py_eq zid (zone_id z)
      then (ok (PyDict [("name", PyStr (domain z))]), z)
      else (failed 404 "not found", z)
  | [Lit b; Lit p; Hole zid; Lit q] =>
      if (b =? CloudflareAPI.BASE_URL) && (p =? "zones/")
         && (q =? "/dns_records") && (method r =? "POST")
         && py_eq zid (zone_id z)
      then
        match stored_form (json r) with
        | Some rec =>
            (ok (set_id (length (stored z)) rec),
             mkZone (zone_id z) (domain z) (stored z ++ [rec]))
        | None => (failed 400 "invalid record", z)
        end
      else (failed 404 "not found", z)
  | [Lit b; Lit p; Hole zid; Lit q; Hole x] =>
      if (b =? CloudflareAPI.BASE_URL) && (p =? "zones/")
         && py_eq zid (zone_id z)
      then
        if (q =? "/dns_records?per_page=100&type=") && (method r =? "GET")
        then (ok (PyList (listing x z)), z)
        else if (q =? "/dns_records/") && (method r =? "PUT") then
          match x, stored_form (json r) with
          | PyInt n, Some rec =>
              if (0 <=? n)%Z && (Z.to_nat n <? length (stored z))%nat then
                (ok (set_id (Z.to_nat n) rec),
                 mkZone (zone_id z) (domain z)
                   (replace (Z.to_nat n) rec (stored z)))
              else (failed 404 "no such record", z)
          | PyInt _, None => (failed 400 "invalid record", z)
          | _, _ => (failed 404 "no such record", z)
          end
        else (failed 404 "not found", z)
      else (failed 404 "not found", z)
  | _ => (failed 404 "not found", z)
  end.

(** The records of one type held by the zone. *)
Definition held (type : string) (z : zone) : nat :=
  length (filter (of_type (PyStr type)) (numbered 0 (stored z))).
End Provider.

(** Sample data used to run the program. *)
Module Sample.
(** An interpreter to run the samples on.  The samples are ASCII, where
    [str.lower] does not depend on it. *)
#[global] Instance interpreter : Unicode := {| unicode_lower := fun s => s |}.

Definition api : CloudflareAPI.t :=
  CloudflareAPI.mk (PyBool false) (PyStr "me@example.com") (PyStr "k3y").

Definition empty_zone : Provider.zone :=
  Provider.mkZone (PyStr "z1") "example.com" [].

Definition start (z : Provider.zone) : world Provider.zone :=
  mkWorld z [].

Definition srv_record : pyval :=
  PyDict [("name", PyStr "svc"); ("type", PyStr "SRV");
          ("service", PyStr "_http"); ("proto", PyStr "TCP");
          ("priority", PyInt 10); ("weight", PyInt 5);
          ("port", PyInt 8080)].

Definition cname_record : pyval :=
  PyDict [("name", PyStr "www"); ("type", PyStr "CNAME")].

(** The Address record of the host [h], [hh], [hhh], ... *)
Fixpoint label (i : nat) : string :=
  match i with
  | O => "h"
  | S j => String "h" (label j)
  end.


Definition www_a : pyval :=
  PyDict [("type", PyStr "A"); ("name", PyStr "www.example.com");
          ("proxied", PyBool true); ("ttl", PyInt 1);
          ("content", PyStr "1.2.3.4")].

Definition svc_srv : pyval :=
  PyDict [("type", PyStr "SRV");
          ("data",
           PyDict [("name", PyStr "svc.example.com");
                   ("service", PyStr "_http");
                   ("proto", PyStr "_tcp");
                   ("priority", PyInt 10);
                   ("weight", PyInt 5);
                   ("port", PyInt 8080);
                   ("target", PyStr "svc.example.com")]);
          ("name", PyStr "_http._tcp.svc.example.com")].

Definition svc_a : pyval :=
  PyDict [("type", PyStr "A"); ("name", PyStr "svc.example.com");
          ("proxied", PyBool false); ("ttl", PyInt 1);
          ("content", PyStr "1.2.3.4")].

(** A zone that holds the Address record of [www]. *)
Definition www_zone : Provider.zone :=
  Provider.mkZone (PyStr "z1") "example.com" [www_a].

(** A zone that holds the Service record of [svc] and its Address
    record. *)
Definition svc_zone : Provider.zone :=
  Provider.mkZone (PyStr "z1") "example.com" [svc_a; svc_srv].

End Sample.

(** ** A provider that lists the latest change last

    The same storage served in another order, as by a provider that sorts
    its listings by the time of the last change: a record carries the id
    it was created with, and an update takes it out of its place and puts
    the new version at the end. *)
Module Reordering.

Definition with_id (id : pyval) (rec : pyval) : pyval :=
  match rec with
  | PyDict d => PyDict (dict_set "id" id d)
  | _ => rec
  end.

Definition has_id (id : pyval) (rec : pyval) : bool :=
  match getitem rec "id" with
  | Ok i => py_eq i id
  | Raise _ => false
  end.

Definition listing (type : pyval) (z : Provider.zone) : list pyval :=
  firstn Provider.page_size
    (filter (Provider.of_type type) (Provider.stored z)).

Definition http (r : request) (z : Provider.zone)
  : option response * Provider.zone :=
  match url r with
  | [Lit b; Lit p; Hole zid] =>
      if (b =? CloudflareAPI.BASE_URL) && (p =? "zones/")
         && (method r =? "GET") && py_eq zid (Provider.zone_id z)
      then
        (Provider.ok (PyDict [("name", PyStr (Provider.domain z))]), z)
      else (Provider.failed 404 "not found", z)
  | [Lit b; Lit p; Hole zid; Lit q] =>
      if (b =? CloudflareAPI.BASE_URL) && (p =? "zones/")
         && (q =? "/dns_records") && (method r =? "POST")
         && py_eq zid (Provider.zone_id z)
      then
        match Provider.stored_form (json r) with
        | Some rec =>
            let rec :=
              with_id (PyInt (Z.of_nat (length (Provider.stored z)))) rec in
            (Provider.ok rec,
             Provider.mkZone (Provider.zone_id z) (Provider.domain z)
               (Provider.stored z ++ [rec]))
        | None => (Provider.failed 400 "invalid record", z)
        end
      else (Provider.failed 404 "not found", z)
  | [Lit b; Lit p; Hole zid; Lit q; Hole x] =>
      if (b =? CloudflareAPI.BASE_URL) && (p =? "zones/")
         && py_eq zid (Provider.zone_id z)
      then
        if (q =? "/dns_records?per_page=100&type=") && (method r =? "GET")
        then (Provider.ok (PyList (listing x z)), z)
        else if (q =? "/dns_records/") && (method r =? "PUT") then
          match Provider.stored_form (json r) with
          | Some rec =>
              if existsb (has_id x) (Provider.stored z) then
                (Provider.ok (with_id x rec),
                 Provider.mkZone (Provider.zone_id z) (Provider.domain z)
                   (filter (fun old => negb (has_id x old))
                      (Provider.stored z) ++ [with_id x rec]))
              else (Provider.failed 404 "no such record", z)
          | None => (Provider.failed 400 "invalid record", z)
          end
        else (Provider.failed 404 "not found", z)
      else (Provider.failed 404 "not found", z)
  | _ => (Provider.failed 404 "not found", z)
  end.

(** An Address record of [www] as this provider keeps it. *)
Definition www_a (ip : string) (id : Z) : pyval :=
  PyDict [("type", PyStr "A"); ("name", PyStr "www.example.com");
          ("proxied", PyBool true); ("ttl", PyInt 1);
          ("content", PyStr ip); ("id", PyInt id)].

(** A zone with two Address records of that name, both out of date. *)
Definition twice_stale : Provider.zone :=
  Provider.mkZone (PyStr "z1") "example.com"
    [www_a "9.9.9.9" 0; www_a "9.9.9.9" 1].
End Reordering.

(** ** The handlers, step by step

    The pieces of the two handlers as functions of their own, so that the
    properties can speak of the lookup, of the payload and of what follows
    the lookup separately.  [handle_http_record_run] and
    [handle_srv_record_run] tie them to the handlers. *)

(** [check_record] after its request: the choice among the records
    listed. *)
Definition select_record (type : string) (name : pyval) (data : pyval)
  : result pyval :=
  (result_ <- getitem data "result" ;;
   items <- py_iter result_ ;;
   record <-
     (if type =? "SRV" then
        py_filter (fun rec => n <- getitem rec "name" ;; py_endswith n name)
          items
      else
        py_filter (fun rec => n <- getitem rec "name" ;; Ok (py_eq n name))
          items) ;;
   match record with
   | [] => Ok PyNone
   | first :: _ => Ok first
   end)%result.

(** The filter of [check_record] on records that carry their name as a
    string. *)
Definition name_matches (type name : string) (rec : pyval) : bool :=
  match getitem rec "name" with
  | Ok (PyStr stored) =>
      if type =? "SRV" then endswith stored name else stored =? name
  | _ => false
  end.

(** The name both handlers compute, lines 91 and 111. *)
Definition computed_name (name domain_name : pyval) : result pyval :=
  if py_eq name (PyStr "@") || py_eq name (PyStr "")
  then Ok domain_name
  else (n <- py_add name (PyStr ".") ;; py_add n domain_name)%result.

Section Steps.
Context {unicode : Unicode}.
Context {W : Type}.
Variable http : request -> W -> option response * W.
Variable api : CloudflareAPI.t.
Variable public_ip : string.

Local Open Scope monad_scope.

(** [handle_http_record] from line 97 on. *)
Definition settle_address (zone_id ttl proxied to_send record : pyval)
  : M W unit :=
  if negb (truthy record) then
    CloudflareAPI.add_record http api zone_id to_send
  else
    content <- lift (getitem record "content") ;;
    same <-
      (if py_eq content (PyStr public_ip) then
         ttl_ <- lift (getitem record "ttl") ;;
         if py_eq ttl_ ttl then
           proxied_ <- lift (getitem record "proxied") ;;
           ret (py_eq proxied_ proxied)
         else ret false
       else ret false) ;;
    if same : bool then ret tt
    else
      id <- lift (getitem record "id") ;;
      CloudflareAPI.update_record http api zone_id id to_send.

(** The [data] of lines 112 to 124. *)
Definition wanted_data (name record_data : pyval) : result pyval :=
  (proto_ <- (p <- getitem record_data "proto" ;; py_lower p) ;;
   service <- getitem record_data "service" ;;
   priority <- getitem record_data "priority" ;;
   weight <- getitem record_data "weight" ;;
   port <- getitem record_data "port" ;;
   Ok (PyDict [("name", name);
               ("service", service);
               ("proto", PyStr ("_" ++ proto_));
               ("priority", priority);
               ("weight", weight);
               ("port", port);
               ("target", name)]))%result.

(** [handle_srv_record] from line 127 on. *)
Definition settle_service (zone_id data record : pyval) : M W unit :=
  if negb (truthy record) then
    CloudflareAPI.add_record http api zone_id (service_payload data)
  else
    found <- lift (getitem record "data") ;;
    if py_eq found data then ret tt
    else
      id <- lift (getitem record "id") ;;
      CloudflareAPI.update_record http api zone_id id (service_payload data).

(** [handle_srv_record] from line 111 on. *)
Definition service_part (domain_name zone_id name record_data : pyval)
  : M W unit :=
  name_ <- lift (computed_name name domain_name) ;;
  data <- lift (wanted_data name_ record_data) ;;
  record <- CloudflareAPI.check_record http api zone_id name_ "SRV" ;;
  settle_service zone_id data record.
End Steps.

(** The requests of one reconciliation: nothing at all when the request
    could not be built, else the lookup, then at most one write. *)
Definition is_lookup (type : string) (zone_id : pyval) (r : request) : Prop :=
  method r = "GET" /\ url r = lookup_url zone_id type /\ json r = PyDict [].

Definition is_write_of (payload : pyval) (r : request) : Prop :=
  (method r = "POST" \/ method r = "PUT") /\ json r = payload.

Definition one_reconciliation (type : string) (zone_id : pyval)
    (res : result unit) (new : list request) : Prop :=
  (new = [] /\ res <> Ok tt) \/
  (exists g, new = [g] /\ is_lookup type zone_id g) \/
  (exists g w p, new = [g; w] /\ is_lookup type zone_id g /\
     is_write_of p w /\ getitem p "type" = Ok (PyStr type)).

(** The keys of a dictionary, in order. *)
Definition py_keys (v : pyval) : list string :=
  match v with
  | PyDict d => map fst d
  | _ => []
  end.



(** ** The zone as the lookups see it *)

(** Every record of one type held by the zone, with its id. *)
Definition type_listing (type : string) (z : Provider.zone) : list pyval :=
  filter (Provider.of_type (PyStr type))
    (Provider.numbered 0 (Provider.stored z)).

(** Those of them whose name matches. *)
Definition candidates (type name : string) (z : Provider.zone) : list pyval :=
  filter (name_matches type name) (type_listing type z).

(** A record that needs no write: the Address test of line 101 and the
    Service test of line 131 succeed on it. *)
Definition settled_address (ip : string) (ttl proxied : pyval) (r : pyval)
  : Prop :=
  exists c t p,
    getitem r "content" = Ok c /\ getitem r "ttl" = Ok t /\
    getitem r "proxied" = Ok p /\
    py_eq c (PyStr ip) = true /\ py_eq t ttl = true /\
    py_eq p proxied = true.


(** The zone after a record was added, and after one was replaced. *)
Definition zone_with (z : Provider.zone) (recs : list pyval) : Provider.zone :=
  Provider.mkZone (Provider.zone_id z) (Provider.domain z) recs.

(** The lookup request and the two write requests. *)
Definition get_records (zone_id : pyval) (type : string) (hd : pyval)
  : request :=
  mkRequest "GET" (lookup_url zone_id type) hd (PyDict []).

Definition post_record (zone_id : pyval) (hd data : pyval) : request :=
  mkRequest "POST"
    [Lit CloudflareAPI.BASE_URL; Lit "zones/"; Hole zone_id;
     Lit "/dns_records"] hd data.

Definition put_record (zone_id id : pyval) (hd data : pyval) : request :=
  mkRequest "PUT"
    [Lit CloudflareAPI.BASE_URL; Lit "zones/"; Hole zone_id;
     Lit "/dns_records/"; Hole id] hd data.

(** ** Start-up: the public IP, the logger and the main block *)

(** Start-up can also end in a [ValueError], when the trace is not made of
    [key=value] lines. *)
Inductive start_result (A : Type) : Type :=
| Got (a : A)
| Failed (e : exn)
| FailedValueError.
Arguments Got {A} a.
Arguments Failed {A} e.
Arguments FailedValueError {A}.

Definition newline : ascii := ascii_of_nat 10.
Definition equals_sign : ascii := ascii_of_nat 61.

(** [s[:-1]] *)
Fixpoint drop_last (s : string) : string :=
  match s with
  | EmptyString => EmptyString
  | String c s' =>
      match s' with
      | EmptyString => EmptyString
      | String _ _ => String c (drop_last s')
      end
  end.

(** [s.split(sep)] for a separator of one character.  The result is never
    empty, so the first branch of the inner [match] is never taken. *)
Fixpoint split (sep : ascii) (s : string) : list string :=
  match s with
  | EmptyString => [EmptyString]
  | String c s' =>
      if Ascii.eqb c sep then EmptyString :: split sep s'
      else
        match split sep s' with
        | [] => [String c EmptyString]
        | first :: rest => String c first :: rest
        end
  end.

(** A dictionary of strings: [d[k] = v] and [d[k]]. *)
Fixpoint fields_set (k v : string) (d : list (string * string))
  : list (string * string) :=
  match d with
  | [] => [(k, v)]
  | (k', v') :: d' =>
      if k' =? k then (k, v) :: d' else (k', v') :: fields_set k v d'
  end.

Fixpoint fields_get (k : string) (d : list (string * string))
  : option string :=
  match d with
  | [] => None
  | (k', v) :: d' => if k' =? k then Some v else fields_get k d'
  end.

(** [dict(line.split("=") for line in lines)]: every line has to split in
    two, a later key replaces an earlier one.  [None] is the
    [ValueError] of [dict]. *)
Fixpoint dict_of_lines (lines : list string) (d : list (string * string))
  : option (list (string * string)) :=
  match lines with
  | [] => Some d
  | line :: rest =>
      match split equals_sign line with
      | [k; v] => dict_of_lines rest (fields_set k v d)
      | _ => None
      end
  end.

(** Line 169, from the text of the trace on. *)
Definition public_ip_of (text : string) : start_result string :=
  match dict_of_lines (split newline (drop_last text)) [] with
  | None => FailedValueError
  | Some d =>
      match fields_get "ip" d with
      | Some ip => Got ip
      | None => Failed (KeyError (PyStr "ip"))
      end
  end.

(** A trace as the service writes it: one [key=value] line per field, each
    ended by a newline. *)
Fixpoint trace_text (fields : list (string * string)) : string :=
  match fields with
  | [] => EmptyString
  | (k, v) :: rest =>
      (k ++ String equals_sign (v ++ String newline (trace_text rest)))%string
  end.

Fixpoint contains (c : ascii) (s : string) : bool :=
  match s with
  | EmptyString => false
  | String c' s' => Ascii.eqb c' c || contains c s'
  end.

(** A field that the trace format can carry. *)
Definition plain (kv : string * string) : Prop :=
  contains equals_sign (fst kv) = false /\
  contains newline (fst kv) = false /\
  contains equals_sign (snd kv) = false /\
  contains newline (snd kv) = false.

(** A field that stays on its line. *)
Definition one_line (kv : string * string) : Prop :=
  contains newline (fst kv) = false /\ contains newline (snd kv) = false.

(** The line of a field. *)
Definition line_of (kv : string * string) : string :=
  (fst kv ++ String equals_sign (snd kv))%string.

(** The last field with a given key. *)
Fixpoint last_value (key : string) (fields : list (string * string))
  : option string :=
  match fields with
  | [] => None
  | (k, v) :: rest =>
      match last_value key rest with
      | Some x => Some x
      | None => if k =? key then Some v else None
      end
  end.

(** The last binding of a key in a list of entries. *)
Fixpoint last_entry (key : string) (entries : list (string * pyval))
  : option pyval :=
  match entries with
  | [] => None
  | (k, v) :: rest =>
      match last_entry key rest with
      | Some x => Some x
      | None => if k =? key then Some v else None
      end
  end.

(** *** class Logger

    The two class attributes, and what the class does to the outside: the
    calls of [colorama.init] and the lines printed.  The two colour codes
    come from colorama. *)
Module Logger.

Record t : Type := mk {
  ENABLED : bool;
  INITIALIZED : bool;
  colorama_inits : nat;
  printed : list string
}.

Section Colours.
Variables GREEN RESET : string.

Definition initialize (st : t) : t :=
  if negb (INITIALIZED st) then
    mk (ENABLED st) true (S (colorama_inits st)) (printed st)
  else st.

Definition info (message : string) (st : t) : t :=
  if negb (ENABLED st) then st
  else
    let st := initialize st in
    mk (ENABLED st) (INITIALIZED st) (colorama_inits st)
      (printed st ++ [(GREEN ++ "[INFO] " ++ message ++ RESET)%string]).

(** Several calls of [info], one after the other. *)
Definition infos (messages : list string) (st : t) : t :=
  fold_left (fun st message => info message st) messages st.
End Colours.
End Logger.

Section Main.
Context {unicode : Unicode}.
Context {W : Type}.
Variable http : request -> W -> option response * W.

Local Open Scope monad_scope.

(** [for ddns_data in zones: run_ddns(ddns_data)] *)
Fixpoint for_each_zone (api : CloudflareAPI.t) (public_ip : string)
    (zones : list pyval) : M W unit :=
  match zones with
  | [] => ret tt
  | ddns_data :: rest =>
      run_ddns http api public_ip ddns_data ;;
      for_each_zone api public_ip rest
  end.

(** The [__main__] block, from the parsed [config.json] and the text of
    the trace on; [None] is a trace that could not be fetched. *)
Definition main (config : pyval) (trace : option string) (w : world W)
  : start_result unit * world W :=
  match (auth <- py_get config "authentication" (PyDict []) ;;
         CloudflareAPI.init auth)%result with
  | Raise e => (Failed e, w)
  | Ok api =>
      match trace with
      | None => (Failed RequestException, w)
      | Some text =>
          match public_ip_of text with
          | FailedValueError => (FailedValueError, w)
          | Failed e => (Failed e, w)
          | Got public_ip =>
              match (zs <- py_get config "dns" (PyList []) ;;
                     py_iter zs)%result with
              | Raise e => (Failed e, w)
              | Ok zones =>
                  match for_each_zone api public_ip zones w with
                  | (Ok _, w') => (Got tt, w')
                  | (Raise e, w') => (Failed e, w')
                  end
              end
          end
      end
  end.
End Main.

(** * Properties *)

(** ** Python values *)

Lemma dict_get_unique (d : list (string * pyval)) k v :
  NoDup (map fst d) -> In (k, v) d -> dict_get k d = Some v.
Proof.
  induction d as [|[k' v'] d IH]; simpl; intros Hnd Hin; [contradiction|].
  inversion Hnd as [|? ? Hnotin Hnd']; subst.
  destruct Hin as [Heq|Hin].
  - inversion Heq; subst. now rewrite String.eqb_refl.
  - destruct (String.eqb_spec k' k) as [->|Hne].
    + exfalso. apply Hnotin. apply in_map_iff. now exists (k, v).
    + now apply IH.
Qed.

Lemma unique_keys_list items :
  unique_keys (PyList items) <-> Forall unique_keys items.
Proof.
  simpl. induction items as [|x l IH].
  - split; auto.
  - split.
    + intros [Hx Hl]. constructor; [exact Hx | now apply IH].
    + intros H. inversion H; subst. split; [assumption | now apply IH].
Qed.

Lemma unique_keys_dict d :
  unique_keys (PyDict d) <->
  NoDup (map fst d) /\ Forall (fun kv => unique_keys (snd kv)) d.
Proof.
  simpl. apply and_iff_compat_l.
  induction d as [|x l IH].
  - split; auto.
  - split.
    + intros [Hx Hl]. constructor; [exact Hx | now apply IH].
    + intros H. inversion H; subst. split; [assumption | now apply IH].
Qed.

(** [==] is reflexive on the values a JSON parser builds. *)
Lemma py_eq_refl v : unique_keys v -> py_eq v v = true.
Proof.
  induction v as [ | b | n | s | items IH | d IH ] using pyval_ind; intros Hu.
  - reflexivity.
  - simpl. now destruct b.
  - simpl. apply Z.eqb_refl.
  - simpl. apply String.eqb_refl.
  - apply unique_keys_list in Hu. simpl.
    induction items as [|x l IHl]; [reflexivity|].
    inversion IH; subst. inversion Hu; subst.
    rewrite H1 by assumption. simpl. now apply IHl.
  - apply unique_keys_dict in Hu. destruct Hu as [Hnd Hall].
    simpl. rewrite Nat.eqb_refl. simpl.
    apply forallb_forall. intros [k v] Hin.
    simpl. rewrite (dict_get_unique d k v Hnd Hin).
    rewrite Forall_forall in IH, Hall.
    apply (IH (k, v) Hin). apply (Hall (k, v) Hin).
Qed.

Lemma py_eq_str s t : py_eq (PyStr s) (PyStr t) = (s =? t).
Proof. reflexivity. Qed.

(** [endswith] is Python's: some text, then the suffix. *)
Lemma endswith_spec s suffix :
  endswith s suffix = true <-> exists label, s = (label ++ suffix)%string.
Proof.
  induction s as [|c s IH]; cbn [endswith].
  - rewrite orb_false_r. split.
    + intros H. apply String.eqb_eq in H. subst. now exists "".
    + intros [label H]. destruct label; simpl in H.
      * subst. reflexivity.
      * discriminate.
  - rewrite orb_true_iff, IH. split.
    + intros [H|[label H]].
      * apply String.eqb_eq in H. subst. now exists "".
      * exists (String c label). simpl. now rewrite H.
    + intros [label H]. destruct label as [|c' label]; simpl in H.
      * left. subst. apply String.eqb_refl.
      * right. exists label. now inversion H.
Qed.

Lemma append_assoc (a b c : string) :
  ((a ++ b) ++ c = a ++ (b ++ c))%string.
Proof. induction a as [|x a IH]; simpl; [reflexivity | now rewrite IH]. Qed.

Lemma endswith_append label s : endswith (label ++ s)%string s = true.
Proof. apply endswith_spec. now exists label. Qed.

(** On ASCII text [lower] spells the text in small letters. *)
Lemma lower_ascii_spelled c : lower_case_of c (lower_ascii c).
Proof.
  destruct c as [[] [] [] [] [] [] [] []]; vm_compute; reflexivity.
Qed.

Lemma lower_ascii_text_spelled s : spelled_lower s (lower_ascii_text s).
Proof.
  induction s as [|c s IH]; simpl; constructor;
    auto using lower_ascii_spelled.
Qed.

Lemma lower_spelled {unicode : Unicode} s :
  ascii_only s = true -> spelled_lower s (lower s).
Proof.
  intros Ha. unfold lower. rewrite Ha. apply lower_ascii_text_spelled.
Qed.

Lemma lower_case_of_unique c x y :
  lower_case_of c x -> lower_case_of c y -> x = y.
Proof.
  unfold lower_case_of. destruct (is_upper c).
  - intros Hx Hy.
    rewrite <- (ascii_nat_embedding x), <- (ascii_nat_embedding y).
    now rewrite Hx, Hy.
  - congruence.
Qed.

Lemma spelled_lower_unique s t t' :
  spelled_lower s t -> spelled_lower s t' -> t = t'.
Proof.
  intros H. revert t'. induction H as [|c c' s s' Hc _ IH]; intros t' H'.
  - now inversion H'.
  - inversion H' as [|? c'' ? s'' Hc' Hs']; subst.
    now rewrite (lower_case_of_unique _ _ _ Hc Hc'), (IH _ Hs').
Qed.

Lemma lower_of_spelling {unicode : Unicode} s t :
  ascii_only s = true -> spelled_lower s t -> lower s = t.
Proof.
  intros Ha Hs. eapply spelled_lower_unique; [|exact Hs].
  now apply lower_spelled.
Qed.

(** ** The client, against any provider *)
Section ClientFacts.
Context {unicode : Unicode}.
Context {W : Type}.
Variable http : request -> W -> option response * W.
Variable api : CloudflareAPI.t.
Variable public_ip : string.

Lemma check_record_run zone_id name type w :
  CloudflareAPI.check_record http api zone_id name type w =
  bind (CloudflareAPI.make_request http api "GET"
          [Lit "zones/"; Hole zone_id;
           Lit "/dns_records?per_page=100&type="; Hole (PyStr type)]
          PyNone PyNone)
       (fun data => lift (select_record type name data)) w.
Proof. reflexivity. Qed.

Lemma computed_name_str n dn :
  computed_name (PyStr n) (PyStr dn) = Ok (PyStr (effectiveName n dn)).
Proof.
  unfold computed_name, effectiveName. rewrite !py_eq_str.
  destruct ((n =? "@") || (n =? "")); [reflexivity|].
  simpl. now rewrite append_assoc.
Qed.

Lemma handle_http_record_run domain_name zone_id name ttl proxied rd w :
  handle_http_record http api public_ip domain_name zone_id name ttl
    proxied rd w =
  bind (lift (computed_name name domain_name))
    (fun name_ =>
       bind (CloudflareAPI.check_record http api zone_id name_ "A")
         (settle_address http api public_ip zone_id ttl proxied
            (PyDict [("type", PyStr "A"); ("name", name_);
                     ("proxied", proxied); ("ttl", ttl);
                     ("content", PyStr public_ip)]))) w.
Proof. reflexivity. Qed.

Lemma handle_srv_record_run domain_name zone_id name ttl proxied rd w :
  handle_srv_record http api public_ip domain_name zone_id name ttl
    proxied rd w =
  bind (handle_http_record http api public_ip domain_name zone_id name ttl
          proxied PyNone)
    (fun _ => service_part http api domain_name zone_id name rd) w.
Proof.
  unfold handle_srv_record, service_part, wanted_data, settle_service,
    service_payload, bind, lift.
  destruct (handle_http_record _ _ _ _ _ _ _ _ _ _) as [[[]|e] w1];
    [|reflexivity].
  fold (computed_name name domain_name).
  destruct (computed_name name domain_name) as [name_|e]; [|reflexivity].
  destruct (getitem rd "proto") as [p|e]; [|reflexivity]. simpl.
  destruct (py_lower p) as [pl|e]; [|reflexivity]. simpl.
  destruct (getitem rd "service") as [sv|e]; [|reflexivity]. simpl.
  destruct (getitem rd "priority") as [pr|e]; [|reflexivity]. simpl.
  destruct (getitem rd "weight") as [wt|e]; [|reflexivity]. simpl.
  destruct (getitem rd "port") as [pt|e]; reflexivity.
Qed.

(** One call of [make_request] hands at most one request to the
    transport, and none only when it raises before sending. *)
Lemma make_request_cases m e d h w r w' :
  CloudflareAPI.make_request http api m e d h w = (r, w') ->
  (w' = w /\ exists ex, r = Raise ex) \/
  (exists hd,
      sent w' = sent w ++
        [mkRequest m (Lit CloudflareAPI.BASE_URL :: e) hd
           (if negb (truthy d) then PyDict [] else d)]).
Proof.
  unfold CloudflareAPI.make_request, bind, lift, requests_request.
  destruct (CloudflareAPI.getAuthHeaders api _) as [hd|ex].
  - intros H. right. exists hd.
    destruct (http _ (provider w)) as [[resp|] p].
    + destruct (status_code resp =? 200)%Z;
        inversion H; subst; reflexivity.
    + inversion H; subst; reflexivity.
  - intros H. inversion H; subst. left. split; [reflexivity|].
    now exists ex.
Qed.

Lemma check_record_cases zone_id name type w r w' :
  CloudflareAPI.check_record http api zone_id name type w = (r, w') ->
  (w' = w /\ exists ex, r = Raise ex) \/
  (exists g, sent w' = sent w ++ [g] /\ is_lookup type zone_id g).
Proof.
  rewrite check_record_run. unfold bind, lift.
  destruct (CloudflareAPI.make_request _ _ _ _ _ _ w) as [[data|ex] w1] eqn:Hm;
    intros H; inversion H; subst; clear H;
    apply make_request_cases in Hm; destruct Hm as [[-> [ex' Hr]]|[hd Hs]].
  - discriminate.
  - right. eexists. split; [exact Hs|]. now repeat split.
  - left. split; [reflexivity|]. now exists ex.
  - right. eexists. split; [exact Hs|]. now repeat split.
Qed.

Lemma add_record_cases zone_id data w r w' :
  truthy data = true ->
  CloudflareAPI.add_record http api zone_id data w = (r, w') ->
  (w' = w /\ r <> Ok tt) \/
  (exists wr, sent w' = sent w ++ [wr] /\ is_write_of data wr).
Proof.
  intros Ht. unfold CloudflareAPI.add_record, bind, ret.
  destruct (CloudflareAPI.make_request _ _ _ _ _ _ w) as [[x|ex] w1] eqn:Hm;
    intros H; inversion H; subst; clear H;
    apply make_request_cases in Hm; destruct Hm as [[-> [ex' Hr]]|[hd Hs]];
    try discriminate.
  - right. eexists. split; [exact Hs|]. rewrite Ht. split; simpl; auto.
  - left. split; [reflexivity | discriminate].
  - right. eexists. split; [exact Hs|]. rewrite Ht. split; simpl; auto.
Qed.

Lemma update_record_cases zone_id id data w r w' :
  truthy data = true ->
  CloudflareAPI.update_record http api zone_id id data w = (r, w') ->
  (w' = w /\ r <> Ok tt) \/
  (exists wr, sent w' = sent w ++ [wr] /\ is_write_of data wr).
Proof.
  intros Ht. unfold CloudflareAPI.update_record, bind, ret.
  destruct (CloudflareAPI.make_request _ _ _ _ _ _ w) as [[x|ex] w1] eqn:Hm;
    intros H; inversion H; subst; clear H;
    apply make_request_cases in Hm; destruct Hm as [[-> [ex' Hr]]|[hd Hs]];
    try discriminate.
  - right. eexists. split; [exact Hs|]. rewrite Ht. split; simpl; auto.
  - left. split; [reflexivity | discriminate].
  - right. eexists. split; [exact Hs|]. rewrite Ht. split; simpl; auto.
Qed.
End ClientFacts.

(** ** What one reconciliation sends *)
Section Traces.
Context {unicode : Unicode}.
Context {W : Type}.
Variable http : request -> W -> option response * W.
Variable api : CloudflareAPI.t.
Variable public_ip : string.

Lemma settle_address_cases zone_id ttl proxied to_send record w r w' :
  truthy to_send = true ->
  settle_address http api public_ip zone_id ttl proxied to_send record w
    = (r, w') ->
  (w' = w) \/
  (exists wr, sent w' = sent w ++ [wr] /\ is_write_of to_send wr).
Proof.
  intros Ht. unfold settle_address.
  destruct (negb (truthy record)).
  - intros H. apply add_record_cases in H; [|exact Ht].
    destruct H as [[-> _]|H]; auto.
  - unfold bind, lift, ret.
    destruct (getitem record "content") as [c|e];
      [|intros H; inversion H; auto].
    destruct (py_eq c (PyStr public_ip)).
    + destruct (getitem record "ttl") as [t|e];
        [|intros H; inversion H; auto].
      destruct (py_eq t ttl).
      * destruct (getitem record "proxied") as [p|e];
          [|intros H; inversion H; auto].
        destruct (py_eq p proxied); [intros H; inversion H; auto|].
        destruct (getitem record "id") as [i|e];
          [|intros H; inversion H; auto].
        intros H. apply update_record_cases in H; [|exact Ht].
        destruct H as [[-> _]|H]; auto.
      * destruct (getitem record "id") as [i|e];
          [|intros H; inversion H; auto].
        intros H. apply update_record_cases in H; [|exact Ht].
        destruct H as [[-> _]|H]; auto.
    + destruct (getitem record "id") as [i|e];
        [|intros H; inversion H; auto].
      intros H. apply update_record_cases in H; [|exact Ht].
      destruct H as [[-> _]|H]; auto.
Qed.

Lemma settle_service_cases zone_id data record w r w' :
  settle_service http api zone_id data record w = (r, w') ->
  (w' = w) \/
  (exists wr, sent w' = sent w ++ [wr] /\
              is_write_of (service_payload data) wr).
Proof.
  unfold settle_service.
  destruct (negb (truthy record)).
  - intros H. apply add_record_cases in H; [|reflexivity].
    destruct H as [[-> _]|H]; auto.
  - unfold bind, lift, ret.
    destruct (getitem record "data") as [c|e];
      [|intros H; inversion H; auto].
    destruct (py_eq c data); [intros H; inversion H; auto|].
    destruct (getitem record "id") as [i|e];
      [|intros H; inversion H; auto].
    intros H. apply update_record_cases in H; [|reflexivity].
    destruct H as [[-> _]|H]; auto.
Qed.

(** A lookup followed by what settles it is one reconciliation. *)
Lemma lookup_then_settle type zone_id name to_send
    (settle : pyval -> M W unit) w r w' :
  getitem to_send "type" = Ok (PyStr type) ->
  (forall record w1 r1 w2, settle record w1 = (r1, w2) ->
     w2 = w1 \/
     (exists wr, sent w2 = sent w1 ++ [wr] /\ is_write_of to_send wr)) ->
  bind (CloudflareAPI.check_record http api zone_id name type) settle w
    = (r, w') ->
  exists new, sent w' = sent w ++ new /\
              one_reconciliation type zone_id r new.
Proof.
  intros Hty Hsettle. unfold bind.
  destruct (CloudflareAPI.check_record _ _ _ _ _ w) as [[record|ex] w1] eqn:Hc.
  - apply check_record_cases in Hc.
    destruct Hc as [[_ [ex Hr]]|[g [Hs Hg]]]; [discriminate|].
    intros H. apply Hsettle in H. destruct H as [->|[wr [Hw Hwr]]].
    + exists [g]. split; [exact Hs|]. right. left. now exists g.
    + exists [g; wr]. split.
      * rewrite Hw, Hs, <- app_assoc. reflexivity.
      * right. right. exists g, wr, to_send. auto.
  - intros H. inversion H; subst; clear H.
    apply check_record_cases in Hc.
    destruct Hc as [[-> _]|[g [Hs Hg]]].
    + exists []. split; [now rewrite app_nil_r|]. left. split; [reflexivity|].
      discriminate.
    + exists [g]. split; [exact Hs|]. right. left. now exists g.
Qed.

Lemma handle_http_record_trace domain_name zone_id name ttl proxied rd
    w r w' :
  handle_http_record http api public_ip domain_name zone_id name ttl
    proxied rd w = (r, w') ->
  exists new, sent w' = sent w ++ new /\
              one_reconciliation "A" zone_id r new.
Proof.
  rewrite handle_http_record_run. unfold bind at 1. unfold lift at 1.
  destruct (computed_name name domain_name) as [name_|ex].
  - apply lookup_then_settle with
      (to_send := PyDict [("type", PyStr "A"); ("name", name_);
                          ("proxied", proxied); ("ttl", ttl);
                          ("content", PyStr public_ip)]);
      [reflexivity|].
    intros record w1 r1 w2. now apply settle_address_cases.
  - intros H. inversion H; subst. exists []. split; [now rewrite app_nil_r|].
    left. split; [reflexivity | discriminate].
Qed.

Lemma service_part_trace domain_name zone_id name rd w r w' :
  service_part http api domain_name zone_id name rd w = (r, w') ->
  exists new, sent w' = sent w ++ new /\
              one_reconciliation "SRV" zone_id r new.
Proof.
  unfold service_part. unfold bind at 1. unfold lift at 1.
  destruct (computed_name name domain_name) as [name_|ex].
  - unfold bind at 1. unfold lift at 1.
    destruct (wanted_data name_ rd) as [data|ex].
    + apply lookup_then_settle with (to_send := service_payload data);
        [reflexivity|].
      intros record w1 r1 w2. apply settle_service_cases.
    + intros H. inversion H; subst. exists [].
      split; [now rewrite app_nil_r|].
      left. split; [reflexivity | discriminate].
  - intros H. inversion H; subst. exists []. split; [now rewrite app_nil_r|].
    left. split; [reflexivity | discriminate].
Qed.

(** The counts and the subject of one reconciliation. *)
Lemma one_reconciliation_counts type zone_id r new :
  one_reconciliation type zone_id r new ->
  (reads new <= 1 /\ writes new <= 1 /\ (r = Ok tt -> reads new = 1))%nat
  /\ Forall (concerns type zone_id) new.
Proof.
  unfold one_reconciliation, reads, writes, is_lookup, is_write_of,
    is_read, is_write, concerns.
  intros [[-> Hr]|[[g [-> [Hm [Hu Hj]]]]|
                   [g [wr [p [-> [[Hm [Hu Hj]] [[Hw Hp] Ht]]]]]]]].
  - simpl. repeat split; auto. intros ->. now contradiction Hr.
  - simpl. rewrite Hm. simpl. repeat split; auto.
  - simpl. rewrite Hm. simpl.
    assert (Hne : method wr <> "GET") by (destruct Hw as [-> | ->]; discriminate).
    assert (Hrd : (method wr =? "GET") = false) by now apply String.eqb_neq.
    assert (Hwt : (method wr =? "POST") || (method wr =? "PUT") = true)
      by (destruct Hw as [-> | ->]; reflexivity).
    rewrite Hrd, Hwt. simpl. repeat split; auto.
    constructor; [left; auto|].
    constructor; [|constructor]. right. split; [exact Hne|]. now rewrite Hp.
Qed.
End Traces.

(** ** The lookup rule *)

Lemma getitem_truthy v k x : getitem v k = Ok x -> truthy v = true.
Proof.
  destruct v as [ | | | | |d]; simpl; try discriminate.
  destruct d; [discriminate | reflexivity].
Qed.

Lemma name_matches_spec type name rec :
  name_matches type name rec = true <-> matches type name rec.
Proof.
  unfold name_matches, matches.
  destruct (getitem rec "name") as [[ | | |stored| | ]|e];
    try (split; [discriminate | intros [s [H _]]; discriminate]).
  split.
  - intros H. exists stored. split; [reflexivity|].
    destruct (type =? "SRV").
    + now apply endswith_spec.
    + now apply String.eqb_eq.
  - intros [s [Hs H]]. inversion Hs; subst s.
    destruct (type =? "SRV").
    + now apply endswith_spec.
    + now apply String.eqb_eq.
Qed.

Lemma name_matches_false type name rec :
  name_matches type name rec = false <-> ~ matches type name rec.
Proof.
  rewrite <- name_matches_spec. now destruct (name_matches type name rec).
Qed.

Lemma py_filter_named type name records :
  Forall named records ->
  (if type =? "SRV" then
     py_filter (fun rec => n <- getitem rec "name" ;;
                           py_endswith n (PyStr name))%result records
   else
     py_filter (fun rec => n <- getitem rec "name" ;;
                           Ok (py_eq n (PyStr name)))%result records)
  = Ok (filter (name_matches type name) records).
Proof.
  intros Hall. unfold name_matches.
  destruct (type =? "SRV");
    induction Hall as [|rec l [stored Hrec] _ IH]; simpl; try reflexivity;
    rewrite Hrec; simpl; rewrite IH; simpl; reflexivity.
Qed.

Lemma select_record_named type name data records :
  getitem data "result" = Ok (PyList records) ->
  Forall named records ->
  select_record type (PyStr name) data =
  Ok match filter (name_matches type name) records with
     | [] => PyNone
     | first :: _ => first
     end.
Proof.
  intros Hres Hall. unfold select_record. rewrite Hres. simpl.
  rewrite (py_filter_named type name Hall). simpl.
  now destruct (filter _ records).
Qed.

Lemma filter_nil_none {A} (f : A -> bool) l :
  filter f l = [] -> Forall (fun y => f y = false) l.
Proof.
  induction l as [|a l IH]; simpl; [constructor|].
  destruct (f a) eqn:Hf; [discriminate|]. auto.
Qed.

Lemma filter_head_first {A} (f : A -> bool) l x t :
  filter f l = x :: t ->
  exists before after,
    l = before ++ x :: after /\ f x = true /\
    Forall (fun y => f y = false) before /\ t = filter f after.
Proof.
  induction l as [|a l IH]; simpl; [discriminate|].
  destruct (f a) eqn:Hf.
  - intros H. inversion H; subst. exists [], l. auto.
  - intros H. destruct (IH H) as [b [c [-> [Hx [Hb Ht]]]]].
    exists (a :: b), c. auto.
Qed.

Lemma filter_first_head {A} (f : A -> bool) before x after :
  Forall (fun y => f y = false) before -> f x = true ->
  filter f (before ++ x :: after) = x :: filter f after.
Proof.
  induction 1 as [|a l Ha _ IH]; simpl; intros Hx.
  - now rewrite Hx.
  - rewrite Ha. auto.
Qed.

(** ** What follows the lookup *)
Section Decisions.
Context {unicode : Unicode}.
Context {W : Type}.
Variable http : request -> W -> option response * W.
Variable api : CloudflareAPI.t.
Variable public_ip : string.

Lemma settle_address_found zone_id ttl proxied to_send record c t p i w :
  getitem record "content" = Ok c ->
  getitem record "ttl" = Ok t ->
  getitem record "proxied" = Ok p ->
  getitem record "id" = Ok i ->
  settle_address http api public_ip zone_id ttl proxied to_send record w =
  perform http api zone_id
    (if py_eq c (PyStr public_ip) && py_eq t ttl && py_eq p proxied
     then NoOp else Update i to_send) w.
Proof.
  intros Hc Ht Hp Hi. unfold settle_address.
  rewrite (getitem_truthy _ _ Hc). simpl.
  unfold bind, lift, ret. rewrite Hc.
  destruct (py_eq c (PyStr public_ip)); simpl.
  - rewrite Ht. destruct (py_eq t ttl); simpl.
    + rewrite Hp. destruct (py_eq p proxied); simpl; [reflexivity|].
      now rewrite Hi.
    + now rewrite Hi.
  - now rewrite Hi.
Qed.

Lemma settle_service_found zone_id data record found i w :
  getitem record "data" = Ok found ->
  getitem record "id" = Ok i ->
  settle_service http api zone_id data record w =
  perform http api zone_id
    (if py_eq found data then NoOp else Update i (service_payload data)) w.
Proof.
  intros Hd Hi. unfold settle_service.
  rewrite (getitem_truthy _ _ Hd). simpl.
  unfold bind, lift, ret. rewrite Hd.
  destruct (py_eq found data); simpl; [reflexivity|].
  now rewrite Hi.
Qed.

Lemma wanted_data_fields name rd proto service priority weight port :
  getitem rd "proto" = Ok (PyStr proto) ->
  getitem rd "service" = Ok service ->
  getitem rd "priority" = Ok priority ->
  getitem rd "weight" = Ok weight ->
  getitem rd "port" = Ok port ->
  wanted_data (PyStr name) rd =
  Ok (service_data name service proto priority weight port).
Proof.
  intros Hp Hs Hpr Hw Hpt. unfold wanted_data.
  rewrite Hp. simpl. rewrite Hs. simpl. rewrite Hpr. simpl.
  rewrite Hw. simpl. rewrite Hpt. reflexivity.
Qed.

(** [handle_srv_record] on string names, once the Address part is
    done. *)
Lemma service_part_str dn zone_id n rd proto service priority weight
    port w :
  getitem rd "proto" = Ok (PyStr proto) ->
  getitem rd "service" = Ok service ->
  getitem rd "priority" = Ok priority ->
  getitem rd "weight" = Ok weight ->
  getitem rd "port" = Ok port ->
  service_part http api (PyStr dn) zone_id (PyStr n) rd w =
  bind (CloudflareAPI.check_record http api zone_id
          (PyStr (effectiveName n dn)) "SRV")
    (settle_service http api zone_id
       (service_data (effectiveName n dn) service proto priority weight
          port)) w.
Proof.
  intros Hp Hs Hpr Hw Hpt. unfold service_part.
  rewrite computed_name_str. unfold bind at 1. unfold lift at 1.
  unfold bind at 1. unfold lift at 1.
  now rewrite (wanted_data_fields _ _ Hp Hs Hpr Hw Hpt).
Qed.
End Decisions.

(** ** Address records *)

(** C1: Address reconciliation looks up the "A" record under the effective
    name and builds the payload {type "A", name, proxied, ttl, content};
    when the lookup finds nothing it creates the payload; when it finds a
    record whose content, ttl and proxied flag equal the current IP and
    the desired ttl and flag it does nothing; otherwise it updates the
    record found, by its id, with the same payload. *)
Theorem handle_http_record_decides {W}
    (http : request -> W -> option response * W) api ip dn zone_id n ttl
    proxied rd w record w1 :
  CloudflareAPI.check_record http api zone_id (PyStr (effectiveName n dn))
    "A" w = (Ok record, w1) ->
  let payload := address_payload (effectiveName n dn) proxied ttl ip in
  (record = PyNone ->
   handle_http_record http api ip (PyStr dn) zone_id (PyStr n) ttl proxied
     rd w = perform http api zone_id (Create payload) w1) /\
  (forall content ttl_ proxied_ id,
      getitem record "content" = Ok content ->
      getitem record "ttl" = Ok ttl_ ->
      getitem record "proxied" = Ok proxied_ ->
      getitem record "id" = Ok id ->
      handle_http_record http api ip (PyStr dn) zone_id (PyStr n) ttl
        proxied rd w =
      perform http api zone_id
        (if py_eq content (PyStr ip) && py_eq ttl_ ttl
            && py_eq proxied_ proxied
         then NoOp else Update id payload) w1).
Proof.
  intros Hlookup payload.
  assert (Hrun : handle_http_record http api ip (PyStr dn) zone_id (PyStr n)
                   ttl proxied rd w =
                 settle_address http api ip zone_id ttl proxied payload
                   record w1).
  { rewrite handle_http_record_run, computed_name_str.
    unfold bind at 1. unfold lift at 1. unfold bind. now rewrite Hlookup. }
  split.
  - intros ->. exact Hrun.
  - intros c t p i Hc Ht Hp Hi. rewrite Hrun.
    now apply settle_address_found.
Qed.

Lemma handle_http_record_decides_witness :
  let run ip :=
    handle_http_record Provider.http Sample.api ip (PyStr "example.com")
      (PyStr "z1") (PyStr "www") (PyInt 1) (PyBool true) PyNone
      (Sample.start Sample.www_zone) in
  let looked :=
    snd (CloudflareAPI.check_record Provider.http Sample.api (PyStr "z1")
           (PyStr "www.example.com") "A" (Sample.start Sample.www_zone)) in
  run "5.6.7.8" =
    perform Provider.http Sample.api (PyStr "z1")
      (Update (PyInt 0)
         (address_payload "www.example.com" (PyBool true) (PyInt 1)
            "5.6.7.8")) looked /\
  run "1.2.3.4" = perform Provider.http Sample.api (PyStr "z1") NoOp looked.
Proof.
  intros run looked. split.
  - refine (proj2 (@handle_http_record_decides _ Provider.http Sample.api
                     "5.6.7.8" "example.com" (PyStr "z1") "www" (PyInt 1)
                     (PyBool true) PyNone (Sample.start Sample.www_zone)
                     (Provider.set_id 0 Sample.www_a) looked _)
                  (PyStr "1.2.3.4") (PyInt 1) (PyBool true) (PyInt 0)
                  _ _ _ _); reflexivity.
  - refine (proj2 (@handle_http_record_decides _ Provider.http Sample.api
                     "1.2.3.4" "example.com" (PyStr "z1") "www" (PyInt 1)
                     (PyBool true) PyNone (Sample.start Sample.www_zone)
                     (Provider.set_id 0 Sample.www_a) looked _)
                  (PyStr "1.2.3.4") (PyInt 1) (PyBool true) (PyInt 0)
                  _ _ _ _); reflexivity.
Defined.

(** C3: among the provider records listed for a type, the lookup returns
    the first one whose stored name ends with the target name when the
    type is "SRV", the first one whose stored name is the target name for
    any other type, and [None] when no record matches. *)
Theorem check_record_first_match {W}
    (http : request -> W -> option response * W) api zone_id name type w
    data w1 records :
  CloudflareAPI.make_request http api "GET"
    [Lit "zones/"; Hole zone_id; Lit "/dns_records?per_page=100&type=";
     Hole (PyStr type)] PyNone PyNone w = (Ok data, w1) ->
  getitem data "result" = Ok (PyList records) ->
  Forall named records ->
  exists r,
    CloudflareAPI.check_record http api zone_id (PyStr name) type w
      = (Ok r, w1) /\
    ((r = PyNone /\ Forall (fun rec => ~ matches type name rec) records) \/
     (exists before after,
         records = before ++ r :: after /\
         matches type name r /\
         Forall (fun rec => ~ matches type name rec) before)).
Proof.
  intros Hreq Hres Hall.
  rewrite check_record_run. unfold bind, lift. rewrite Hreq.
  rewrite (select_record_named type name data Hres Hall).
  destruct (filter (name_matches type name) records) as [|first rest] eqn:Hf.
  - exists PyNone. split; [reflexivity|]. left. split; [reflexivity|].
    apply filter_nil_none in Hf.
    eapply Forall_impl; [|exact Hf].
    intros rec. apply name_matches_false.
  - exists first. split; [reflexivity|]. right.
    destruct (filter_head_first _ _ Hf) as [before [after [-> [Hx [Hb _]]]]].
    exists before, after. split; [reflexivity|].
    split; [now apply name_matches_spec|].
    eapply Forall_impl; [|exact Hb].
    intros rec. apply name_matches_false.
Qed.

Lemma check_record_first_match_witness :
  exists r,
    CloudflareAPI.check_record Provider.http Sample.api (PyStr "z1")
      (PyStr "svc.example.com") "SRV" (Sample.start Sample.svc_zone)
    = (Ok r,
       snd (CloudflareAPI.check_record Provider.http Sample.api (PyStr "z1")
              (PyStr "svc.example.com") "SRV"
              (Sample.start Sample.svc_zone))) /\
    ((r = PyNone /\
      Forall (fun rec => ~ matches "SRV" "svc.example.com" rec)
        [Provider.set_id 1 Sample.svc_srv]) \/
     (exists before after,
         [Provider.set_id 1 Sample.svc_srv] = before ++ r :: after /\
         matches "SRV" "svc.example.com" r /\
         Forall (fun rec => ~ matches "SRV" "svc.example.com" rec) before)).
Proof.
  apply (@check_record_first_match _ Provider.http Sample.api (PyStr "z1")
           "svc.example.com" "SRV" (Sample.start Sample.svc_zone)
           (PyDict [("result", PyList [Provider.set_id 1 Sample.svc_srv])])).
  - reflexivity.
  - reflexivity.
  - constructor; [|constructor].
    exists "_http._tcp.svc.example.com". reflexivity.
Defined.

(** C5: the effective DNS name is the domain name when the desired name is
    "@" or empty and name + "." + domain name otherwise; both handlers
    compute it by this one rule, and each uses the name it computed for its
    lookup and in its payload. *)
Theorem effective_name_shared {unicode : Unicode} {W}
    (http : request -> W -> option response * W) api ip dn zone_id n ttl
    proxied rd w :
  computed_name (PyStr n) (PyStr dn) =
    Ok (PyStr (if (n =? "@") || (n =? "") then dn
               else (n ++ "." ++ dn)%string)) /\
  handle_http_record http api ip (PyStr dn) zone_id (PyStr n) ttl proxied
    rd w =
    bind (CloudflareAPI.check_record http api zone_id
            (PyStr (effectiveName n dn)) "A")
      (settle_address http api ip zone_id ttl proxied
         (address_payload (effectiveName n dn) proxied ttl ip)) w /\
  handle_srv_record http api ip (PyStr dn) zone_id (PyStr n) ttl proxied
    rd w =
    bind (handle_http_record http api ip (PyStr dn) zone_id (PyStr n) ttl
            proxied PyNone)
      (fun _ =>
         bind (lift (wanted_data (PyStr (effectiveName n dn)) rd))
           (fun data =>
              bind (CloudflareAPI.check_record http api zone_id
                      (PyStr (effectiveName n dn)) "SRV")
                (settle_service http api zone_id data))) w /\
  (forall data,
      wanted_data (PyStr (effectiveName n dn)) rd = Ok data ->
      getitem data "name" = Ok (PyStr (effectiveName n dn)) /\
      getitem data "target" = Ok (PyStr (effectiveName n dn))).
Proof.
  split; [|split; [|split]].
  - apply computed_name_str.
  - rewrite handle_http_record_run, computed_name_str. reflexivity.
  - rewrite handle_srv_record_run. unfold bind at 1. unfold bind at 1.
    destruct (handle_http_record _ _ _ _ _ _ _ _ _ w) as [[[]|e] w1];
      [|reflexivity].
    unfold service_part. now rewrite computed_name_str.
  - intros data. unfold wanted_data.
    destruct (getitem rd "proto") as [p|e]; [|discriminate]. simpl.
    destruct (py_lower p) as [pl|e]; [|discriminate]. simpl.
    destruct (getitem rd "service") as [sv|e]; [|discriminate]. simpl.
    destruct (getitem rd "priority") as [pr|e]; [|discriminate]. simpl.
    destruct (getitem rd "weight") as [wt|e]; [|discriminate]. simpl.
    destruct (getitem rd "port") as [pt|e]; [|discriminate]. simpl.
    intros H. inversion H; subst. split; reflexivity.
Qed.

Lemma effective_name_shared_witness :
  getitem (service_data "svc.example.com" (PyStr "_http") "TCP" (PyInt 10)
             (PyInt 5) (PyInt 8080)) "name" = Ok (PyStr "svc.example.com") /\
  getitem (service_data "svc.example.com" (PyStr "_http") "TCP" (PyInt 10)
             (PyInt 5) (PyInt 8080)) "target" = Ok (PyStr "svc.example.com").
Proof.
  apply (proj2 (proj2 (proj2
           (@effective_name_shared _ _ Provider.http Sample.api "1.2.3.4"
              "example.com" (PyStr "z1") "svc" (PyInt 1) (PyBool false)
              Sample.srv_record (Sample.start Sample.empty_zone))))).
  reflexivity.
Defined.

(** ** Service records *)

(** The request that a write hands to the transport. *)
Lemma check_record_ok_headers {W}
    (http : request -> W -> option response * W) api zone_id name type w
    record w1 :
  CloudflareAPI.check_record http api zone_id name type w = (Ok record, w1) ->
  exists hd, CloudflareAPI.getAuthHeaders api (PyDict []) = Ok hd.
Proof.
  rewrite check_record_run.
  unfold bind, lift, CloudflareAPI.make_request.
  change (if negb (truthy PyNone) then PyDict [] else PyNone)
    with (PyDict []).
  unfold bind, lift.
  destruct (CloudflareAPI.getAuthHeaders api (PyDict [])) as [hd|e];
    [eauto | discriminate].
Qed.

Lemma add_record_sends {W}
    (http : request -> W -> option response * W) api zone_id data hd w :
  CloudflareAPI.getAuthHeaders api (PyDict []) = Ok hd ->
  truthy data = true ->
  sent (snd (CloudflareAPI.add_record http api zone_id data w)) =
  sent w ++ [post_record zone_id hd data].
Proof.
  intros Hhd Ht.
  unfold CloudflareAPI.add_record, CloudflareAPI.make_request, bind, lift,
    requests_request, ret.
  rewrite Ht.
  change (if negb (truthy PyNone) then PyDict [] else PyNone)
    with (PyDict []).
  rewrite Hhd. simpl negb. cbv iota.
  destruct (http _ (provider w)) as [[resp|] p]; [|reflexivity].
  destruct (status_code resp =? 200)%Z.
  - destruct (response_json resp); reflexivity.
  - destruct (rbind _ _); reflexivity.
Qed.

Lemma update_record_sends {W}
    (http : request -> W -> option response * W) api zone_id id data hd w :
  CloudflareAPI.getAuthHeaders api (PyDict []) = Ok hd ->
  truthy data = true ->
  sent (snd (CloudflareAPI.update_record http api zone_id id data w)) =
  sent w ++ [put_record zone_id id hd data].
Proof.
  intros Hhd Ht.
  unfold CloudflareAPI.update_record, CloudflareAPI.make_request, bind, lift,
    requests_request, ret.
  rewrite Ht.
  change (if negb (truthy PyNone) then PyDict [] else PyNone)
    with (PyDict []).
  rewrite Hhd. simpl negb. cbv iota.
  destruct (http _ (provider w)) as [[resp|] p]; [|reflexivity].
  destruct (status_code resp =? 200)%Z.
  - destruct (response_json resp); reflexivity.
  - destruct (rbind _ _); reflexivity.
Qed.

(** C2: the Service data sent is {name: effective name, service,
    proto: "_" + the configured proto in lower case, priority, weight,
    port, target: effective name}.  The proto is what [str.lower] makes of
    the configured one: on ASCII text, the same text spelled in small
    letters, so that two spellings that differ in case alone give the same
    data.  When the "SRV" lookup finds a record, nothing is done exactly
    when the record's data equals this data as Python compares
    dictionaries, and otherwise the record found is updated, by its id. *)
Theorem handle_srv_record_decides {unicode : Unicode} {W}
    (http : request -> W -> option response * W) api ip dn zone_id n ttl
    proxied rd proto service priority weight port w w1 record w2 :
  getitem rd "proto" = Ok (PyStr proto) ->
  getitem rd "service" = Ok service ->
  getitem rd "priority" = Ok priority ->
  getitem rd "weight" = Ok weight ->
  getitem rd "port" = Ok port ->
  handle_http_record http api ip (PyStr dn) zone_id (PyStr n) ttl proxied
    PyNone w = (Ok tt, w1) ->
  CloudflareAPI.check_record http api zone_id (PyStr (effectiveName n dn))
    "SRV" w1 = (Ok record, w2) ->
  let data :=
    service_data (effectiveName n dn) service proto priority weight port in
  (getitem data "proto" = Ok (PyStr ("_" ++ lower proto)) /\
   (ascii_only proto = true -> spelled_lower proto (lower proto)) /\
   (forall other,
       ascii_only proto = true -> ascii_only other = true ->
       spelled_lower other (lower proto) ->
       service_data (effectiveName n dn) service other priority weight port
       = data) /\
   getitem data "name" = Ok (PyStr (effectiveName n dn)) /\
   getitem data "target" = Ok (PyStr (effectiveName n dn))) /\
  (record = PyNone ->
   handle_srv_record http api ip (PyStr dn) zone_id (PyStr n) ttl proxied
     rd w = perform http api zone_id (Create (service_payload data)) w2) /\
  (forall found id,
      getitem record "data" = Ok found ->
      getitem record "id" = Ok id ->
      handle_srv_record http api ip (PyStr dn) zone_id (PyStr n) ttl
        proxied rd w =
      perform http api zone_id
        (if py_eq found data then NoOp
         else Update id (service_payload data)) w2).
Proof.
  intros Hp Hs Hpr Hw Hpt Haddr Hlookup data.
  assert (Hrun : handle_srv_record http api ip (PyStr dn) zone_id (PyStr n)
                   ttl proxied rd w =
                 settle_service http api zone_id data record w2).
  { rewrite handle_srv_record_run. unfold bind at 1. rewrite Haddr.
    rewrite (@service_part_str _ _ http api dn zone_id n rd proto service
               priority weight port w1 Hp Hs Hpr Hw Hpt).
    unfold bind. now rewrite Hlookup. }
  split; [|split].
  - split; [reflexivity|]. split; [apply lower_spelled|].
    split; [|split; reflexivity].
    intros other Ha Ho Hspell. unfold data, service_data.
    now rewrite (@lower_of_spelling _ other (lower proto) Ho Hspell).
  - intros ->. exact Hrun.
  - intros found i Hd Hi. rewrite Hrun. now apply settle_service_found.
Qed.

Lemma handle_srv_record_decides_witness :
  let w := Sample.start Sample.svc_zone in
  let w1 :=
    snd (handle_http_record Provider.http Sample.api "1.2.3.4"
           (PyStr "example.com") (PyStr "z1") (PyStr "svc") (PyInt 1)
           (PyBool false) PyNone w) in
  let w2 :=
    snd (CloudflareAPI.check_record Provider.http Sample.api (PyStr "z1")
           (PyStr "svc.example.com") "SRV" w1) in
  getitem (service_data "svc.example.com" (PyStr "_http") "TCP" (PyInt 10)
             (PyInt 5) (PyInt 8080)) "proto" = Ok (PyStr "_tcp") /\
  handle_srv_record Provider.http Sample.api "1.2.3.4" (PyStr "example.com")
    (PyStr "z1") (PyStr "svc") (PyInt 1) (PyBool false) Sample.srv_record w
  = perform Provider.http Sample.api (PyStr "z1") NoOp w2.
Proof.
  intros w w1 w2.
  pose proof (@handle_srv_record_decides _ _ Provider.http Sample.api
                "1.2.3.4" "example.com" (PyStr "z1") "svc" (PyInt 1)
                (PyBool false) Sample.srv_record "TCP" (PyStr "_http")
                (PyInt 10) (PyInt 5) (PyInt 8080) w w1
                (Provider.set_id 1 Sample.svc_srv) w2
                eq_refl eq_refl eq_refl eq_refl eq_refl eq_refl eq_refl)
    as [[Hproto _] [_ Hfound]].
  split.
  - exact Hproto.
  - exact (Hfound
             (PyDict [("name", PyStr "svc.example.com");
                      ("service", PyStr "_http"); ("proto", PyStr "_tcp");
                      ("priority", PyInt 10); ("weight", PyInt 5);
                      ("port", PyInt 8080);
                      ("target", PyStr "svc.example.com")])
             (PyInt 1) eq_refl eq_refl).
Defined.

(** C10: a Service record is written with a payload of two fields, type
    and data, on create and on update alike: no ttl, no proxied flag and
    no content go out with it.  The test that skips the write compares
    data alone; so when the data of the Service record found equals the
    desired data, nothing is written for the Service record whatever the
    desired ttl and proxied flag are. *)
Theorem srv_noop_whatever_ttl_proxied {unicode : Unicode} {W}
    (http : request -> W -> option response * W) api ip dn zone_id n ttl
    proxied rd proto service priority weight port w w1 record w2 :
  getitem rd "proto" = Ok (PyStr proto) ->
  getitem rd "service" = Ok service ->
  getitem rd "priority" = Ok priority ->
  getitem rd "weight" = Ok weight ->
  getitem rd "port" = Ok port ->
  handle_http_record http api ip (PyStr dn) zone_id (PyStr n) ttl proxied
    PyNone w = (Ok tt, w1) ->
  CloudflareAPI.check_record http api zone_id (PyStr (effectiveName n dn))
    "SRV" w1 = (Ok record, w2) ->
  let data :=
    service_data (effectiveName n dn) service proto priority weight port in
  let run :=
    handle_srv_record http api ip (PyStr dn) zone_id (PyStr n) ttl proxied
      rd w in
  exists hd,
    CloudflareAPI.getAuthHeaders api (PyDict []) = Ok hd /\
    (record = PyNone ->
     sent (snd run) =
     sent w2 ++
       [mkRequest "POST"
          [Lit CloudflareAPI.BASE_URL; Lit "zones/"; Hole zone_id;
           Lit "/dns_records"] hd
          (PyDict [("type", PyStr "SRV"); ("data", data)])]) /\
    (forall found id,
        getitem record "data" = Ok found ->
        py_eq found data = false ->
        getitem record "id" = Ok id ->
        sent (snd run) =
        sent w2 ++
          [mkRequest "PUT"
             [Lit CloudflareAPI.BASE_URL; Lit "zones/"; Hole zone_id;
              Lit "/dns_records/"; Hole id] hd
             (PyDict [("type", PyStr "SRV"); ("data", data)])]) /\
    (forall found,
        getitem record "data" = Ok found ->
        py_eq found data = true ->
        run = (Ok tt, w2)).
Proof.
  intros Hp Hs Hpr Hw Hpt Haddr Hlookup data run.
  assert (Hrun : run = settle_service http api zone_id data record w2).
  { unfold run. rewrite handle_srv_record_run. unfold bind at 1.
    rewrite Haddr.
    rewrite (@service_part_str _ _ http api dn zone_id n rd proto service
               priority weight port w1 Hp Hs Hpr Hw Hpt).
    unfold bind. now rewrite Hlookup. }
  destruct (check_record_ok_headers _ _ _ _ _ _ Hlookup) as [hd Hhd].
  exists hd. split; [exact Hhd|]. rewrite Hrun. split; [|split].
  - intros ->. unfold settle_service.
    change (negb (truthy PyNone)) with true. cbv iota.
    now apply add_record_sends.
  - intros found id Hd Hne Hid. unfold settle_service.
    rewrite (getitem_truthy _ _ Hd). simpl negb. cbv iota.
    unfold bind at 1. unfold lift at 1. rewrite Hd, Hne.
    unfold bind at 1. unfold lift at 1. rewrite Hid.
    now apply update_record_sends.
  - intros found Hd Heq. unfold settle_service.
    rewrite (getitem_truthy _ _ Hd). simpl.
    unfold bind, lift, ret. now rewrite Hd, Heq.
Qed.

Lemma srv_noop_whatever_ttl_proxied_witness :
  let run ttl proxied w :=
    handle_srv_record Provider.http Sample.api "1.2.3.4"
      (PyStr "example.com") (PyStr "z1") (PyStr "svc") ttl proxied
      Sample.srv_record w in
  let after ttl proxied w :=
    snd (CloudflareAPI.check_record Provider.http Sample.api (PyStr "z1")
           (PyStr "svc.example.com") "SRV"
           (snd (handle_http_record Provider.http Sample.api "1.2.3.4"
                   (PyStr "example.com") (PyStr "z1") (PyStr "svc") ttl
                   proxied PyNone w))) in
  let settled := Sample.start Sample.svc_zone in
  let fresh := Sample.start Sample.empty_zone in
  run (PyInt 1) (PyBool false) settled
    = (Ok tt, after (PyInt 1) (PyBool false) settled) /\
  run (PyInt 300) (PyBool true) settled
    = (Ok tt, after (PyInt 300) (PyBool true) settled) /\
  map json
    (skipn (length (sent (after (PyInt 300) (PyBool true) fresh)))
       (sent (snd (run (PyInt 300) (PyBool true) fresh))))
  = [PyDict [("type", PyStr "SRV");
             ("data",
              PyDict [("name", PyStr "svc.example.com");
                      ("service", PyStr "_http"); ("proto", PyStr "_tcp");
                      ("priority", PyInt 10); ("weight", PyInt 5);
                      ("port", PyInt 8080);
                      ("target", PyStr "svc.example.com")])]].
Proof.
  intros run after settled fresh.
  split; [|split].
  - destruct (@srv_noop_whatever_ttl_proxied _ _ Provider.http Sample.api
                "1.2.3.4" "example.com" (PyStr "z1") "svc" (PyInt 1)
                (PyBool false) Sample.srv_record "TCP" (PyStr "_http")
                (PyInt 10) (PyInt 5) (PyInt 8080) settled
                (snd (handle_http_record Provider.http Sample.api "1.2.3.4"
                        (PyStr "example.com") (PyStr "z1") (PyStr "svc")
                        (PyInt 1) (PyBool false) PyNone settled))
                (Provider.set_id 1 Sample.svc_srv)
                (after (PyInt 1) (PyBool false) settled)
                eq_refl eq_refl eq_refl eq_refl eq_refl eq_refl eq_refl)
      as [hd [_ [_ [_ Hnoop]]]].
    exact (Hnoop _ eq_refl eq_refl).
  - destruct (@srv_noop_whatever_ttl_proxied _ _ Provider.http Sample.api
                "1.2.3.4" "example.com" (PyStr "z1") "svc" (PyInt 300)
                (PyBool true) Sample.srv_record "TCP" (PyStr "_http")
                (PyInt 10) (PyInt 5) (PyInt 8080) settled
                (snd (handle_http_record Provider.http Sample.api "1.2.3.4"
                        (PyStr "example.com") (PyStr "z1") (PyStr "svc")
                        (PyInt 300) (PyBool true) PyNone settled))
                (Provider.set_id 1 Sample.svc_srv)
                (after (PyInt 300) (PyBool true) settled)
                eq_refl eq_refl eq_refl eq_refl eq_refl eq_refl eq_refl)
      as [hd [_ [_ [_ Hnoop]]]].
    exact (Hnoop _ eq_refl eq_refl).
  - destruct (@srv_noop_whatever_ttl_proxied _ _ Provider.http Sample.api
                "1.2.3.4" "example.com" (PyStr "z1") "svc" (PyInt 300)
                (PyBool true) Sample.srv_record "TCP" (PyStr "_http")
                (PyInt 10) (PyInt 5) (PyInt 8080) fresh
                (snd (handle_http_record Provider.http Sample.api "1.2.3.4"
                        (PyStr "example.com") (PyStr "z1") (PyStr "svc")
                        (PyInt 300) (PyBool true) PyNone fresh))
                PyNone
                (after (PyInt 300) (PyBool true) fresh)
                eq_refl eq_refl eq_refl eq_refl eq_refl eq_refl eq_refl)
      as [hd [Hhd [Hcreate _]]].
    unfold run. rewrite (Hcreate eq_refl).
    rewrite skipn_app, skipn_all, Nat.sub_diag. reflexivity.
Defined.

Lemma reads_app a b : reads (a ++ b) = (reads a + reads b)%nat.
Proof. unfold reads. now rewrite filter_app, length_app. Qed.

Lemma writes_app a b : writes (a ++ b) = (writes a + writes b)%nat.
Proof. unfold writes. now rewrite filter_app, length_app. Qed.

(** C6: a Service reconciliation starts with the whole Address
    reconciliation of the same name, ttl and proxied flag, lookup and
    write included; the Service lookup and the Service write come after
    it, from the state it leaves; and this happens on every run, whatever
    the state of the Service record. *)
Theorem srv_reconciles_address_first {unicode : Unicode} {W}
    (http : request -> W -> option response * W) api ip dn zone_id name ttl
    proxied rd w r1 w1 :
  handle_http_record http api ip dn zone_id name ttl proxied PyNone w
    = (r1, w1) ->
  (exists addr,
      sent w1 = sent w ++ addr /\
      one_reconciliation "A" zone_id r1 addr /\
      Forall (concerns "A" zone_id) addr) /\
  match r1 with
  | Raise e =>
      handle_srv_record http api ip dn zone_id name ttl proxied rd w
        = (Raise e, w1)
  | Ok _ =>
      exists r2 w2 srv,
        handle_srv_record http api ip dn zone_id name ttl proxied rd w
          = (r2, w2) /\
        service_part http api dn zone_id name rd w1 = (r2, w2) /\
        sent w2 = sent w1 ++ srv /\
        one_reconciliation "SRV" zone_id r2 srv /\
        Forall (concerns "SRV" zone_id) srv
  end.
Proof.
  intros Haddr. split.
  - destruct (handle_http_record_trace _ _ _ _ _ _ _ _ _ _ Haddr)
      as [addr [Hs Hone]].
    exists addr. split; [exact Hs|]. split; [exact Hone|].
    apply (one_reconciliation_counts Hone).
  - pose proof (handle_srv_record_run http api ip dn zone_id name ttl
                  proxied rd w) as Hrun.
    unfold bind in Hrun at 1. rewrite Haddr in Hrun.
    destruct r1 as [[]|e]; [|exact Hrun].
    destruct (service_part http api dn zone_id name rd w1) as [r2 w2] eqn:Hsp.
    destruct (service_part_trace _ _ _ _ _ _ _ Hsp) as [srv [Hs Hone]].
    exists r2, w2, srv. repeat split; auto.
    apply (one_reconciliation_counts Hone).
Qed.

Lemma srv_reconciles_address_first_witness :
  let w := Sample.start Sample.empty_zone in
  let w1 :=
    snd (handle_http_record Provider.http Sample.api "1.2.3.4"
           (PyStr "example.com") (PyStr "z1") (PyStr "svc") (PyInt 1)
           (PyBool false) PyNone w) in
  exists r2 w2 srv,
    handle_srv_record Provider.http Sample.api "1.2.3.4"
      (PyStr "example.com") (PyStr "z1") (PyStr "svc") (PyInt 1)
      (PyBool false) Sample.srv_record w = (r2, w2) /\
    service_part Provider.http Sample.api (PyStr "example.com") (PyStr "z1")
      (PyStr "svc") Sample.srv_record w1 = (r2, w2) /\
    sent w2 = sent w1 ++ srv /\
    one_reconciliation "SRV" (PyStr "z1") r2 srv /\
    Forall (concerns "SRV" (PyStr "z1")) srv.
Proof.
  intros w w1.
  refine (proj2 (@srv_reconciles_address_first _ _ Provider.http Sample.api
                   "1.2.3.4" (PyStr "example.com") (PyStr "z1")
                   (PyStr "svc") (PyInt 1) (PyBool false) Sample.srv_record
                   w (Ok tt) w1 _)).
  reflexivity.
Defined.

(** C9: the requests of one record are a function of its inputs and of
    the provider's answers; an Address record costs at most one read and
    one write, and exactly one read when it completes; a Service record
    costs at most two reads and two writes, and exactly two reads, the
    Address lookup and the Service lookup, when it completes. *)
Theorem reconciliation_request_counts {unicode : Unicode} {W}
    (http : request -> W -> option response * W) api ip dn zone_id name ttl
    proxied rd w r w' :
  (handle_http_record http api ip dn zone_id name ttl proxied rd w
     = (r, w') ->
   exists new,
     sent w' = sent w ++ new /\
     (reads new <= 1 /\ writes new <= 1 /\ (r = Ok tt -> reads new = 1))%nat)
  /\
  (handle_srv_record http api ip dn zone_id name ttl proxied rd w
     = (r, w') ->
   exists new,
     sent w' = sent w ++ new /\
     (reads new <= 2 /\ writes new <= 2 /\ (r = Ok tt -> reads new = 2))%nat).
Proof.
  split.
  - intros H. destruct (handle_http_record_trace _ _ _ _ _ _ _ _ _ _ H)
      as [new [Hs Hone]].
    exists new. split; [exact Hs|]. apply (one_reconciliation_counts Hone).
  - rewrite handle_srv_record_run. unfold bind at 1.
    destruct (handle_http_record _ _ _ _ _ _ _ _ _ w) as [[[]|e] w1] eqn:Ha;
      destruct (handle_http_record_trace _ _ _ _ _ _ _ _ _ _ Ha)
        as [addr [Hsa Hone]];
      destruct (one_reconciliation_counts Hone) as [[Hr [Hw Hok]] _].
    + intros Hsp. destruct (service_part_trace _ _ _ _ _ _ _ Hsp)
        as [srv [Hss Hone2]].
      destruct (one_reconciliation_counts Hone2) as [[Hr2 [Hw2 Hok2]] _].
      exists (addr ++ srv). split.
      * rewrite Hss, Hsa. now rewrite app_assoc.
      * rewrite reads_app, writes_app. repeat split; try lia.
        intros ->. rewrite Hok, Hok2; reflexivity.
    + intros H. inversion H; subst. exists addr. split; [exact Hsa|].
      repeat split; try lia. discriminate.
Qed.

Lemma reconciliation_request_counts_witness :
  let w := Sample.start Sample.empty_zone in
  let run :=
    handle_srv_record Provider.http Sample.api "1.2.3.4"
      (PyStr "example.com") (PyStr "z1") (PyStr "svc") (PyInt 1)
      (PyBool false) Sample.srv_record w in
  exists new,
    sent (snd run) = sent w ++ new /\
    (reads new <= 2 /\ writes new <= 2 /\ (fst run = Ok tt -> reads new = 2))%nat.
Proof.
  intros w run.
  refine (proj2 (@reconciliation_request_counts _ _ Provider.http Sample.api
                   "1.2.3.4" (PyStr "example.com") (PyStr "z1")
                   (PyStr "svc") (PyInt 1) (PyBool false) Sample.srv_record
                   w (fst run) (snd run)) _).
  reflexivity.
Defined.

(** One Service record is looked up twice: once for its Address record,
    once for itself. *)
Lemma service_record_reads_twice :
  let run :=
    handle_srv_record Provider.http Sample.api "1.2.3.4"
      (PyStr "example.com") (PyStr "z1") (PyStr "svc") (PyInt 1)
      (PyBool false) Sample.srv_record (Sample.start Sample.empty_zone) in
  fst run = Ok tt /\ reads (sent (snd run)) = 2%nat /\
  reads (sent (snd run)) <> 1%nat.
Proof.
  intros run. repeat split. discriminate.
Qed.

(** ** Dispatch *)

(** C7: a record whose type tag is missing raises the "Record type is not
    supported" error; a record whose tag is not registered, such as
    "CNAME", gets past that test and raises [KeyError] at the lookup of
    its handler; in both cases before any request. *)
Theorem update_record_unregistered_type {unicode : Unicode} {W}
    (http : request -> W -> option response * W) api ip dn zone_id w :
  update_record http api ip dn zone_id Sample.cname_record w
    = (Raise (KeyError (PyStr "CNAME")), w) /\
  update_record http api ip dn zone_id (PyDict [("name", PyStr "www")]) w
    = (Raise (RuntimeError "Record type is not supported"), w).
Proof. split; reflexivity. Qed.

(** ** Authentication *)




(** ** The storing provider *)

Lemma dict_get_set_same k v d : dict_get k (dict_set k v d) = Some v.
Proof.
  induction d as [|[k' v'] d IH]; simpl.
  - now rewrite String.eqb_refl.
  - destruct (k' =? k) eqn:Hk; simpl.
    + now rewrite String.eqb_refl.
    + now rewrite Hk.
Qed.

Lemma dict_get_set_other k k' v d :
  k <> k' -> dict_get k (dict_set k' v d) = dict_get k d.
Proof.
  intros Hne. induction d as [|[k0 v0] d IH]; simpl.
  - destruct (String.eqb_spec k' k); [congruence | reflexivity].
  - destruct (String.eqb_spec k0 k') as [->|Hk]; simpl.
    + destruct (String.eqb_spec k' k); [congruence|].
      destruct (String.eqb_spec k' k); [congruence | reflexivity].
    + destruct (k0 =? k); [reflexivity | exact IH].
Qed.

Lemma getitem_set_id_other i rec k :
  k <> "id" -> getitem (Provider.set_id i rec) k = getitem rec k.
Proof.
  intros Hne. destruct rec; try reflexivity. simpl.
  now rewrite dict_get_set_other.
Qed.

Lemma getitem_set_id i rec k x :
  getitem rec k = Ok x ->
  getitem (Provider.set_id i rec) "id" = Ok (PyInt (Z.of_nat i)).
Proof.
  destruct rec; try discriminate. intros _. simpl.
  now rewrite dict_get_set_same.
Qed.

Lemma named_set_id i rec : named rec -> named (Provider.set_id i rec).
Proof.
  intros [s H]. exists s. rewrite getitem_set_id_other; [exact H|discriminate].
Qed.

Lemma of_type_set_id t i rec :
  Provider.of_type t (Provider.set_id i rec) = Provider.of_type t rec.
Proof.
  unfold Provider.of_type. rewrite getitem_set_id_other; [reflexivity|].
  discriminate.
Qed.

Lemma name_matches_set_id type name i rec :
  name_matches type name (Provider.set_id i rec) = name_matches type name rec.
Proof.
  unfold name_matches. rewrite getitem_set_id_other; [reflexivity|].
  discriminate.
Qed.

Lemma numbered_app i a b :
  Provider.numbered i (a ++ b) =
  Provider.numbered i a ++ Provider.numbered (length a + i) b.
Proof.
  revert i. induction a as [|x a IH]; intros i; simpl; [reflexivity|].
  rewrite IH. do 3 f_equal. lia.
Qed.

Lemma numbered_named i recs :
  Forall named recs -> Forall named (Provider.numbered i recs).
Proof.
  intros H. revert i. induction H as [|x l Hx _ IH]; intros i; simpl;
    constructor; auto using named_set_id.
Qed.

(** Where an element of a numbered list comes from. *)
Lemma numbered_split i recs before r after :
  Provider.numbered i recs = before ++ r :: after ->
  exists s1 x s2,
    recs = s1 ++ x :: s2 /\
    before = Provider.numbered i s1 /\
    r = Provider.set_id (length s1 + i) x /\
    after = Provider.numbered (S (length s1 + i)) s2.
Proof.
  revert i before. induction recs as [|y recs IH]; intros i before H.
  - destruct before; discriminate.
  - destruct before as [|b before]; simpl in H; inversion H; subst.
    + exists [], y, recs. auto.
    + destruct (IH _ _ H2) as [s1 [x [s2 [-> [-> [-> ->]]]]]].
      exists (y :: s1), x, s2. simpl.
      replace (length s1 + S i)%nat with (S (length s1 + i)) by lia. auto.
Qed.

Lemma replace_middle s1 x y s2 :
  Provider.replace (length s1) y (s1 ++ x :: s2) = s1 ++ y :: s2.
Proof. induction s1 as [|a s1 IH]; simpl; [reflexivity | now rewrite IH]. Qed.

Lemma filter_filter {A} (f g : A -> bool) l :
  filter g (filter f l) = filter (fun x => f x && g x) l.
Proof.
  induction l as [|a l IH]; simpl; [reflexivity|].
  destruct (f a); simpl; [destruct (g a); now rewrite IH | exact IH].
Qed.

(** *** The three calls, spelled out on the storing provider *)
Section Stored.
Context {unicode : Unicode}.
Variable api : CloudflareAPI.t.

Lemma check_record_stored zone_id name type z log :
  CloudflareAPI.check_record Provider.http api zone_id name type
    (mkWorld z log) =
  match CloudflareAPI.getAuthHeaders api (PyDict []) with
  | Raise e => (Raise e, mkWorld z log)
  | Ok hd =>
      (if py_eq zone_id (Provider.zone_id z)
       then select_record type name
              (PyDict [("result",
                        PyList (Provider.listing (PyStr type) z))])
       else Raise (CloudflareAPIError 404 "not found"),
       mkWorld z (log ++ [get_records zone_id type hd]))
  end.
Proof.
  rewrite check_record_run.
  unfold CloudflareAPI.make_request, bind, lift, requests_request.
  simpl truthy. simpl negb.
  destruct (CloudflareAPI.getAuthHeaders api (PyDict [])) as [hd|e];
    [|reflexivity].
  unfold Provider.http. simpl.
  destruct (py_eq zone_id (Provider.zone_id z)); reflexivity.
Qed.

Lemma add_record_stored zone_id data z log :
  truthy data = true ->
  CloudflareAPI.add_record Provider.http api zone_id data (mkWorld z log) =
  match CloudflareAPI.getAuthHeaders api (PyDict []) with
  | Raise e => (Raise e, mkWorld z log)
  | Ok hd =>
      if py_eq zone_id (Provider.zone_id z) then
        match Provider.stored_form data with
        | Some rec =>
            (Ok tt, mkWorld (zone_with z (Provider.stored z ++ [rec]))
                      (log ++ [post_record zone_id hd data]))
        | None =>
            (Raise (CloudflareAPIError 400 "invalid record"),
             mkWorld z (log ++ [post_record zone_id hd data]))
        end
      else (Raise (CloudflareAPIError 404 "not found"),
            mkWorld z (log ++ [post_record zone_id hd data]))
  end.
Proof.
  intros Ht.
  unfold CloudflareAPI.add_record, CloudflareAPI.make_request, bind, lift,
    requests_request, ret.
  rewrite Ht. simpl truthy. simpl negb.
  destruct (CloudflareAPI.getAuthHeaders api (PyDict [])) as [hd|e];
    [|reflexivity].
  unfold Provider.http. simpl.
  destruct (py_eq zone_id (Provider.zone_id z)); [|reflexivity].
  destruct (Provider.stored_form data); reflexivity.
Qed.

Lemma update_record_stored zone_id j data z log :
  truthy data = true ->
  (j < length (Provider.stored z))%nat ->
  CloudflareAPI.update_record Provider.http api zone_id
    (PyInt (Z.of_nat j)) data (mkWorld z log) =
  match CloudflareAPI.getAuthHeaders api (PyDict []) with
  | Raise e => (Raise e, mkWorld z log)
  | Ok hd =>
      let req := put_record zone_id (PyInt (Z.of_nat j)) hd data in
      if py_eq zone_id (Provider.zone_id z) then
        match Provider.stored_form data with
        | Some rec =>
            (Ok tt,
             mkWorld (zone_with z (Provider.replace j rec (Provider.stored z)))
               (log ++ [req]))
        | None =>
            (Raise (CloudflareAPIError 400 "invalid record"),
             mkWorld z (log ++ [req]))
        end
      else (Raise (CloudflareAPIError 404 "not found"),
            mkWorld z (log ++ [req]))
  end.
Proof.
  intros Ht Hj.
  unfold CloudflareAPI.update_record, CloudflareAPI.make_request, bind,
    lift, requests_request, ret.
  rewrite Ht. simpl truthy. simpl negb.
  destruct (CloudflareAPI.getAuthHeaders api (PyDict [])) as [hd|e];
    [|reflexivity].
  unfold Provider.http. simpl.
  destruct (py_eq zone_id (Provider.zone_id z)); [|reflexivity].
  destruct (Provider.stored_form data) as [rec|]; [|reflexivity].
  rewrite Nat2Z.id.
  assert (H0 : (0 <=? Z.of_nat j)%Z = true) by (apply Z.leb_le; lia).
  assert (H1 : (j <? length (Provider.stored z))%nat = true)
    by now apply Nat.ltb_lt.
  rewrite H0, H1. reflexivity.
Qed.
End Stored.

(** *** Listings before and after a write *)

Lemma type_listing_named type z :
  Forall named (Provider.stored z) -> Forall named (type_listing type z).
Proof.
  intros H. unfold type_listing. apply Forall_forall. intros r Hin.
  apply filter_In in Hin. destruct Hin as [Hin _].
  pose proof (numbered_named 0 H) as Hn.
  rewrite Forall_forall in Hn. now apply Hn.
Qed.

(** A lookup whose page holds all the records of the type returns the
    first candidate. *)
Lemma lookup_stored type name z :
  Forall named (Provider.stored z) ->
  (Provider.held type z <= Provider.page_size)%nat ->
  select_record type (PyStr name)
    (PyDict [("result", PyList (Provider.listing (PyStr type) z))]) =
  Ok match candidates type name z with
     | [] => PyNone
     | first :: _ => first
     end.
Proof.
  intros Hv Hpage. unfold Provider.listing.
  fold (type_listing type z).
  rewrite firstn_all2 by exact Hpage.
  apply select_record_named; [reflexivity|].
  now apply type_listing_named.
Qed.

Lemma candidates_both type name z :
  candidates type name z =
  filter (fun rec => Provider.of_type (PyStr type) rec
                     && name_matches type name rec)
    (Provider.numbered 0 (Provider.stored z)).
Proof. unfold candidates, type_listing. apply filter_filter. Qed.

Lemma candidates_after_append type name z rec :
  candidates type name z = [] ->
  Provider.of_type (PyStr type) rec = true ->
  name_matches type name rec = true ->
  candidates type name (zone_with z (Provider.stored z ++ [rec])) =
  [Provider.set_id (length (Provider.stored z)) rec].
Proof.
  rewrite !candidates_both. intros Hnone Ht Hn. simpl.
  rewrite numbered_app, filter_app, Hnone. simpl.
  rewrite Nat.add_0_r, of_type_set_id, name_matches_set_id, Ht, Hn.
  reflexivity.
Qed.

Lemma candidates_after_replace type name z r rest rec :
  Forall named (Provider.stored z) ->
  candidates type name z = r :: rest ->
  Provider.of_type (PyStr type) rec = true ->
  name_matches type name rec = true ->
  exists j,
    getitem r "id" = Ok (PyInt (Z.of_nat j)) /\
    (j < length (Provider.stored z))%nat /\
    candidates type name
      (zone_with z (Provider.replace j rec (Provider.stored z))) =
    Provider.set_id j rec :: rest /\
    length (type_listing type
              (zone_with z (Provider.replace j rec (Provider.stored z)))) =
    length (type_listing type z).
Proof.
  intros Hv Hc Ht Hn.
  pose proof Hc as Hc'. rewrite candidates_both in Hc'.
  destruct (filter_head_first _ _ Hc')
    as [before [after [Hsplit [Hr [Hbefore Hrest]]]]].
  destruct (@numbered_split _ _ _ _ _ Hsplit)
    as [s1 [x [s2 [Hs [Hb [Hrx Ha]]]]]].
  rewrite Nat.add_0_r in Hrx, Ha.
  exists (length s1).
  assert (Hx : named x).
  { rewrite Forall_forall in Hv. apply Hv. rewrite Hs.
    apply in_or_app. right. now left. }
  destruct Hx as [nm Hnm].
  split; [|split; [|split]].
  - rewrite Hrx. now apply (getitem_set_id _ _ _ Hnm).
  - rewrite Hs, length_app. simpl. lia.
  - rewrite candidates_both. simpl. rewrite Hs, replace_middle.
    rewrite numbered_app. simpl. rewrite Nat.add_0_r, <- Hb, <- Ha.
    rewrite filter_first_head.
    + now rewrite Hrest.
    + exact Hbefore.
    + now rewrite of_type_set_id, name_matches_set_id, Ht, Hn.
  - unfold type_listing. simpl. rewrite Hs at 1. rewrite replace_middle.
    rewrite Hs at 1. rewrite !numbered_app. simpl.
    rewrite !filter_app, !length_app. simpl.
    rewrite !of_type_set_id, Ht.
    apply andb_prop in Hr. destruct Hr as [Hrt _].
    rewrite Hrx, of_type_set_id in Hrt. rewrite Hrt. reflexivity.
Qed.

(** Records of another type do not show in a listing. *)
Lemma of_type_exclusive a b rec :
  Provider.of_type (PyStr a) rec = true -> a <> b ->
  Provider.of_type (PyStr b) rec = false.
Proof.
  unfold Provider.of_type.
  destruct (getitem rec "type") as [[ | | |t| | ]|e]; simpl; try discriminate.
  intros H Hne. apply String.eqb_eq in H. subst t.
  now apply String.eqb_neq.
Qed.

Lemma type_listing_after_append type z rec :
  Provider.of_type (PyStr type) rec = false ->
  type_listing type (zone_with z (Provider.stored z ++ [rec])) =
  type_listing type z.
Proof.
  intros Hf. unfold type_listing. simpl.
  rewrite numbered_app, filter_app. simpl.
  rewrite of_type_set_id, Hf. apply app_nil_r.
Qed.

Lemma type_listing_after_replace type other name z r rest rec j :
  candidates other name z = r :: rest ->
  getitem r "id" = Ok (PyInt (Z.of_nat j)) ->
  other <> type ->
  Provider.of_type (PyStr type) rec = false ->
  type_listing type (zone_with z (Provider.replace j rec (Provider.stored z)))
  = type_listing type z.
Proof.
  intros Hc Hid Hne Hf.
  rewrite candidates_both in Hc.
  destruct (filter_head_first _ _ Hc)
    as [before [after [Hsplit [Hr [_ _]]]]].
  destruct (@numbered_split _ _ _ _ _ Hsplit)
    as [s1 [x [s2 [Hs [Hb [Hrx Ha]]]]]].
  rewrite Nat.add_0_r in Hrx.
  assert (Hj : j = length s1).
  { rewrite Hrx in Hid. destruct x; try discriminate. simpl in Hid.
    rewrite dict_get_set_same in Hid. inversion Hid. lia. }
  subst j. unfold type_listing. simpl.
  rewrite Hs at 1. rewrite replace_middle. rewrite Hs at 1.
  rewrite !numbered_app. simpl. rewrite !filter_app. simpl.
  rewrite !of_type_set_id, Hf.
  apply andb_prop in Hr. destruct Hr as [Hrt _].
  rewrite Hrx, of_type_set_id in Hrt.
  now rewrite (of_type_exclusive _ Hrt Hne).
Qed.

Lemma named_after_replace j rec recs :
  named rec -> Forall named recs ->
  Forall named (Provider.replace j rec recs).
Proof.
  intros Hr H. revert j.
  induction H as [|x l Hx Hl IH]; intros j; destruct j; simpl;
    constructor; auto.
Qed.

Lemma named_after_append rec recs :
  named rec -> Forall named recs -> Forall named (recs ++ [rec]).
Proof. intros Hr H. apply Forall_app. split; auto. Qed.

(** *** A completed run either found the record settled or wrote it *)
Section Completed.
Context {unicode : Unicode}.
Context {W : Type}.
Variable http : request -> W -> option response * W.
Variable api : CloudflareAPI.t.
Variable public_ip : string.

Lemma settle_address_completed zone_id ttl proxied to_send r w w1 :
  truthy r = true ->
  settle_address http api public_ip zone_id ttl proxied to_send r w
    = (Ok tt, w1) ->
  (w1 = w /\ settled_address public_ip ttl proxied r) \/
  (exists id, getitem r "id" = Ok id /\
              CloudflareAPI.update_record http api zone_id id to_send w
                = (Ok tt, w1)).
Proof.
  intros Ht. unfold settle_address. rewrite Ht. simpl.
  unfold bind, lift, ret.
  destruct (getitem r "content") as [c|e] eqn:Hc; [|discriminate].
  destruct (py_eq c (PyStr public_ip)) eqn:Hce.
  - destruct (getitem r "ttl") as [t|e] eqn:Htt; [|discriminate].
    destruct (py_eq t ttl) eqn:Hte.
    + destruct (getitem r "proxied") as [p|e] eqn:Hp; [|discriminate].
      destruct (py_eq p proxied) eqn:Hpe.
      * intros H. inversion H; subst. left. split; [reflexivity|].
        exists c, t, p. auto 10.
      * destruct (getitem r "id") as [i|e]; [|discriminate].
        intros H. right. now exists i.
    + destruct (getitem r "id") as [i|e]; [|discriminate].
      intros H. right. now exists i.
  - destruct (getitem r "id") as [i|e]; [|discriminate].
    intros H. right. now exists i.
Qed.



End Completed.

Lemma candidates_named type name z r rest :
  Forall named (Provider.stored z) ->
  candidates type name z = r :: rest -> named r.
Proof.
  intros Hv Hc.
  pose proof (@type_listing_named type z Hv) as Hn.
  rewrite Forall_forall in Hn. apply Hn.
  assert (Hin : In r (candidates type name z)) by (rewrite Hc; now left).
  unfold candidates in Hin. apply filter_In in Hin. tauto.
Qed.

Lemma named_truthy r : named r -> truthy r = true.
Proof. intros [s H]. exact (getitem_truthy _ _ H). Qed.

Lemma unique_keys_getitem v k x :
  unique_keys v -> getitem v k = Ok x -> unique_keys x.
Proof.
  destruct v as [ | | | | |d]; try discriminate.
  intros Hu. apply unique_keys_dict in Hu. destruct Hu as [_ Hall].
  simpl. induction Hall as [|[k' v'] l Hv _ IH]; simpl; [discriminate|].
  destruct (k' =? k).
  - intros H. inversion H; subst. exact Hv.
  - exact IH.
Qed.

(** *** The Address payload as the provider keeps it *)

Lemma address_payload_type type name proxied ttl ip :
  Provider.of_type (PyStr type) (address_payload name proxied ttl ip) =
  ("A" =? type).
Proof. reflexivity. Qed.

Lemma address_payload_matches name proxied ttl ip :
  name_matches "A" name (address_payload name proxied ttl ip) = true.
Proof.
  unfold name_matches, address_payload. simpl. apply String.eqb_refl.
Qed.

Lemma address_payload_named name proxied ttl ip :
  named (address_payload name proxied ttl ip).
Proof. now exists name. Qed.

Lemma address_payload_settled j name proxied ttl ip :
  unique_keys ttl -> unique_keys proxied ->
  settled_address ip ttl proxied
    (Provider.set_id j (address_payload name proxied ttl ip)).
Proof.
  intros Ht Hp. exists (PyStr ip), ttl, proxied.
  repeat split; try reflexivity.
  - simpl. apply String.eqb_refl.
  - now apply py_eq_refl.
  - now apply py_eq_refl.
Qed.

Section AddressRuns.
Context {unicode : Unicode}.
Variable api : CloudflareAPI.t.
Variable ip : string.

Lemma handle_http_record_str {W}
    (http : request -> W -> option response * W) dn zone_id n ttl proxied
    rd w :
  handle_http_record http api ip (PyStr dn) zone_id (PyStr n) ttl proxied
    rd w =
  bind (CloudflareAPI.check_record http api zone_id
          (PyStr (effectiveName n dn)) "A")
    (settle_address http api ip zone_id ttl proxied
       (address_payload (effectiveName n dn) proxied ttl ip)) w.
Proof. rewrite handle_http_record_run, computed_name_str. reflexivity. Qed.


(** A completed run leaves the record settled, and the records of the
    other types as they were. *)
Lemma address_first_run dn zone_id n ttl proxied rd z log w1 :
  Forall named (Provider.stored z) ->
  unique_keys ttl -> unique_keys proxied ->
  (Provider.held "A" z <= Provider.page_size)%nat ->
  handle_http_record Provider.http api ip (PyStr dn) zone_id (PyStr n) ttl
    proxied rd (mkWorld z log) = (Ok tt, w1) ->
  exists hd,
    CloudflareAPI.getAuthHeaders api (PyDict []) = Ok hd /\
    py_eq zone_id (Provider.zone_id z) = true /\
    Provider.zone_id (provider w1) = Provider.zone_id z /\
    Forall named (Provider.stored (provider w1)) /\
    (exists r rest,
        candidates "A" (effectiveName n dn) (provider w1) = r :: rest /\
        settled_address ip ttl proxied r) /\
    (forall type, "A" <> type ->
                  type_listing type (provider w1) = type_listing type z).
Proof.
  intros Hv Hut Hup Hpage.
  rewrite handle_http_record_str. unfold bind.
  rewrite check_record_stored.
  destruct (CloudflareAPI.getAuthHeaders api (PyDict [])) as [hd|e] eqn:Hhd;
    [|discriminate].
  destruct (py_eq zone_id (Provider.zone_id z)) eqn:Hz; [|discriminate].
  rewrite (@lookup_stored "A" (effectiveName n dn) z Hv Hpage).
  set (payload := address_payload (effectiveName n dn) proxied ttl ip).
  destruct (candidates "A" (effectiveName n dn) z) as [|r rest] eqn:Hc.
  - unfold settle_address.
    change (negb (truthy PyNone)) with true. cbv iota.
    rewrite add_record_stored by reflexivity.
    rewrite Hhd, Hz.
    change (Provider.stored_form payload) with (Some payload). cbv iota.
    intros H. inversion H; subst w1; clear H. simpl provider.
    exists hd. repeat split; auto.
    + simpl. apply named_after_append; [|exact Hv].
      apply address_payload_named.
    + exists (Provider.set_id (length (Provider.stored z)) payload), [].
      split.
      * apply candidates_after_append; [exact Hc|reflexivity|].
        apply address_payload_matches.
      * now apply address_payload_settled.
    + intros type Hne. apply type_listing_after_append.
      unfold payload. rewrite address_payload_type.
      now apply String.eqb_neq.
  - intros H.
    apply settle_address_completed in H;
      [|apply named_truthy; eapply candidates_named; eauto].
    destruct H as [[-> Hs]|[id [Hid Hput]]].
    + exists hd. simpl. repeat split; auto. now exists r, rest.
    + destruct (@candidates_after_replace "A" (effectiveName n dn) z r rest
                  payload Hv Hc eq_refl
                  (address_payload_matches _ _ _ _))
        as [j [Hj [Hlt [Hc' _]]]].
      rewrite Hj in Hid. inversion Hid; subst id; clear Hid.
      rewrite update_record_stored in Hput by (auto; reflexivity).
      rewrite Hhd, Hz in Hput.
      change (Provider.stored_form payload) with (Some payload) in Hput.
      cbv zeta iota in Hput.
      inversion Hput; subst w1; clear Hput. simpl provider.
      exists hd. repeat split; auto.
      * simpl. apply named_after_replace; [|exact Hv].
        apply address_payload_named.
      * exists (Provider.set_id j payload), rest. split; [exact Hc'|].
        now apply address_payload_settled.
      * intros type Hne.
        apply (@type_listing_after_replace type "A" (effectiveName n dn)
                 z r rest payload j Hc Hj Hne).
        unfold payload. rewrite address_payload_type.
        now apply String.eqb_neq.
Qed.
End AddressRuns.

(** *** The Service payload as the provider keeps it *)

Lemma of_type_dict d t type :
  dict_get "type" d = Some (PyStr t) ->
  Provider.of_type (PyStr type) (PyDict d) = (t =? type).
Proof.
  intros H. unfold Provider.of_type, getitem. now rewrite H.
Qed.

Lemma wanted_data_inv {unicode : Unicode} name rd data :
  wanted_data name rd = Ok data ->
  exists proto service priority weight port,
    data = PyDict [("name", name); ("service", service);
                   ("proto", PyStr ("_" ++ proto));
                   ("priority", priority); ("weight", weight);
                   ("port", port); ("target", name)] /\
    getitem rd "service" = Ok service /\
    getitem rd "priority" = Ok priority /\
    getitem rd "weight" = Ok weight /\
    getitem rd "port" = Ok port.
Proof.
  unfold wanted_data.
  destruct (getitem rd "proto") as [p|e]; [|discriminate]. simpl.
  destruct (py_lower p) as [pl|e]; [|discriminate]. simpl.
  destruct (getitem rd "service") as [sv|e]; [|discriminate]. simpl.
  destruct (getitem rd "priority") as [pr|e]; [|discriminate]. simpl.
  destruct (getitem rd "weight") as [wt|e]; [|discriminate]. simpl.
  destruct (getitem rd "port") as [pt|e]; [|discriminate]. simpl.
  intros H. inversion H. exists pl, sv, pr, wt, pt. auto.
Qed.


Lemma service_payload_stored {unicode : Unicode} name rd data rec :
  wanted_data (PyStr name) rd = Ok data ->
  Provider.stored_form (service_payload data) = Some rec ->
  Provider.of_type (PyStr "SRV") rec = true /\
  name_matches "SRV" name rec = true /\
  named rec /\
  getitem rec "data" = Ok data /\
  (forall type, "SRV" <> type -> Provider.of_type (PyStr type) rec = false).
Proof.
  intros H Hst. apply wanted_data_inv in H.
  destruct H as [pl [sv [pr [wt [pt [-> _]]]]]].
  destruct sv as [ | | |s| | ]; try discriminate.
  unfold service_payload, Provider.stored_form in Hst. simpl in Hst.
  inversion Hst; subst rec; clear Hst.
  split; [reflexivity|]. split; [|split; [|split]].
  - unfold name_matches. simpl getitem. cbv iota. simpl String.eqb.
    cbv iota. apply endswith_spec.
    exists (s ++ "." ++ ("_" ++ pl) ++ ".")%string.
    now rewrite !append_assoc.
  - eexists. reflexivity.
  - reflexivity.
  - intros type Hne. rewrite (@of_type_dict _ "SRV" type) by reflexivity.
    now apply String.eqb_neq.
Qed.


Section ServiceRuns.
Context {unicode : Unicode}.
Variable api : CloudflareAPI.t.

Lemma service_part_data {W} (http : request -> W -> option response * W)
    dn zone_id n rd w :
  service_part http api (PyStr dn) zone_id (PyStr n) rd w =
  match wanted_data (PyStr (effectiveName n dn)) rd with
  | Ok data =>
      bind (CloudflareAPI.check_record http api zone_id
              (PyStr (effectiveName n dn)) "SRV")
        (settle_service http api zone_id data) w
  | Raise e => (Raise e, w)
  end.
Proof.
  unfold service_part. rewrite computed_name_str.
  unfold bind at 1. unfold lift at 1. unfold bind at 1. unfold lift at 1.
  now destruct (wanted_data (PyStr (effectiveName n dn)) rd).
Qed.


End ServiceRuns.

(** ** Idempotence *)




(** The order of the listings matters as well.  On a provider that lists
    the latest change last, a zone with two Address records of the name,
    both out of date, has the first run update one of them and the second
    run update the other: the record the first run wrote is no longer the
    first match. *)
Lemma second_run_updates_again_when_listing_moves :
  let run :=
    handle_http_record Reordering.http Sample.api "1.2.3.4"
      (PyStr "example.com") (PyStr "z1") (PyStr "www") (PyInt 1)
      (PyBool true) PyNone in
  let first := run (mkWorld Reordering.twice_stale []) in
  let second := run (snd first) in
  fst first = Ok tt /\ fst second = Ok tt /\
  map method (sent (snd second)) = ["GET"; "PUT"; "GET"; "PUT"] /\
  Provider.stored (provider (snd first)) =
    [Reordering.www_a "9.9.9.9" 1; Reordering.www_a "1.2.3.4" 0] /\
  Provider.stored (provider (snd second)) =
    [Reordering.www_a "1.2.3.4" 0; Reordering.www_a "1.2.3.4" 1].
Proof. vm_compute. repeat split. Qed.

(** * Further properties of the code *)

(** ** Requests and credentials *)

Lemma py_join_strings sep msgs :
  py_join sep (map PyStr msgs) = Ok (String.concat sep msgs).
Proof.
  induction msgs as [|m rest IH]; [reflexivity|].
  destruct rest as [|m' rest]; [reflexivity|].
  change (map PyStr (m :: m' :: rest))
    with (PyStr m :: map PyStr (m' :: rest)).
  change (py_join sep (PyStr m :: map PyStr (m' :: rest)))
    with (rbind (py_join sep (map PyStr (m' :: rest)))
            (fun tl => Ok (m ++ sep ++ tl)%string)).
  rewrite IH. reflexivity.
Qed.

Lemma messages_strings errors msgs :
  Forall2 (fun err m => getitem err "message" = Ok (PyStr m)) errors msgs ->
  CloudflareAPI.messages errors = Ok (map PyStr msgs).
Proof.
  induction 1 as [|err m errors msgs Herr _ IH]; [reflexivity|].
  simpl. rewrite Herr. simpl. now rewrite IH.
Qed.

(** An answer other than 200 never comes back to the caller: the request
    was sent, the provider is in the state that request left, and
    [make_request] raises.  What it raises depends on the body of the
    answer.  When the body is JSON whose errors, if any, are a list of
    objects with a string message, it is [CloudflareAPIError] with the
    status and the messages joined by " | ".  When the body is not JSON, it
    is the [JSONDecodeError] of [response.json()]; when the errors are
    [null], the [TypeError] of the iteration. *)
Theorem make_request_rejected {W}
    (http : request -> W -> option response * W) api method endpoint data
    hd w resp p :
  CloudflareAPI.getAuthHeaders api (PyDict []) = Ok hd ->
  http (mkRequest method (Lit CloudflareAPI.BASE_URL :: endpoint) hd
          (if negb (truthy data) then PyDict [] else data)) (provider w)
    = (Some resp, p) ->
  status_code resp <> 200%Z ->
  exists e,
    CloudflareAPI.make_request http api method endpoint data PyNone w =
    (Raise e,
     mkWorld p (sent w ++
       [mkRequest method (Lit CloudflareAPI.BASE_URL :: endpoint) hd
          (if negb (truthy data) then PyDict [] else data)])) /\
    (forall payload errors msgs,
        body resp = Some payload ->
        py_get payload "errors" (PyList []) = Ok (PyList errors) ->
        Forall2 (fun err m => getitem err "message" = Ok (PyStr m))
          errors msgs ->
        e = CloudflareAPIError (status_code resp)
              (String.concat " | " msgs)) /\
    (body resp = None -> e = JSONDecodeError) /\
    (forall payload,
        body resp = Some payload ->
        py_get payload "errors" (PyList []) = Ok PyNone ->
        e = TypeError).
Proof.
  intros Hhd Hhttp Hstatus.
  unfold CloudflareAPI.make_request, bind, lift, requests_request.
  change (if negb (truthy PyNone) then PyDict [] else PyNone)
    with (PyDict []).
  rewrite Hhd, Hhttp.
  apply Z.eqb_neq in Hstatus. rewrite Hstatus.
  unfold response_json.
  destruct (body resp) as [payload|]; cbn [rbind].
  2:{ eexists. split; [reflexivity|].
      split; [|split]; [| reflexivity |]; intros; discriminate. }
  destruct (py_get payload "errors" (PyList [])) as [errors|e] eqn:Herrors;
    cbn [rbind].
  2:{ eexists. split; [reflexivity|].
      split; [|split]; [|discriminate|].
      - intros payload' errors' msgs H He _.
        inversion H; subst payload'. rewrite Herrors in He. discriminate.
      - intros payload' H He.
        inversion H; subst payload'. rewrite Herrors in He. discriminate. }
  assert (Hwell : forall payload' errors' msgs,
             Some payload = Some payload' ->
             py_get payload' "errors" (PyList []) = Ok (PyList errors') ->
             Forall2 (fun err m => getitem err "message" = Ok (PyStr m))
               errors' msgs ->
             (items <- py_iter errors ;;
              ms <- CloudflareAPI.messages items ;;
              text <- py_join " | " ms ;;
              Raise (CloudflareAPIError (status_code resp) text))%result =
             (Raise (CloudflareAPIError (status_code resp)
                       (String.concat " | " msgs)) : result pyval)).
  { intros payload' errors' msgs H He Hmsgs.
    inversion H; subst payload'. rewrite Herrors in He.
    inversion He; subst errors. cbn [py_iter rbind].
    rewrite (messages_strings Hmsgs). cbn [rbind].
    now rewrite py_join_strings. }
  assert (Hnull : forall payload',
             Some payload = Some payload' ->
             py_get payload' "errors" (PyList []) = Ok PyNone ->
             (items <- py_iter errors ;;
              ms <- CloudflareAPI.messages items ;;
              text <- py_join " | " ms ;;
              Raise (CloudflareAPIError (status_code resp) text))%result =
             (Raise TypeError : result pyval)).
  { intros payload' H He.
    inversion H; subst payload'. rewrite Herrors in He.
    inversion He; subst errors. reflexivity. }
  destruct (items <- py_iter errors ;;
            ms <- CloudflareAPI.messages items ;;
            text <- py_join " | " ms ;;
            Raise (CloudflareAPIError (status_code resp) text))%result
    as [v|e] eqn:Hraised.
  - exfalso.
    destruct (py_iter errors) as [items|]; [|discriminate].
    cbn [rbind] in Hraised.
    destruct (CloudflareAPI.messages items) as [ms|]; [|discriminate].
    cbn [rbind] in Hraised.
    destruct (py_join " | " ms); discriminate.
  - exists e. split; [reflexivity|]. split; [|split].
    + intros payload' errors' msgs H He Hmsgs.
      specialize (Hwell _ _ _ H He Hmsgs). now inversion Hwell.
    + discriminate.
    + intros payload' H He. specialize (Hnull _ H He). now inversion Hnull.
Qed.

Lemma make_request_rejected_witness :
  CloudflareAPI.make_request Provider.http Sample.api "GET"
    [Lit "zones/"; Hole (PyStr "nowhere")] PyNone PyNone
    (Sample.start Sample.empty_zone) =
  (Raise (CloudflareAPIError 404 "not found"),
   mkWorld Sample.empty_zone
     [mkRequest "GET"
        [Lit CloudflareAPI.BASE_URL; Lit "zones/"; Hole (PyStr "nowhere")]
        (PyDict [("X-Auth-Email", PyStr "me@example.com");
                 ("X-Auth-Key", PyStr "k3y")])
        (PyDict [])]) /\
  fst (CloudflareAPI.make_request
         (fun (_ : request) (down : unit) =>
            (Some (mkResponse 502 None), down))
         Sample.api "GET" [Lit "zones/"; Hole (PyStr "z1")] PyNone PyNone
         (mkWorld tt [])) = Raise JSONDecodeError.
Proof.
  split.
  - destruct (@make_request_rejected _ Provider.http Sample.api "GET"
                [Lit "zones/"; Hole (PyStr "nowhere")] PyNone
                (PyDict [("X-Auth-Email", PyStr "me@example.com");
                         ("X-Auth-Key", PyStr "k3y")])
                (Sample.start Sample.empty_zone)
                (mkResponse 404
                   (Some (PyDict [("errors",
                                   PyList [PyDict [("message",
                                                    PyStr "not found")]])])))
                Sample.empty_zone eq_refl eq_refl)
      as [e [Hrun [Hmessages _]]]; [discriminate|].
    rewrite Hrun.
    rewrite (Hmessages _ _ ["not found"] eq_refl eq_refl); [reflexivity|].
    repeat constructor.
  - destruct (@make_request_rejected _
                (fun (_ : request) (down : unit) =>
                   (Some (mkResponse 502 None), down))
                Sample.api "GET" [Lit "zones/"; Hole (PyStr "z1")] PyNone
                (PyDict [("X-Auth-Email", PyStr "me@example.com");
                         ("X-Auth-Key", PyStr "k3y")])
                (mkWorld tt []) (mkResponse 502 None) tt eq_refl eq_refl)
      as [e [Hrun [_ [Hjson _]]]]; [discriminate|].
    rewrite Hrun. simpl. now rewrite Hjson.
Defined.

(** A client built from a configuration whose api-auth is a string can
    always build its headers: every call of [make_request] hands exactly
    one request to the transport, with [{}] as its body when the data is
    [None] or empty. *)
Theorem make_request_sends_once {W}
    (http : request -> W -> option response * W) d api key :
  CloudflareAPI.init (PyDict d) = Ok api ->
  dict_get "api-auth" d = Some (PyStr key) ->
  exists hd,
    CloudflareAPI.getAuthHeaders api (PyDict []) = Ok hd /\
    forall method endpoint data w,
      sent (snd (CloudflareAPI.make_request http api method endpoint data
                   PyNone w)) =
      sent w ++
        [mkRequest method (Lit CloudflareAPI.BASE_URL :: endpoint) hd
           (if truthy data then data else PyDict [])].
Proof.
  intros Hinit Hkey.
  assert (Hauth : CloudflareAPI.api_auth api = PyStr key).
  { unfold CloudflareAPI.init, py_get in Hinit. rewrite Hkey in Hinit.
    destruct (dict_get "use-token" d); destruct (dict_get "email" d);
      simpl in Hinit;
      match type of Hinit with
      | (if ?c then _ else _) = _ => destruct c
      end; inversion Hinit; reflexivity. }
  assert (Hhd : exists hd,
             CloudflareAPI.getAuthHeaders api (PyDict []) = Ok hd).
  { unfold CloudflareAPI.getAuthHeaders. rewrite Hauth.
    destruct (truthy (CloudflareAPI.is_token_authorized api));
      eexists; reflexivity. }
  destruct Hhd as [hd Hhd]. exists hd. split; [exact Hhd|].
  intros method endpoint data w.
  unfold CloudflareAPI.make_request, bind, lift, requests_request.
  change (if negb (truthy PyNone) then PyDict [] else PyNone)
    with (PyDict []).
  rewrite Hhd.
  destruct (http _ (provider w)) as [[resp|] p].
  - destruct (status_code resp =? 200)%Z; simpl; destruct (truthy data);
      reflexivity.
  - simpl. destruct (truthy data); reflexivity.
Qed.

Lemma make_request_sends_once_witness :
  exists hd,
    CloudflareAPI.getAuthHeaders Sample.api (PyDict []) = Ok hd /\
    forall method endpoint data w,
      sent (snd (CloudflareAPI.make_request Provider.http Sample.api method
                   endpoint data PyNone w)) =
      sent w ++
        [mkRequest method (Lit CloudflareAPI.BASE_URL :: endpoint) hd
           (if truthy data then data else PyDict [])].
Proof.
  apply (@make_request_sends_once _ Provider.http
           [("use-token", PyBool false); ("email", PyStr "me@example.com");
            ("api-auth", PyStr "k3y")] Sample.api "k3y");
    reflexivity.
Defined.

(** In token mode a client whose api-auth is not a string is accepted by
    the constructor, but no request of it ever leaves: building the
    "Bearer" header raises [TypeError] first. *)
Theorem token_mode_needs_a_string {W}
    (http : request -> W -> option response * W) api :
  truthy (CloudflareAPI.is_token_authorized api) = true ->
  (forall s, CloudflareAPI.api_auth api <> PyStr s) ->
  forall method endpoint data headers w,
    CloudflareAPI.make_request http api method endpoint data headers w
    = (Raise TypeError, w).
Proof.
  intros Htok Hns method endpoint data headers w.
  unfold CloudflareAPI.make_request, bind, lift,
    CloudflareAPI.getAuthHeaders.
  rewrite Htok.
  destruct (CloudflareAPI.api_auth api) as [ | | |s| | ]; try reflexivity.
  now contradiction (Hns s).
Qed.

Lemma token_mode_needs_a_string_witness :
  CloudflareAPI.init
    (PyDict [("use-token", PyBool true); ("email", PyStr "me@example.com");
             ("api-auth", PyInt 12345)])
  = Ok (CloudflareAPI.mk (PyBool true) (PyStr "me@example.com")
          (PyInt 12345)) /\
  forall method endpoint data headers w,
    CloudflareAPI.make_request Provider.http
      (CloudflareAPI.mk (PyBool true) (PyStr "me@example.com") (PyInt 12345))
      method endpoint data headers w
    = (Raise TypeError, w).
Proof.
  split; [reflexivity|].
  apply (@token_mode_needs_a_string _ Provider.http
           (CloudflareAPI.mk (PyBool true) (PyStr "me@example.com")
              (PyInt 12345))).
  - reflexivity.
  - discriminate.
Defined.

Lemma dict_get_update k base extra :
  dict_get k (dict_update base extra) =
  match last_entry k extra with
  | Some v => Some v
  | None => dict_get k base
  end.
Proof.
  unfold dict_update. revert base.
  induction extra as [|[k' v'] extra IH]; intros base; [reflexivity|].
  simpl. rewrite IH.
  destruct (last_entry k extra); [reflexivity|].
  destruct (String.eqb_spec k' k) as [->|Hne].
  - apply dict_get_set_same.
  - apply dict_get_set_other. congruence.
Qed.

(** Headers handed to [getAuthHeaders] win over the authentication
    headers: in the result a key has the value the caller gave it last,
    and only the keys the caller left alone keep the authentication
    value. *)
Theorem caller_headers_win api extra base :
  CloudflareAPI.getAuthHeaders api (PyDict []) = Ok (PyDict base) ->
  exists merged,
    CloudflareAPI.getAuthHeaders api (PyDict extra) = Ok (PyDict merged) /\
    forall k,
      dict_get k merged =
      match last_entry k extra with
      | Some v => Some v
      | None => dict_get k base
      end.
Proof.
  unfold CloudflareAPI.getAuthHeaders.
  destruct (truthy (CloudflareAPI.is_token_authorized api)).
  - destruct (py_add (PyStr "Bearer ") (CloudflareAPI.api_auth api))
      as [bearer|e]; [|discriminate].
    simpl. intros H. inversion H; subst base.
    eexists. split; [reflexivity|]. intros k. apply dict_get_update.
  - simpl. intros H. inversion H; subst base.
    eexists. split; [reflexivity|]. intros k. apply dict_get_update.
Qed.

Lemma caller_headers_win_witness :
  exists merged,
    CloudflareAPI.getAuthHeaders Sample.api
      (PyDict [("X-Auth-Key", PyStr "other")]) = Ok (PyDict merged) /\
    forall k,
      dict_get k merged =
      match last_entry k [("X-Auth-Key", PyStr "other")] with
      | Some v => Some v
      | None =>
          dict_get k [("X-Auth-Email", PyStr "me@example.com");
                      ("X-Auth-Key", PyStr "k3y")]
      end.
Proof.
  apply (@caller_headers_win Sample.api [("X-Auth-Key", PyStr "other")]).
  reflexivity.
Defined.

(** ** Dispatch and the edges of the handlers *)

(** [update_record] fills in what the record leaves out, ttl 1 and
    proxied on for an Address record, off for a Service record, and hands
    the whole record to the handler of its type. *)
Theorem update_record_defaults {unicode : Unicode} {W}
    (http : request -> W -> option response * W) api ip dn zone_id d name w :
  dict_get "name" d = Some name ->
  let ttl := match dict_get "ttl" d with Some t => t | None => PyInt 1 end in
  let proxied_or default :=
    match dict_get "proxied" d with Some p => p | None => PyBool default end in
  (dict_get "type" d = Some (PyStr "A") ->
   update_record http api ip dn zone_id (PyDict d) w =
   handle_http_record http api ip dn zone_id name ttl (proxied_or true)
     (PyDict d) w) /\
  (dict_get "type" d = Some (PyStr "SRV") ->
   update_record http api ip dn zone_id (PyDict d) w =
   handle_srv_record http api ip dn zone_id name ttl (proxied_or false)
     (PyDict d) w).
Proof.
  intros Hname ttl proxied_or. unfold ttl, proxied_or.
  split; intros Htype; unfold update_record, bind, lift, getitem, py_get;
    rewrite Hname, Htype;
    destruct (dict_get "ttl" d); destruct (dict_get "proxied" d);
    reflexivity.
Qed.

Lemma update_record_defaults_witness :
  update_record Provider.http Sample.api "1.2.3.4" (PyStr "example.com")
    (PyStr "z1") Sample.srv_record (Sample.start Sample.empty_zone) =
  handle_srv_record Provider.http Sample.api "1.2.3.4" (PyStr "example.com")
    (PyStr "z1") (PyStr "svc") (PyInt 1) (PyBool false) Sample.srv_record
    (Sample.start Sample.empty_zone).
Proof.
  refine (proj2 (@update_record_defaults _ _ Provider.http Sample.api "1.2.3.4"
                   (PyStr "example.com") (PyStr "z1") _ (PyStr "svc")
                   (Sample.start Sample.empty_zone) _) _); reflexivity.
Defined.

(** A record without a name raises [KeyError] on "name" whatever its type
    tag is, and a named record whose type tag is absent or empty raises
    the "Record type is not supported" error; neither sends a request. *)
Theorem update_record_refuses {unicode : Unicode} {W}
    (http : request -> W -> option response * W) api ip dn zone_id d w :
  (dict_get "name" d = None ->
   update_record http api ip dn zone_id (PyDict d) w =
   (Raise (KeyError (PyStr "name")), w)) /\
  (forall name,
      dict_get "name" d = Some name ->
      truthy match dict_get "type" d with Some t => t | None => PyNone end
        = false ->
      update_record http api ip dn zone_id (PyDict d) w =
      (Raise (RuntimeError "Record type is not supported"), w)).
Proof.
  split.
  - intros Hname. unfold update_record, bind, lift, getitem.
    now rewrite Hname.
  - intros name Hname Htag.
    unfold update_record, bind, lift, getitem, py_get, raise.
    rewrite Hname.
    destruct (dict_get "ttl" d); destruct (dict_get "type" d) as [t|];
      destruct (dict_get "proxied" d); simpl;
      try (destruct (py_eq t (PyStr "SRV"))); simpl;
      simpl in Htag; rewrite ?Htag; reflexivity.
Qed.

Lemma update_record_refuses_witness :
  update_record Provider.http Sample.api "1.2.3.4" (PyStr "example.com")
    (PyStr "z1") (PyDict [("type", PyStr "A")])
    (Sample.start Sample.empty_zone) =
  (Raise (KeyError (PyStr "name")), Sample.start Sample.empty_zone) /\
  update_record Provider.http Sample.api "1.2.3.4" (PyStr "example.com")
    (PyStr "z1") (PyDict [("name", PyStr "www"); ("type", PyStr "")])
    (Sample.start Sample.empty_zone) =
  (Raise (RuntimeError "Record type is not supported"),
   Sample.start Sample.empty_zone).
Proof.
  split.
  - refine (proj1 (@update_record_refuses _ _ Provider.http Sample.api
                     "1.2.3.4" (PyStr "example.com") (PyStr "z1") _
                     (Sample.start Sample.empty_zone)) _).
    reflexivity.
  - refine (proj2 (@update_record_refuses _ _ Provider.http Sample.api
                     "1.2.3.4" (PyStr "example.com") (PyStr "z1") _
                     (Sample.start Sample.empty_zone))
              (PyStr "www") _ _); reflexivity.
Defined.

(** A name that is not a string raises [TypeError] in both handlers
    before anything is sent, and so does a domain name that is not a
    string unless the name is "@" or empty. *)
Theorem names_must_be_strings {unicode : Unicode} {W}
    (http : request -> W -> option response * W) api ip dn zone_id name ttl
    proxied rd w :
  (forall s, name <> PyStr s) \/
  ((exists s, name = PyStr s /\ s <> "@" /\ s <> "") /\
   forall s, dn <> PyStr s) ->
  handle_http_record http api ip dn zone_id name ttl proxied rd w
    = (Raise TypeError, w) /\
  handle_srv_record http api ip dn zone_id name ttl proxied rd w
    = (Raise TypeError, w).
Proof.
  intros H.
  assert (Hname : computed_name name dn = Raise TypeError).
  { unfold computed_name. destruct H as [Hns|[[s [-> [Hat He]]] Hdn]].
    - destruct name as [ | | |s| | ]; try reflexivity.
      now contradiction (Hns s).
    - rewrite !py_eq_str.
      apply String.eqb_neq in Hat. apply String.eqb_neq in He.
      rewrite Hat, He. simpl.
      destruct dn as [ | | |t| | ]; try reflexivity.
      now contradiction (Hdn t). }
  assert (Ha : handle_http_record http api ip dn zone_id name ttl proxied
                 PyNone w = (Raise TypeError, w) /\
               handle_http_record http api ip dn zone_id name ttl proxied
                 rd w = (Raise TypeError, w)).
  { rewrite !handle_http_record_run. unfold bind, lift.
    now rewrite Hname. }
  destruct Ha as [Ha1 Ha2]. split; [exact Ha2|].
  rewrite handle_srv_record_run. unfold bind. now rewrite Ha1.
Qed.

Lemma names_must_be_strings_witness :
  handle_http_record Provider.http Sample.api "1.2.3.4" (PyStr "example.com")
    (PyStr "z1") (PyInt 7) (PyInt 1) (PyBool true) PyNone
    (Sample.start Sample.empty_zone)
  = (Raise TypeError, Sample.start Sample.empty_zone) /\
  handle_srv_record Provider.http Sample.api "1.2.3.4" (PyStr "example.com")
    (PyStr "z1") (PyInt 7) (PyInt 1) (PyBool true) PyNone
    (Sample.start Sample.empty_zone)
  = (Raise TypeError, Sample.start Sample.empty_zone).
Proof.
  apply (@names_must_be_strings _ _ Provider.http Sample.api "1.2.3.4"
           (PyStr "example.com") (PyStr "z1") (PyInt 7)).
  left. discriminate.
Defined.

(** The test of line 101 stops at the first field that differs: a record
    found with another content is updated without its ttl or proxied flag
    being read, while a record found without a content field raises
    [KeyError] and is not written. *)
Theorem address_test_short_circuits {W}
    (http : request -> W -> option response * W) api ip dn zone_id n ttl
    proxied rd w record w1 :
  CloudflareAPI.check_record http api zone_id (PyStr (effectiveName n dn))
    "A" w = (Ok record, w1) ->
  truthy record = true ->
  (forall content id,
      getitem record "content" = Ok content ->
      py_eq content (PyStr ip) = false ->
      getitem record "id" = Ok id ->
      handle_http_record http api ip (PyStr dn) zone_id (PyStr n) ttl
        proxied rd w =
      CloudflareAPI.update_record http api zone_id id
        (address_payload (effectiveName n dn) proxied ttl ip) w1) /\
  (forall e,
      getitem record "content" = Raise e ->
      handle_http_record http api ip (PyStr dn) zone_id (PyStr n) ttl
        proxied rd w = (Raise e, w1)) /\
  (forall content e,
      getitem record "content" = Ok content ->
      py_eq content (PyStr ip) = true ->
      getitem record "ttl" = Raise e ->
      handle_http_record http api ip (PyStr dn) zone_id (PyStr n) ttl
        proxied rd w = (Raise e, w1)).
Proof.
  intros Hlookup Htruthy.
  assert (Hrun : handle_http_record http api ip (PyStr dn) zone_id (PyStr n)
                   ttl proxied rd w =
                 settle_address http api ip zone_id ttl proxied
                   (address_payload (effectiveName n dn) proxied ttl ip)
                   record w1).
  { rewrite handle_http_record_str. unfold bind. now rewrite Hlookup. }
  rewrite Hrun. unfold settle_address. rewrite Htruthy. simpl.
  unfold bind, lift, ret.
  split; [|split].
  - intros c i Hc Hne Hi. now rewrite Hc, Hne, Hi.
  - intros e Hc. now rewrite Hc.
  - intros c e Hc Heq Ht. now rewrite Hc, Heq, Ht.
Qed.

Lemma address_test_short_circuits_witness :
  let w :=
    Sample.start
      (Provider.mkZone (PyStr "z1") "example.com"
         [PyDict [("type", PyStr "A"); ("name", PyStr "www.example.com");
                  ("content", PyStr "9.9.9.9")]]) in
  handle_http_record Provider.http Sample.api "1.2.3.4" (PyStr "example.com")
    (PyStr "z1") (PyStr "www") (PyInt 1) (PyBool true) PyNone w =
  CloudflareAPI.update_record Provider.http Sample.api (PyStr "z1") (PyInt 0)
    (address_payload "www.example.com" (PyBool true) (PyInt 1) "1.2.3.4")
    (snd (CloudflareAPI.check_record Provider.http Sample.api (PyStr "z1")
            (PyStr "www.example.com") "A" w)).
Proof.
  intros w.
  refine (proj1 (@address_test_short_circuits _ Provider.http Sample.api
                   "1.2.3.4" "example.com" (PyStr "z1") "www" (PyInt 1)
                   (PyBool true) PyNone w
                   (Provider.set_id 0
                      (PyDict [("type", PyStr "A");
                               ("name", PyStr "www.example.com");
                               ("content", PyStr "9.9.9.9")]))
                   _ _ _) (PyStr "9.9.9.9") (PyInt 0) _ _ _);
    reflexivity.
Defined.

(** A Service record whose data cannot be built, for want of proto,
    service, priority, weight or port, fails only after its Address record
    has been reconciled: the state and the requests of that reconciliation
    remain. *)
Theorem service_fails_after_address {unicode : Unicode} {W}
    (http : request -> W -> option response * W) api ip dn zone_id n ttl
    proxied rd w w1 e :
  handle_http_record http api ip (PyStr dn) zone_id (PyStr n) ttl proxied
    PyNone w = (Ok tt, w1) ->
  wanted_data (PyStr (effectiveName n dn)) rd = Raise e ->
  handle_srv_record http api ip (PyStr dn) zone_id (PyStr n) ttl proxied
    rd w = (Raise e, w1).
Proof.
  intros Haddr Hdata.
  rewrite handle_srv_record_run. unfold bind at 1. rewrite Haddr.
  rewrite service_part_data. now rewrite Hdata.
Qed.

Lemma service_fails_after_address_witness :
  let rd :=
    PyDict [("name", PyStr "svc"); ("type", PyStr "SRV");
            ("service", PyStr "_http"); ("proto", PyStr "TCP");
            ("priority", PyInt 10); ("weight", PyInt 5)] in
  let run :=
    handle_srv_record Provider.http Sample.api "1.2.3.4"
      (PyStr "example.com") (PyStr "z1") (PyStr "svc") (PyInt 1)
      (PyBool false) rd (Sample.start Sample.empty_zone) in
  fst run = Raise (KeyError (PyStr "port")) /\
  Provider.stored (provider (snd run)) = [Sample.svc_a].
Proof.
  intros rd run.
  pose proof (@service_fails_after_address _ _ Provider.http Sample.api
                "1.2.3.4" "example.com" (PyStr "z1") "svc" (PyInt 1)
                (PyBool false) rd (Sample.start Sample.empty_zone)
                (snd (handle_http_record Provider.http Sample.api "1.2.3.4"
                        (PyStr "example.com") (PyStr "z1") (PyStr "svc")
                        (PyInt 1) (PyBool false) PyNone
                        (Sample.start Sample.empty_zone)))
                (KeyError (PyStr "port")) eq_refl eq_refl) as H.
  unfold run. rewrite H. split; reflexivity.
Defined.

(** ** The Service test and the Service lookup *)

Lemma py_eq_dict_permuted d e :
  Permutation d e -> unique_keys (PyDict e) ->
  py_eq (PyDict d) (PyDict e) = true.
Proof.
  intros Hperm Hu. apply unique_keys_dict in Hu. destruct Hu as [Hnd Hall].
  simpl. rewrite (Permutation_length Hperm), Nat.eqb_refl. simpl.
  apply forallb_forall. intros [k v] Hin. simpl.
  assert (Hin' : In (k, v) e) by (eapply Permutation_in; eauto).
  rewrite (dict_get_unique e k v Hnd Hin').
  apply py_eq_refl. rewrite Forall_forall in Hall. apply (Hall (k, v) Hin').
Qed.

Lemma py_eq_dict_sizes d e :
  length d <> length e -> py_eq (PyDict d) (PyDict e) = false.
Proof.
  intros Hne. simpl. apply Nat.eqb_neq in Hne. now rewrite Hne.
Qed.

(** The test of line 131 does not depend on the order in which the
    provider lists the fields of data: a record whose data has the desired
    fields in any order is left alone.  It does depend on their number: a
    record whose data has a field more or a field less than the seven sent
    is updated, on every run. *)
Theorem service_test_on_fields {unicode : Unicode} {W}
    (http : request -> W -> option response * W) api ip dn zone_id n ttl
    proxied rd proto service priority weight port w w1 record w2 found :
  getitem rd "proto" = Ok (PyStr proto) ->
  getitem rd "service" = Ok service ->
  getitem rd "priority" = Ok priority ->
  getitem rd "weight" = Ok weight ->
  getitem rd "port" = Ok port ->
  handle_http_record http api ip (PyStr dn) zone_id (PyStr n) ttl proxied
    PyNone w = (Ok tt, w1) ->
  CloudflareAPI.check_record http api zone_id (PyStr (effectiveName n dn))
    "SRV" w1 = (Ok record, w2) ->
  getitem record "data" = Ok (PyDict found) ->
  let data :=
    service_data (effectiveName n dn) service proto priority weight port in
  (forall wanted,
      data = PyDict wanted -> Permutation found wanted ->
      unique_keys service -> unique_keys priority -> unique_keys weight ->
      unique_keys port ->
      handle_srv_record http api ip (PyStr dn) zone_id (PyStr n) ttl
        proxied rd w = (Ok tt, w2)) /\
  (forall id,
      length found <> 7%nat ->
      getitem record "id" = Ok id ->
      handle_srv_record http api ip (PyStr dn) zone_id (PyStr n) ttl
        proxied rd w =
      CloudflareAPI.update_record http api zone_id id (service_payload data)
        w2).
Proof.
  intros Hp Hs Hpr Hw Hpt Haddr Hlookup Hd data.
  assert (Hrun : handle_srv_record http api ip (PyStr dn) zone_id (PyStr n)
                   ttl proxied rd w =
                 settle_service http api zone_id data record w2).
  { rewrite handle_srv_record_run. unfold bind at 1. rewrite Haddr.
    rewrite (@service_part_str _ _ http api dn zone_id n rd proto service
               priority weight port w1 Hp Hs Hpr Hw Hpt).
    unfold bind. now rewrite Hlookup. }
  rewrite Hrun. unfold settle_service.
  rewrite (getitem_truthy _ _ Hd). simpl. unfold bind, lift, ret.
  rewrite Hd. split.
  - intros wanted Hdata Hperm Hus Hupr Huw Hupt.
    assert (Hu : unique_keys data).
    { apply unique_keys_dict. split.
      - simpl. repeat constructor; simpl; intuition discriminate.
      - repeat constructor; simpl; auto. }
    rewrite Hdata in *. now rewrite (py_eq_dict_permuted Hperm Hu).
  - intros id Hlen Hid.
    unfold data at 1. unfold service_data.
    rewrite py_eq_dict_sizes by exact Hlen. now rewrite Hid.
Qed.

Lemma service_test_on_fields_witness :
  let shuffled :=
    PyDict [("type", PyStr "SRV");
            ("data",
             PyDict [("target", PyStr "svc.example.com");
                     ("port", PyInt 8080); ("weight", PyInt 5);
                     ("priority", PyInt 10); ("proto", PyStr "_tcp");
                     ("service", PyStr "_http");
                     ("name", PyStr "svc.example.com")]);
            ("name", PyStr "_http._tcp.svc.example.com")] in
  let w :=
    Sample.start
      (Provider.mkZone (PyStr "z1") "example.com" [Sample.svc_a; shuffled]) in
  fst (handle_srv_record Provider.http Sample.api "1.2.3.4"
         (PyStr "example.com") (PyStr "z1") (PyStr "svc") (PyInt 1)
         (PyBool false) Sample.srv_record w) = Ok tt /\
  writes (sent (snd (handle_srv_record Provider.http Sample.api "1.2.3.4"
                       (PyStr "example.com") (PyStr "z1") (PyStr "svc")
                       (PyInt 1) (PyBool false) Sample.srv_record w)))
    = 0%nat.
Proof.
  intros shuffled w.
  set (w1 := snd (handle_http_record Provider.http Sample.api "1.2.3.4"
                    (PyStr "example.com") (PyStr "z1") (PyStr "svc")
                    (PyInt 1) (PyBool false) PyNone w)).
  set (w2 := snd (CloudflareAPI.check_record Provider.http Sample.api
                    (PyStr "z1") (PyStr "svc.example.com") "SRV" w1)).
  assert (H : handle_srv_record Provider.http Sample.api "1.2.3.4"
                (PyStr "example.com") (PyStr "z1") (PyStr "svc") (PyInt 1)
                (PyBool false) Sample.srv_record w = (Ok tt, w2)).
  { refine (proj1 (@service_test_on_fields _ _ Provider.http Sample.api
                     "1.2.3.4" "example.com" (PyStr "z1") "svc" (PyInt 1)
                     (PyBool false) Sample.srv_record "TCP" (PyStr "_http")
                     (PyInt 10) (PyInt 5) (PyInt 8080) w w1
                     (Provider.set_id 1 shuffled) w2 _
                     eq_refl eq_refl eq_refl eq_refl eq_refl eq_refl eq_refl
                     eq_refl) _ eq_refl _ I I I I).
    apply Permutation_sym.
    exact (Permutation_rev
             [("name", PyStr "svc.example.com"); ("service", PyStr "_http");
              ("proto", PyStr "_tcp"); ("priority", PyInt 10);
              ("weight", PyInt 5); ("port", PyInt 8080);
              ("target", PyStr "svc.example.com")]). }
  rewrite H. split; reflexivity.
Defined.

Lemma py_filter_raises f before bad after e :
  (forall x, In x before -> exists b, f x = Ok b) ->
  f bad = Raise e ->
  py_filter f (before ++ bad :: after) = Raise e.
Proof.
  intros Hok Hbad.
  induction before as [|x before IH]; simpl.
  - now rewrite Hbad.
  - destruct (Hok x (or_introl eq_refl)) as [b Hb]. rewrite Hb. simpl.
    rewrite IH; [reflexivity|]. intros y Hy. apply Hok. now right.
Qed.

(** The lookup tests every record of the listing before it takes the
    first match: one record without a name makes it raise, even when a
    matching record stands before it. *)
Theorem lookup_reads_every_name {W}
    (http : request -> W -> option response * W) api zone_id name type w
    data w1 before bad after e :
  CloudflareAPI.make_request http api "GET"
    [Lit "zones/"; Hole zone_id; Lit "/dns_records?per_page=100&type=";
     Hole (PyStr type)] PyNone PyNone w = (Ok data, w1) ->
  getitem data "result" = Ok (PyList (before ++ bad :: after)) ->
  Forall named before ->
  getitem bad "name" = Raise e ->
  CloudflareAPI.check_record http api zone_id (PyStr name) type w
    = (Raise e, w1).
Proof.
  intros Hreq Hres Hbefore Hbad.
  rewrite check_record_run. unfold bind, lift. rewrite Hreq.
  unfold select_record. rewrite Hres. simpl.
  rewrite Forall_forall in Hbefore.
  destruct (type =? "SRV").
  - rewrite py_filter_raises with (e := e); [reflexivity| |now rewrite Hbad].
    intros x Hx. destruct (Hbefore x Hx) as [s Hs]. rewrite Hs. simpl.
    eexists. reflexivity.
  - rewrite py_filter_raises with (e := e); [reflexivity| |now rewrite Hbad].
    intros x Hx. destruct (Hbefore x Hx) as [s Hs]. rewrite Hs. simpl.
    eexists. reflexivity.
Qed.

Lemma lookup_reads_every_name_witness :
  let z :=
    Provider.mkZone (PyStr "z1") "example.com"
      [Sample.www_a; PyDict [("type", PyStr "A")]] in
  CloudflareAPI.check_record Provider.http Sample.api (PyStr "z1")
    (PyStr "www.example.com") "A" (Sample.start z)
  = (Raise (KeyError (PyStr "name")),
     snd (CloudflareAPI.make_request Provider.http Sample.api "GET"
            [Lit "zones/"; Hole (PyStr "z1");
             Lit "/dns_records?per_page=100&type="; Hole (PyStr "A")]
            PyNone PyNone (Sample.start z))).
Proof.
  intros z.
  refine (@lookup_reads_every_name _ Provider.http Sample.api (PyStr "z1")
            "www.example.com" "A" (Sample.start z)
            (PyDict [("result",
                      PyList ([Provider.set_id 0 Sample.www_a] ++
                              Provider.set_id 1 (PyDict [("type", PyStr "A")])
                              :: []))])
            _ [Provider.set_id 0 Sample.www_a]
            (Provider.set_id 1 (PyDict [("type", PyStr "A")])) []
            (KeyError (PyStr "name")) _ _ _ _); try reflexivity.
  constructor; [|constructor]. exists "www.example.com". reflexivity.
Defined.

Lemma service_part_takes_over {unicode : Unicode} api dn zone_id n rd z log hd data
    service r rest found :
  Forall named (Provider.stored z) ->
  (Provider.held "SRV" z <= Provider.page_size)%nat ->
  CloudflareAPI.getAuthHeaders api (PyDict []) = Ok hd ->
  py_eq zone_id (Provider.zone_id z) = true ->
  wanted_data (PyStr (effectiveName n dn)) rd = Ok data ->
  getitem rd "service" = Ok (PyStr service) ->
  candidates "SRV" (effectiveName n dn) z = r :: rest ->
  getitem r "data" = Ok found ->
  py_eq found data = false ->
  exists j rec z',
    getitem r "id" = Ok (PyInt (Z.of_nat j)) /\
    service_part Provider.http api (PyStr dn) zone_id (PyStr n) rd
      (mkWorld z log) =
    (Ok tt,
     mkWorld z'
       (log ++ [get_records zone_id "SRV" hd;
                put_record zone_id (PyInt (Z.of_nat j)) hd
                  (service_payload data)])) /\
    length (Provider.stored z') = length (Provider.stored z) /\
    candidates "SRV" (effectiveName n dn) z' = Provider.set_id j rec :: rest /\
    getitem (Provider.set_id j rec) "data" = Ok data.
Proof.
  intros Hv Hpage Hhd Hz Hd Hsv Hc Hfound Hne.
  assert (Hst : exists rec,
             Provider.stored_form (service_payload data) = Some rec).
  { destruct (wanted_data_inv _ _ Hd)
      as [pl [sv [pr [wt [pt [-> [Hsv' _]]]]]]].
    rewrite Hsv in Hsv'. inversion Hsv'; subst sv.
    eexists. reflexivity. }
  destruct Hst as [rec Hst].
  destruct (@service_payload_stored _ _ _ _ _ Hd Hst)
    as [Hty [Hnm [Hnamed [Hdata _]]]].
  destruct (@candidates_after_replace "SRV" (effectiveName n dn) z r rest rec
              Hv Hc Hty Hnm) as [j [Hj [Hlt [Hc' _]]]].
  exists j, rec,
    (zone_with z (Provider.replace j rec (Provider.stored z))).
  split; [exact Hj|]. split; [|split; [|split]].
  - rewrite service_part_data, Hd. unfold bind.
    rewrite check_record_stored, Hhd, Hz.
    rewrite (@lookup_stored "SRV" (effectiveName n dn) z Hv Hpage), Hc.
    unfold settle_service.
    rewrite (getitem_truthy _ _ Hfound). simpl. unfold bind, lift, ret.
    rewrite Hfound, Hne, Hj.
    rewrite update_record_stored by (auto; reflexivity).
    rewrite Hhd, Hz, Hst. cbv zeta. now rewrite <- app_assoc.
  - simpl. clear - Hlt. revert j Hlt.
    induction (Provider.stored z) as [|x l IH]; intros j Hlt;
      destruct j; simpl in *; try lia.
    rewrite IH; [reflexivity | lia].
  - exact Hc'.
  - rewrite getitem_set_id_other; [exact Hdata | discriminate].
Qed.

(** On the storing provider, in a zone whose records carry their name
    and that holds at most 100 SRV records, the page a lookup asks for, a
    Service record takes over the first SRV record listed for its host,
    whichever service that record was made for: the record is replaced in
    place, the zone does not grow, and the data found before is gone. *)
Theorem service_takes_over_sibling {unicode : Unicode} api ip dn zone_id n
    ttl proxied rd z0 log0 z log hd data service r rest found :
  handle_http_record Provider.http api ip (PyStr dn) zone_id (PyStr n) ttl
    proxied PyNone (mkWorld z0 log0) = (Ok tt, mkWorld z log) ->
  Forall named (Provider.stored z) ->
  (Provider.held "SRV" z <= Provider.page_size)%nat ->
  CloudflareAPI.getAuthHeaders api (PyDict []) = Ok hd ->
  py_eq zone_id (Provider.zone_id z) = true ->
  wanted_data (PyStr (effectiveName n dn)) rd = Ok data ->
  getitem rd "service" = Ok (PyStr service) ->
  candidates "SRV" (effectiveName n dn) z = r :: rest ->
  getitem r "data" = Ok found ->
  py_eq found data = false ->
  exists j rec z',
    getitem r "id" = Ok (PyInt (Z.of_nat j)) /\
    handle_srv_record Provider.http api ip (PyStr dn) zone_id (PyStr n) ttl
      proxied rd (mkWorld z0 log0) =
    (Ok tt,
     mkWorld z'
       (log ++ [get_records zone_id "SRV" hd;
                put_record zone_id (PyInt (Z.of_nat j)) hd
                  (service_payload data)])) /\
    length (Provider.stored z') = length (Provider.stored z) /\
    candidates "SRV" (effectiveName n dn) z' = Provider.set_id j rec :: rest /\
    getitem (Provider.set_id j rec) "data" = Ok data.
Proof.
  intros Haddr Hv Hpage Hhd Hz Hd Hsv Hc Hfound Hne.
  destruct (@service_part_takes_over _ api dn zone_id n rd z log hd data
              service r rest found Hv Hpage Hhd Hz Hd Hsv Hc Hfound Hne)
    as [j [rec [z' [Hj [Hrun [Hlen [Hc' Hdata]]]]]]].
  exists j, rec, z'. split; [exact Hj|]. split; [|auto].
  rewrite handle_srv_record_run. unfold bind at 1. rewrite Haddr.
  exact Hrun.
Qed.

Lemma service_takes_over_sibling_witness :
  let ssh :=
    PyDict [("name", PyStr "svc"); ("type", PyStr "SRV");
            ("service", PyStr "_ssh"); ("proto", PyStr "tcp");
            ("priority", PyInt 1); ("weight", PyInt 1); ("port", PyInt 22)] in
  let run :=
    handle_srv_record Provider.http Sample.api "1.2.3.4"
      (PyStr "example.com") (PyStr "z1") (PyStr "svc") (PyInt 1)
      (PyBool false) ssh (Sample.start Sample.svc_zone) in
  exists j rec z',
    getitem (Provider.set_id 1 Sample.svc_srv) "id" = Ok (PyInt (Z.of_nat j))
    /\
    run =
    (Ok tt,
     mkWorld z'
       ([get_records (PyStr "z1") "A"
           (PyDict [("X-Auth-Email", PyStr "me@example.com");
                    ("X-Auth-Key", PyStr "k3y")])] ++
        [get_records (PyStr "z1") "SRV"
           (PyDict [("X-Auth-Email", PyStr "me@example.com");
                    ("X-Auth-Key", PyStr "k3y")]);
         put_record (PyStr "z1") (PyInt (Z.of_nat j))
           (PyDict [("X-Auth-Email", PyStr "me@example.com");
                    ("X-Auth-Key", PyStr "k3y")])
           (service_payload
              (service_data "svc.example.com" (PyStr "_ssh") "tcp" (PyInt 1)
                 (PyInt 1) (PyInt 22)))])) /\
    length (Provider.stored z') = 2%nat /\
    candidates "SRV" "svc.example.com" z' = [Provider.set_id j rec] /\
    getitem (Provider.set_id j rec) "data" =
    Ok (service_data "svc.example.com" (PyStr "_ssh") "tcp" (PyInt 1)
          (PyInt 1) (PyInt 22)).
Proof.
  intros ssh run.
  apply (@service_takes_over_sibling _ Sample.api "1.2.3.4" "example.com"
           (PyStr "z1") "svc" (PyInt 1) (PyBool false) ssh Sample.svc_zone []
           Sample.svc_zone
           [get_records (PyStr "z1") "A"
              (PyDict [("X-Auth-Email", PyStr "me@example.com");
                       ("X-Auth-Key", PyStr "k3y")])]
           (PyDict [("X-Auth-Email", PyStr "me@example.com");
                    ("X-Auth-Key", PyStr "k3y")])
           (service_data "svc.example.com" (PyStr "_ssh") "tcp"
              (PyInt 1) (PyInt 1) (PyInt 22))
           "_ssh" (Provider.set_id 1 Sample.svc_srv) []
           (service_data "svc.example.com" (PyStr "_http") "tcp"
              (PyInt 10) (PyInt 5) (PyInt 8080)));
    first [ apply Nat.leb_le; reflexivity
          | solve [repeat constructor; eexists; reflexivity]
          | reflexivity ].
Defined.

(** ** A zone and its records *)
Section Zones.
Context {unicode : Unicode}.
Context {W : Type}.
Variable http : request -> W -> option response * W.
Variable api : CloudflareAPI.t.
Variable public_ip : string.

Lemma handle_srv_record_budget dn zone_id name ttl proxied rd w r w' :
  handle_srv_record http api public_ip dn zone_id name ttl proxied rd w
    = (r, w') ->
  exists new, sent w' = sent w ++ new /\
              (reads new <= 2 /\ writes new <= 2)%nat.
Proof.
  rewrite handle_srv_record_run. unfold bind at 1.
  destruct (handle_http_record _ _ _ _ _ _ _ _ _ w) as [[[]|e] w1] eqn:Ha;
    destruct (handle_http_record_trace _ _ _ _ _ _ _ _ _ _ Ha)
      as [addr [Hsa Hone]];
    destruct (one_reconciliation_counts Hone) as [[Hr [Hw _]] _].
  - intros Hsp. destruct (service_part_trace _ _ _ _ _ _ _ Hsp)
      as [srv [Hss Hone2]].
    destruct (one_reconciliation_counts Hone2) as [[Hr2 [Hw2 _]] _].
    exists (addr ++ srv). split.
    + rewrite Hss, Hsa. now rewrite app_assoc.
    + rewrite reads_app, writes_app. lia.
  - intros H. inversion H; subst. exists addr. split; [exact Hsa|]. lia.
Qed.

Lemma update_record_budget dn zone_id record w r w' :
  update_record http api public_ip dn zone_id record w = (r, w') ->
  exists new, sent w' = sent w ++ new /\
              (reads new <= 2 /\ writes new <= 2)%nat.
Proof.
  assert (Hnothing : forall e,
             (Raise e : result unit, w) = (r, w') ->
             exists new, sent w' = sent w ++ new /\
                         (reads new <= 2 /\ writes new <= 2)%nat).
  { intros e H. inversion H; subst. exists []. rewrite app_nil_r.
    repeat split; auto; unfold reads, writes; simpl; lia. }
  unfold update_record, bind, lift, raise.
  destruct (getitem record "name") as [name|e]; [|apply Hnothing].
  destruct (py_get record "ttl" (PyInt 1)) as [ttl|e]; [|apply Hnothing].
  destruct (py_get record "type" PyNone) as [tag|e]; [|apply Hnothing].
  destruct (if py_eq tag (PyStr "SRV") then _ else _) as [proxied|e];
    [|apply Hnothing].
  destruct (negb (truthy tag)); [apply Hnothing|].
  unfold HANDLES_getitem.
  destruct tag as [ | | |s| | ]; try apply Hnothing.
  unfold HANDLES. cbn [find fst].
  destruct (String.eqb "A" s).
  - cbn [snd]. intros H.
    destruct (handle_http_record_trace _ _ _ _ _ _ _ _ _ _ H)
      as [new [Hs Hone]].
    destruct (one_reconciliation_counts Hone) as [[Hr [Hw _]] _].
    exists new. split; [exact Hs|]. lia.
  - destruct (String.eqb "SRV" s).
    + cbn [snd]. apply handle_srv_record_budget.
    + apply Hnothing.
Qed.

Lemma for_each_record_app dn zone_id before after w :
  for_each_record http api public_ip dn zone_id (before ++ after) w =
  bind (for_each_record http api public_ip dn zone_id before)
    (fun _ => for_each_record http api public_ip dn zone_id after) w.
Proof.
  revert w. induction before as [|x before IH]; intros w; simpl.
  - reflexivity.
  - unfold bind. cbv beta.
    destruct (update_record http api public_ip dn zone_id x w)
      as [[[]|e] w1]; [|reflexivity].
    rewrite IH. reflexivity.
Qed.

Lemma for_each_record_budget dn zone_id records w r w' :
  for_each_record http api public_ip dn zone_id records w = (r, w') ->
  exists new, sent w' = sent w ++ new /\
              (reads new <= 2 * length records /\
               writes new <= 2 * length records)%nat.
Proof.
  revert w. induction records as [|x records IH]; intros w; simpl.
  - unfold ret. intros H. inversion H; subst. exists [].
    rewrite app_nil_r. repeat split; auto.
  - unfold bind.
    destruct (update_record http api public_ip dn zone_id x w)
      as [[[]|e] w1] eqn:Hx;
      destruct (update_record_budget _ _ _ _ Hx) as [n1 [Hs1 [Hr1 Hw1]]].
    + intros H. destruct (IH _ H) as [n2 [Hs2 [Hr2 Hw2]]].
      exists (n1 ++ n2). split.
      * rewrite Hs2, Hs1. now rewrite app_assoc.
      * rewrite reads_app, writes_app. lia.
    + intros H. inversion H; subst. exists n1. split; [exact Hs1|]. lia.
Qed.
End Zones.

(** The records of a zone are reconciled in the order of the
    configuration, and the first one that fails ends the zone: the records
    after it are never looked at, and the state is the one in which the
    failure left it. *)
Theorem first_failure_ends_the_zone {unicode : Unicode} {W}
    (http : request -> W -> option response * W) api ip dn zone_id before
    failing after w w1 e w2 :
  for_each_record http api ip dn zone_id before w = (Ok tt, w1) ->
  update_record http api ip dn zone_id failing w1 = (Raise e, w2) ->
  for_each_record http api ip dn zone_id (before ++ failing :: after) w
    = (Raise e, w2).
Proof.
  intros Hbefore Hfail. rewrite for_each_record_app. unfold bind at 1.
  rewrite Hbefore. simpl. unfold bind. now rewrite Hfail.
Qed.

Lemma first_failure_ends_the_zone_witness :
  let w := Sample.start Sample.empty_zone in
  let run records :=
    for_each_record Provider.http Sample.api "1.2.3.4" (PyStr "example.com")
      (PyStr "z1") records w in
  run ([PyDict [("name", PyStr "www"); ("type", PyStr "A")]] ++
       PyDict [("type", PyStr "A")] :: [Sample.srv_record])
  = (Raise (KeyError (PyStr "name")),
     snd (run [PyDict [("name", PyStr "www"); ("type", PyStr "A")]])).
Proof.
  intros w run.
  apply (@first_failure_ends_the_zone _ _ Provider.http Sample.api "1.2.3.4"
           (PyStr "example.com") (PyStr "z1")
           [PyDict [("name", PyStr "www"); ("type", PyStr "A")]]
           (PyDict [("type", PyStr "A")]) [Sample.srv_record] w
           (snd (run [PyDict [("name", PyStr "www"); ("type", PyStr "A")]])));
    reflexivity.
Defined.

(** One zone with n records costs at most 1 + 2n reads, the zone itself
    and two lookups per record, and at most 2n writes. *)
Theorem run_ddns_budget {unicode : Unicode} {W}
    (http : request -> W -> option response * W) api ip ddns records w r w' :
  (rs <- py_get ddns "records" (PyList []) ;; py_iter rs)%result
    = Ok records ->
  run_ddns http api ip ddns w = (r, w') ->
  exists new,
    sent w' = sent w ++ new /\
    (reads new <= 1 + 2 * length records /\
     writes new <= 2 * length records)%nat.
Proof.
  intros Hrecords. unfold run_ddns. unfold bind at 1. unfold lift at 1.
  destruct (getitem ddns "zone-id") as [zone_id|e].
  - unfold bind at 1.
    destruct (CloudflareAPI.get_domain_name http api zone_id w)
      as [rd w1] eqn:Hdn.
    assert (Hzone : exists n1, sent w1 = sent w ++ n1 /\
                               (reads n1 <= 1 /\ writes n1 = 0)%nat).
    { unfold CloudflareAPI.get_domain_name, bind, lift in Hdn.
      destruct (CloudflareAPI.make_request http api "GET" _ PyNone PyNone w)
        as [rm wm] eqn:Hm.
      assert (wm = w1) by (destruct rm; inversion Hdn; reflexivity).
      subst wm. apply make_request_cases in Hm.
      destruct Hm as [[-> _]|[hd Hs]].
      - exists []. rewrite app_nil_r. repeat split; auto.
      - eexists. split; [exact Hs|]. split; [apply Nat.le_refl|reflexivity]. }
    destruct Hzone as [n1 [Hs1 [Hr1 Hw1]]].
    destruct rd as [dn|e].
    + unfold bind at 1. unfold lift at 1.
      destruct (py_add (PyStr "Running DDNS for ") dn) as [line|e].
      * unfold bind at 1. unfold lift at 1. rewrite Hrecords.
        intros H.
        destruct (@for_each_record_budget _ _ http api ip dn zone_id records
                    w1 r w' H) as [n2 [Hs2 [Hr2 Hw2]]].
        exists (n1 ++ n2). split.
        -- rewrite Hs2, Hs1. now rewrite app_assoc.
        -- rewrite reads_app, writes_app. lia.
      * intros H. inversion H; subst. exists n1. split; [exact Hs1|]. lia.
    + intros H. inversion H; subst. exists n1. split; [exact Hs1|]. lia.
  - intros H. inversion H; subst. exists []. rewrite app_nil_r.
    repeat split; auto; unfold reads, writes; simpl; lia.
Qed.

Lemma run_ddns_budget_witness :
  let ddns :=
    PyDict [("zone-id", PyStr "z1");
            ("records",
             PyList [PyDict [("name", PyStr "www"); ("type", PyStr "A")];
                     Sample.srv_record])] in
  let w := Sample.start Sample.empty_zone in
  exists new,
    sent (snd (run_ddns Provider.http Sample.api "1.2.3.4" ddns w)) =
      sent w ++ new /\
    (reads new <= 1 + 2 * 2 /\ writes new <= 2 * 2)%nat.
Proof.
  intros ddns w.
  apply (@run_ddns_budget _ _ Provider.http Sample.api "1.2.3.4" ddns
           [PyDict [("name", PyStr "www"); ("type", PyStr "A")];
            Sample.srv_record] w
           (fst (run_ddns Provider.http Sample.api "1.2.3.4" ddns w))
           (snd (run_ddns Provider.http Sample.api "1.2.3.4" ddns w)));
    reflexivity.
Defined.

(** A zone without a zone-id raises [KeyError] before anything is sent.
    A zone without records, or with none, asks the provider for its domain
    name and nothing else: it ends well when the name is a string, and
    raises [TypeError] on line 159, where the name is appended to a string,
    when it is anything else. *)
Theorem run_ddns_edges {unicode : Unicode} {W}
    (http : request -> W -> option response * W) api ip d w :
  (dict_get "zone-id" d = None ->
   run_ddns http api ip (PyDict d) w = (Raise (KeyError (PyStr "zone-id")), w))
  /\
  (forall zone_id,
      dict_get "zone-id" d = Some zone_id ->
      dict_get "records" d = None \/ dict_get "records" d = Some (PyList []) ->
      run_ddns http api ip (PyDict d) w =
      match CloudflareAPI.get_domain_name http api zone_id w with
      | (Ok (PyStr _), w') => (Ok tt, w')
      | (Ok _, w') => (Raise TypeError, w')
      | (Raise e, w') => (Raise e, w')
      end).
Proof.
  split.
  - intros Hz. unfold run_ddns, bind, lift, getitem. now rewrite Hz.
  - intros zone_id Hz Hrec. unfold run_ddns, bind, lift, getitem, py_get.
    rewrite Hz.
    destruct (CloudflareAPI.get_domain_name http api zone_id w)
      as [[dn|e] w1]; [|reflexivity].
    destruct dn; try reflexivity.
    destruct Hrec as [-> | ->]; reflexivity.
Qed.

Lemma run_ddns_edges_witness :
  run_ddns Provider.http Sample.api "1.2.3.4" (PyDict [("records", PyList [])])
    (Sample.start Sample.empty_zone)
  = (Raise (KeyError (PyStr "zone-id")), Sample.start Sample.empty_zone) /\
  run_ddns Provider.http Sample.api "1.2.3.4"
    (PyDict [("zone-id", PyStr "z1")]) (Sample.start Sample.empty_zone)
  = (Ok tt,
     snd (CloudflareAPI.get_domain_name Provider.http Sample.api (PyStr "z1")
            (Sample.start Sample.empty_zone))).
Proof.
  split.
  - refine (proj1 (@run_ddns_edges _ _ Provider.http Sample.api "1.2.3.4" _
                     (Sample.start Sample.empty_zone)) _).
    reflexivity.
  - refine (proj2 (@run_ddns_edges _ _ Provider.http Sample.api "1.2.3.4"
                     [("zone-id", PyStr "z1")]
                     (Sample.start Sample.empty_zone))
              (PyStr "z1") eq_refl (or_introl eq_refl)).
Defined.

(** ** The public IP *)

Lemma contains_app c a b :
  contains c (a ++ b)%string = contains c a || contains c b.
Proof.
  induction a as [|x a IH]; simpl; [reflexivity|].
  now rewrite IH, orb_assoc.
Qed.

Lemma split_without sep s : contains sep s = false -> split sep s = [s].
Proof.
  induction s as [|c s IH]; simpl; [reflexivity|].
  intros H. apply orb_false_iff in H. destruct H as [Hc Hs].
  rewrite Hc, (IH Hs). reflexivity.
Qed.

Lemma split_at sep a b :
  contains sep a = false ->
  split sep (a ++ String sep b)%string = a :: split sep b.
Proof.
  induction a as [|c a IH]; simpl; intros H.
  - now rewrite Ascii.eqb_refl.
  - apply orb_false_iff in H. destruct H as [Hc Ha].
    rewrite Hc, (IH Ha). reflexivity.
Qed.

Lemma drop_last_app a c b :
  drop_last (a ++ String c b)%string = (a ++ drop_last (String c b))%string.
Proof.
  induction a as [|x a IH]; [reflexivity|].
  change ((String x a ++ String c b)%string)
    with (String x (a ++ String c b)%string).
  cbn [drop_last]. rewrite IH.
  destruct a; reflexivity.
Qed.

Lemma append_empty s : (s ++ "")%string = s.
Proof. induction s as [|c s IH]; simpl; [reflexivity | now rewrite IH]. Qed.

Lemma trace_text_starts kv rest :
  exists c s, trace_text (kv :: rest) = String c s.
Proof.
  destruct kv as [k v]. simpl. destruct k; simpl; eauto.
Qed.

(** The lines that line 169 cuts the trace into. *)
Lemma trace_lines fields :
  fields <> [] -> Forall one_line fields ->
  split newline (drop_last (trace_text fields)) = map line_of fields.
Proof.
  intros Hne Hall. induction Hall as [|[k v] rest [Hk Hv] Hrest IH];
    [congruence|]. clear Hne. simpl in Hk, Hv.
  assert (Hline : contains newline (line_of (k, v)) = false).
  { unfold line_of. simpl. rewrite contains_app. simpl.
    now rewrite Hk, Hv. }
  change (trace_text ((k, v) :: rest))
    with (k ++ String equals_sign (v ++ String newline (trace_text rest)))%string.
  replace (k ++ String equals_sign (v ++ String newline (trace_text rest)))%string
    with (line_of (k, v) ++ String newline (trace_text rest))%string.
  2:{ unfold line_of. simpl. rewrite append_assoc. reflexivity. }
  rewrite drop_last_app.
  destruct rest as [|kv rest].
  - simpl. rewrite append_empty. now rewrite split_without.
  - destruct (trace_text_starts kv rest) as [c [s Hs]].
    rewrite Hs in *.
    change (drop_last (String newline (String c s)))
      with (String newline (drop_last (String c s))).
    rewrite split_at by exact Hline.
    rewrite IH by discriminate. reflexivity.
Qed.

Lemma split_nonempty sep s : exists a rest, split sep s = a :: rest.
Proof.
  induction s as [|c s [a [rest IH]]]; simpl; [eauto|].
  destruct (Ascii.eqb c sep); [eauto|]. rewrite IH. eauto.
Qed.

Lemma split_with sep s :
  contains sep s = true -> exists a b rest, split sep s = a :: b :: rest.
Proof.
  induction s as [|c s IH]; simpl; [discriminate|].
  destruct (Ascii.eqb c sep); simpl.
  - intros _. destruct (split_nonempty sep s) as [a [rest ->]]. eauto.
  - intros H. destruct (IH H) as [a [b [rest ->]]]. eauto.
Qed.

Lemma line_splits k v :
  contains equals_sign k = false -> contains equals_sign v = false ->
  split equals_sign (line_of (k, v)) = [k; v].
Proof.
  intros Hk Hv. unfold line_of. simpl.
  rewrite split_at by exact Hk. now rewrite split_without.
Qed.

Lemma line_splits_in_three k v :
  contains equals_sign k = false -> contains equals_sign v = true ->
  exists a b c rest, split equals_sign (line_of (k, v)) = a :: b :: c :: rest.
Proof.
  intros Hk Hv. unfold line_of. simpl.
  rewrite split_at by exact Hk.
  destruct (split_with _ _ Hv) as [a [b [rest ->]]]. eauto.
Qed.

Lemma dict_of_lines_app l1 l2 d :
  dict_of_lines (l1 ++ l2) d =
  match dict_of_lines l1 d with
  | Some d' => dict_of_lines l2 d'
  | None => None
  end.
Proof.
  revert d. induction l1 as [|x l1 IH]; intros d; simpl; [reflexivity|].
  destruct (split equals_sign x) as [|a [|b [|c rest]]]; auto.
Qed.

Lemma dict_of_lines_fields fields d :
  Forall plain fields ->
  dict_of_lines (map line_of fields) d =
  Some (fold_left (fun d kv => fields_set (fst kv) (snd kv) d) fields d).
Proof.
  intros H. revert d.
  induction H as [|[k v] rest [Hk [_ [Hv _]]] _ IH]; intros d;
    [reflexivity|].
  simpl in Hk, Hv. cbn [map dict_of_lines].
  rewrite (line_splits k v Hk Hv). apply IH.
Qed.

Lemma fields_get_set_same k v d : fields_get k (fields_set k v d) = Some v.
Proof.
  induction d as [|[k' v'] d IH]; simpl.
  - now rewrite String.eqb_refl.
  - destruct (k' =? k) eqn:Hk; simpl.
    + now rewrite String.eqb_refl.
    + now rewrite Hk.
Qed.

Lemma fields_get_set_other k k' v d :
  k' <> k -> fields_get k (fields_set k' v d) = fields_get k d.
Proof.
  intros Hne. induction d as [|[k0 v0] d IH]; simpl.
  - destruct (String.eqb_spec k' k); [congruence | reflexivity].
  - destruct (String.eqb_spec k0 k') as [->|Hk]; simpl.
    + destruct (String.eqb_spec k' k); [congruence|].
      destruct (String.eqb_spec k' k); [congruence | reflexivity].
    + destruct (k0 =? k); [reflexivity | exact IH].
Qed.

Lemma fields_get_fold key fields d :
  fields_get key
    (fold_left (fun d kv => fields_set (fst kv) (snd kv) d) fields d) =
  match last_value key fields with
  | Some x => Some x
  | None => fields_get key d
  end.
Proof.
  revert d. induction fields as [|[k v] rest IH]; intros d; [reflexivity|].
  simpl. rewrite IH.
  destruct (last_value key rest); [reflexivity|].
  destruct (String.eqb_spec k key) as [->|Hne].
  - apply fields_get_set_same.
  - now apply fields_get_set_other.
Qed.

(** From a trace made of [key=value] lines, each ended by a newline, line
    169 takes the value of the last line whose key is "ip", and raises
    [KeyError] when there is none. *)
Theorem public_ip_of_trace fields :
  fields <> [] -> Forall plain fields ->
  public_ip_of (trace_text fields) =
  match last_value "ip" fields with
  | Some ip => Got ip
  | None => Failed (KeyError (PyStr "ip"))
  end.
Proof.
  intros Hne Hplain. unfold public_ip_of.
  rewrite trace_lines; [|exact Hne|].
  - rewrite dict_of_lines_fields by exact Hplain.
    rewrite fields_get_fold. simpl.
    now destruct (last_value "ip" fields).
  - eapply Forall_impl; [|exact Hplain].
    intros kv [_ [Hk [_ Hv]]]. now split.
Qed.

Lemma public_ip_of_trace_witness :
  public_ip_of
    (trace_text [("fl", "29f4"); ("ip", "203.0.113.7"); ("ts", "1700000000")])
  = Got "203.0.113.7".
Proof.
  refine (@public_ip_of_trace
            [("fl", "29f4"); ("ip", "203.0.113.7"); ("ts", "1700000000")]
            _ _).
  - discriminate.
  - repeat constructor.
Defined.

(** A trace with a line that has a second "=" in it makes line 169 raise
    [ValueError], whatever the other lines are and even when the line is
    not the one of the IP; so does an empty trace. *)
Theorem public_ip_value_error before k v after :
  Forall plain before ->
  Forall one_line (before ++ (k, v) :: after) ->
  contains equals_sign k = false ->
  contains equals_sign v = true ->
  public_ip_of (trace_text (before ++ (k, v) :: after)) = FailedValueError /\
  public_ip_of "" = FailedValueError.
Proof.
  intros Hbefore Hlines Hk Hv. split; [|reflexivity].
  unfold public_ip_of.
  rewrite trace_lines; [| now destruct before | exact Hlines].
  rewrite map_app, dict_of_lines_app.
  rewrite dict_of_lines_fields by exact Hbefore.
  cbn [map dict_of_lines].
  destruct (line_splits_in_three k v Hk Hv) as [a [b [c [rest ->]]]].
  reflexivity.
Qed.

Lemma public_ip_value_error_witness :
  public_ip_of
    (trace_text [("ip", "203.0.113.7"); ("uag", "curl/8.0 (a=b)")])
  = FailedValueError.
Proof.
  refine (proj1 (@public_ip_value_error [("ip", "203.0.113.7")] "uag"
                   "curl/8.0 (a=b)" [] _ _ _ _)).
  - repeat constructor.
  - repeat constructor.
  - reflexivity.
  - reflexivity.
Defined.

(** ** The logger *)

Lemma infos_disabled green reset messages st :
  Logger.ENABLED st = false -> Logger.infos green reset messages st = st.
Proof.
  intros H. unfold Logger.infos.
  induction messages as [|m rest IH]; [reflexivity|].
  simpl. unfold Logger.info at 2. rewrite H. simpl. exact IH.
Qed.

Lemma infos_initialized green reset messages st :
  Logger.ENABLED st = true -> Logger.INITIALIZED st = true ->
  Logger.infos green reset messages st =
  Logger.mk true true (Logger.colorama_inits st)
    (Logger.printed st ++
     map (fun m => (green ++ "[INFO] " ++ m ++ reset)%string) messages).
Proof.
  unfold Logger.infos. revert st.
  induction messages as [|m rest IH]; intros st He Hi.
  - simpl. rewrite app_nil_r. destruct st; simpl in *; now subst.
  - simpl. rewrite IH.
    + unfold Logger.info, Logger.initialize. rewrite He, Hi. simpl.
      now rewrite <- app_assoc.
    + unfold Logger.info, Logger.initialize. now rewrite He, Hi.
    + unfold Logger.info, Logger.initialize. now rewrite He, Hi.
Qed.

(** While logging is off, [info] prints nothing and does not touch
    colorama.  While it is on, every message is printed, in order, between
    the green and the reset codes, and colorama is initialised once, by
    the first message, however many follow. *)
Theorem logger_initialises_once green reset messages st :
  (Logger.ENABLED st = false ->
   Logger.infos green reset messages st = st) /\
  (Logger.ENABLED st = true ->
   Logger.printed (Logger.infos green reset messages st) =
     Logger.printed st ++
     map (fun m => (green ++ "[INFO] " ++ m ++ reset)%string) messages /\
   Logger.colorama_inits (Logger.infos green reset messages st) =
     (Logger.colorama_inits st +
      if Logger.INITIALIZED st then 0
      else match messages with [] => 0 | _ :: _ => 1 end)%nat).
Proof.
  split; [apply infos_disabled|].
  intros He. destruct (Logger.INITIALIZED st) eqn:Hi.
  - rewrite infos_initialized by assumption. simpl. split; [reflexivity|lia].
  - destruct messages as [|m rest].
    + simpl. rewrite app_nil_r. split; [reflexivity|lia].
    + change (Logger.infos green reset (m :: rest) st)
        with (Logger.infos green reset rest (Logger.info green reset m st)).
      rewrite infos_initialized;
        try (unfold Logger.info, Logger.initialize; now rewrite He, Hi).
      unfold Logger.info, Logger.initialize. rewrite He, Hi. simpl.
      split; [now rewrite <- app_assoc | lia].
Qed.

Lemma logger_initialises_once_witness :
  let st := Logger.mk true false 0 [] in
  Logger.printed (Logger.infos "<g>" "<r>" ["one"; "two"] st) =
    ["<g>[INFO] one<r>"; "<g>[INFO] two<r>"] /\
  Logger.colorama_inits (Logger.infos "<g>" "<r>" ["one"; "two"] st) = 1%nat.
Proof.
  intros st.
  apply (proj2 (@logger_initialises_once "<g>" "<r>" ["one"; "two"] st)).
  reflexivity.
Defined.

(** ** The main block *)

Lemma for_each_zone_app {unicode : Unicode} {W} (http : request -> W -> option response * W)
    api ip before after w :
  for_each_zone http api ip (before ++ after) w =
  bind (for_each_zone http api ip before)
    (fun _ => for_each_zone http api ip after) w.
Proof.
  revert w. induction before as [|x before IH]; intros w; simpl.
  - reflexivity.
  - unfold bind. cbv beta.
    destruct (run_ddns http api ip x w) as [[[]|e] w1]; [|reflexivity].
    rewrite IH. reflexivity.
Qed.

(** The credentials are checked before anything else: a configuration
    without an authentication section, or with one the constructor
    refuses, ends the program with that error before the trace is looked
    at and before any request, whatever zones it lists. *)
Theorem main_checks_credentials_first {unicode : Unicode} {W}
    (http : request -> W -> option response * W) c trace w :
  (dict_get "authentication" c = None ->
   exists msg,
     main http (PyDict c) trace w = (Failed (AuthenticationConfigError msg), w))
  /\
  (forall auth e,
      dict_get "authentication" c = Some auth ->
      CloudflareAPI.init auth = Raise e ->
      main http (PyDict c) trace w = (Failed e, w)).
Proof.
  split.
  - intros H. eexists. unfold main, py_get. rewrite H. reflexivity.
  - intros auth e H Hinit. unfold main, py_get. rewrite H. simpl.
    now rewrite Hinit.
Qed.

Lemma main_checks_credentials_first_witness :
  main Provider.http
    (PyDict [("authentication",
              PyDict [("use-token", PyBool true); ("api-auth", PyStr "t0k")]);
             ("dns", PyList [PyDict [("zone-id", PyStr "z1")]])])
    None (Sample.start Sample.empty_zone)
  = (Failed (AuthenticationConfigError
               "Please check your authentication configuration and correct it!"),
     Sample.start Sample.empty_zone).
Proof.
  refine (proj2 (@main_checks_credentials_first _ _ Provider.http
                   [("authentication",
                     PyDict [("use-token", PyBool true);
                             ("api-auth", PyStr "t0k")]);
                    ("dns", PyList [PyDict [("zone-id", PyStr "z1")]])]
                   None (Sample.start Sample.empty_zone))
            (PyDict [("use-token", PyBool true); ("api-auth", PyStr "t0k")])
            _ eq_refl eq_refl).
Defined.

(** The zones are run in the order of the configuration, and the first
    exception of a zone ends the program: the zones after it are never
    contacted. *)
Theorem first_failure_ends_the_run {unicode : Unicode} {W}
    (http : request -> W -> option response * W) c auth api text ip before
    failing after w w1 e w2 :
  dict_get "authentication" c = Some auth ->
  CloudflareAPI.init auth = Ok api ->
  public_ip_of text = Got ip ->
  dict_get "dns" c = Some (PyList (before ++ failing :: after)) ->
  for_each_zone http api ip before w = (Ok tt, w1) ->
  run_ddns http api ip failing w1 = (Raise e, w2) ->
  main http (PyDict c) (Some text) w = (Failed e, w2).
Proof.
  intros Hauth Hinit Hip Hdns Hbefore Hfail.
  unfold main, py_get. rewrite Hauth. simpl. rewrite Hinit, Hip, Hdns.
  simpl. rewrite for_each_zone_app. unfold bind at 1. rewrite Hbefore.
  simpl. unfold bind. now rewrite Hfail.
Qed.

Lemma first_failure_ends_the_run_witness :
  let config :=
    [("authentication",
      PyDict [("use-token", PyBool false); ("email", PyStr "me@example.com");
              ("api-auth", PyStr "k3y")]);
     ("dns",
      PyList ([PyDict [("zone-id", PyStr "z1")]] ++
              PyDict [("zone-id", PyStr "elsewhere")] ::
              [PyDict [("zone-id", PyStr "z1");
                       ("records", PyList [Sample.srv_record])]]))] in
  let w := Sample.start Sample.empty_zone in
  main Provider.http (PyDict config) (Some (trace_text [("ip", "1.2.3.4")])) w
  = (Failed (CloudflareAPIError 404 "not found"),
     snd (run_ddns Provider.http Sample.api "1.2.3.4"
            (PyDict [("zone-id", PyStr "elsewhere")])
            (snd (run_ddns Provider.http Sample.api "1.2.3.4"
                    (PyDict [("zone-id", PyStr "z1")]) w)))).
Proof.
  intros config w.
  refine (@first_failure_ends_the_run _ _ Provider.http config _ Sample.api
            (trace_text [("ip", "1.2.3.4")]) "1.2.3.4"
            [PyDict [("zone-id", PyStr "z1")]]
            (PyDict [("zone-id", PyStr "elsewhere")])
            [PyDict [("zone-id", PyStr "z1");
                     ("records", PyList [Sample.srv_record])]]
            w _ _ _ eq_refl eq_refl eq_refl eq_refl _ _); reflexivity.
Defined.

(** ** From the configuration to the zone *)

Lemma get_domain_name_stored api zone_id z log :
  CloudflareAPI.get_domain_name Provider.http api zone_id (mkWorld z log) =
  match CloudflareAPI.getAuthHeaders api (PyDict []) with
  | Raise e => (Raise e, mkWorld z log)
  | Ok hd =>
      (if py_eq zone_id (Provider.zone_id z)
       then Ok (PyStr (Provider.domain z))
       else Raise (CloudflareAPIError 404 "not found"),
       mkWorld z
         (log ++ [mkRequest "GET"
                    [Lit CloudflareAPI.BASE_URL; Lit "zones/"; Hole zone_id]
                    hd (PyDict [])]))
  end.
Proof.
  unfold CloudflareAPI.get_domain_name, CloudflareAPI.make_request, bind,
    lift, requests_request.
  change (if negb (truthy PyNone) then PyDict [] else PyNone)
    with (PyDict []).
  destruct (CloudflareAPI.getAuthHeaders api (PyDict [])) as [hd|e];
    [|reflexivity].
  unfold Provider.http. simpl.
  destruct (py_eq zone_id (Provider.zone_id z)); reflexivity.
Qed.

Lemma update_record_address {unicode : Unicode} {W}
    (http : request -> W -> option response * W) api ip dn zone_id d name w :
  dict_get "name" d = Some name ->
  dict_get "type" d = Some (PyStr "A") ->
  update_record http api ip dn zone_id (PyDict d) w =
  handle_http_record http api ip dn zone_id name
    match dict_get "ttl" d with Some t => t | None => PyInt 1 end
    match dict_get "proxied" d with Some p => p | None => PyBool true end
    (PyDict d) w.
Proof.
  intros Hname Htype. unfold update_record, bind, lift, getitem, py_get.
  rewrite Hname, Htype.
  destruct (dict_get "ttl" d); destruct (dict_get "proxied" d); reflexivity.
Qed.

Lemma unique_keys_entry d k v :
  unique_keys (PyDict d) -> dict_get k d = Some v -> unique_keys v.
Proof.
  intros Hu Hg. apply (@unique_keys_getitem (PyDict d) k v Hu).
  simpl. now rewrite Hg.
Qed.

(** End to end on the storing provider, for a zone whose records carry
    their name and that holds at most 100 Address records, the page a
    lookup asks for: a zone of the configuration with one Address record,
    once run to completion, leaves in the provider's zone a record named
    after the record and the provider's own domain name, with the current
    IP and the ttl and proxied flag of the configuration or their
    defaults, as the first record of that name. *)
Theorem run_ddns_settles_address {unicode : Unicode} api ip ddns zone_id d n
    z log w1 :
  Forall named (Provider.stored z) ->
  (Provider.held "A" z <= Provider.page_size)%nat ->
  unique_keys (PyDict d) ->
  dict_get "zone-id" ddns = Some zone_id ->
  dict_get "records" ddns = Some (PyList [PyDict d]) ->
  dict_get "name" d = Some (PyStr n) ->
  dict_get "type" d = Some (PyStr "A") ->
  run_ddns Provider.http api ip (PyDict ddns) (mkWorld z log) = (Ok tt, w1) ->
  exists r rest,
    candidates "A" (effectiveName n (Provider.domain z)) (provider w1)
      = r :: rest /\
    settled_address ip
      match dict_get "ttl" d with Some t => t | None => PyInt 1 end
      match dict_get "proxied" d with Some p => p | None => PyBool true end
      r.
Proof.
  intros Hv Hpage Hu Hzone Hrecords Hname Htype.
  unfold run_ddns. unfold bind at 1. unfold lift at 1.
  unfold getitem at 1. rewrite Hzone.
  unfold bind at 1. rewrite get_domain_name_stored.
  destruct (CloudflareAPI.getAuthHeaders api (PyDict [])) as [hd|e];
    [|discriminate].
  destruct (py_eq zone_id (Provider.zone_id z)); [|discriminate].
  unfold bind at 1. unfold lift at 1. cbn [py_add].
  unfold bind at 1. unfold lift at 1. unfold py_get at 1.
  rewrite Hrecords. cbn [rbind py_iter].
  cbn [for_each_record]. unfold bind at 1.
  rewrite (update_record_address Provider.http api ip
             (PyStr (Provider.domain z)) zone_id d _ Hname Htype).
  destruct (handle_http_record Provider.http api ip _ _ _ _ _ _ _)
    as [[[]|e] w'] eqn:Hrun; [|discriminate].
  unfold ret. intros H. inversion H; subst w'; clear H.
  assert (Hut : unique_keys
                  match dict_get "ttl" d with
                  | Some t => t | None => PyInt 1 end).
  { destruct (dict_get "ttl" d) eqn:Ht; [|exact I].
    eapply unique_keys_entry; eauto. }
  assert (Hup : unique_keys
                  match dict_get "proxied" d with
                  | Some p => p | None => PyBool true end).
  { destruct (dict_get "proxied" d) eqn:Hp; [|exact I].
    eapply unique_keys_entry; eauto. }
  destruct (@address_first_run api ip (Provider.domain z) zone_id n _ _
              (PyDict d) z _ w1 Hv Hut Hup Hpage Hrun)
    as [_ [_ [_ [_ [_ [Hsettled _]]]]]].
  exact Hsettled.
Qed.

Lemma run_ddns_settles_address_witness :
  candidates "A" "www.example.com"
    (provider
       (snd (run_ddns Provider.http Sample.api "1.2.3.4"
               (PyDict [("zone-id", PyStr "z1");
                        ("records",
                         PyList [PyDict [("name", PyStr "www");
                                         ("type", PyStr "A")]])])
               (Sample.start Sample.empty_zone))))
  = [PyDict [("type", PyStr "A"); ("name", PyStr "www.example.com");
             ("proxied", PyBool true); ("ttl", PyInt 1);
             ("content", PyStr "1.2.3.4"); ("id", PyInt 0)]].
Proof.
  destruct (@run_ddns_settles_address _ Sample.api "1.2.3.4"
              [("zone-id", PyStr "z1");
               ("records",
                PyList [PyDict [("name", PyStr "www"); ("type", PyStr "A")]])]
              (PyStr "z1")
              [("name", PyStr "www"); ("type", PyStr "A")] "www"
              Sample.empty_zone []
              (snd (run_ddns Provider.http Sample.api "1.2.3.4"
                      (PyDict [("zone-id", PyStr "z1");
                               ("records",
                                PyList [PyDict [("name", PyStr "www");
                                                ("type", PyStr "A")]])])
                      (Sample.start Sample.empty_zone))))
    as [r [rest [Hc _]]];
    first [ apply Nat.leb_le; reflexivity
          | solve [constructor]
          | solve [simpl; split; [|tauto];
                   repeat constructor; simpl; intuition discriminate]
          | reflexivity ].
Defined.

(** First match, and only the first, on the storing provider: when the
    zone, whose records carry their name, holds at most 100 Address
    records, the page a lookup asks for, and several of them have the
    name, a completed run leaves the first one settled under its old id
    and every later one exactly as it was. *)
Theorem later_duplicates_stay api ip dn zone_id n ttl proxied rd z log w1
    r rest :
  Forall named (Provider.stored z) ->
  unique_keys ttl -> unique_keys proxied ->
  (Provider.held "A" z <= Provider.page_size)%nat ->
  candidates "A" (effectiveName n dn) z = r :: rest ->
  handle_http_record Provider.http api ip (PyStr dn) zone_id (PyStr n) ttl
    proxied rd (mkWorld z log) = (Ok tt, w1) ->
  exists r',
    candidates "A" (effectiveName n dn) (provider w1) = r' :: rest /\
    settled_address ip ttl proxied r' /\
    getitem r' "id" = getitem r "id".
Proof.
  intros Hv Hut Hup Hpage Hc.
  rewrite handle_http_record_str. unfold bind.
  rewrite check_record_stored.
  destruct (CloudflareAPI.getAuthHeaders api (PyDict [])) as [hd|e] eqn:Hhd;
    [|discriminate].
  destruct (py_eq zone_id (Provider.zone_id z)) eqn:Hz; [|discriminate].
  rewrite (@lookup_stored "A" (effectiveName n dn) z Hv Hpage), Hc.
  set (payload := address_payload (effectiveName n dn) proxied ttl ip).
  intros H.
  apply settle_address_completed in H;
    [|apply named_truthy; eapply candidates_named; eauto].
  destruct H as [[-> Hs]|[id [Hid Hput]]].
  - exists r. simpl. auto.
  - destruct (@candidates_after_replace "A" (effectiveName n dn) z r rest
                payload Hv Hc eq_refl (address_payload_matches _ _ _ _))
      as [j [Hj [Hlt [Hc' _]]]].
    rewrite Hj in Hid. inversion Hid; subst id; clear Hid.
    rewrite update_record_stored in Hput by (auto; reflexivity).
    rewrite Hhd, Hz in Hput.
    change (Provider.stored_form payload) with (Some payload) in Hput.
    cbv zeta iota in Hput.
    inversion Hput; subst w1; clear Hput. simpl provider.
    exists (Provider.set_id j payload). split; [exact Hc'|]. split.
    + now apply address_payload_settled.
    + rewrite Hj. reflexivity.
Qed.

Lemma later_duplicates_stay_witness :
  let stale :=
    PyDict [("type", PyStr "A"); ("name", PyStr "www.example.com");
            ("proxied", PyBool true); ("ttl", PyInt 1);
            ("content", PyStr "9.9.9.9")] in
  let z := Provider.mkZone (PyStr "z1") "example.com" [stale; stale] in
  candidates "A" "www.example.com"
    (provider
       (snd (handle_http_record Provider.http Sample.api "1.2.3.4"
               (PyStr "example.com") (PyStr "z1") (PyStr "www") (PyInt 1)
               (PyBool true) PyNone (Sample.start z))))
  = [Provider.set_id 0 Sample.www_a; Provider.set_id 1 stale].
Proof.
  intros stale z.
  destruct (@later_duplicates_stay Sample.api "1.2.3.4" "example.com"
              (PyStr "z1") "www" (PyInt 1) (PyBool true) PyNone z []
              (snd (handle_http_record Provider.http Sample.api "1.2.3.4"
                      (PyStr "example.com") (PyStr "z1") (PyStr "www")
                      (PyInt 1) (PyBool true) PyNone (Sample.start z)))
              (Provider.set_id 0 stale) [Provider.set_id 1 stale])
    as [r' [Hc _]];
    first [ exact I
          | apply Nat.leb_le; reflexivity
          | solve [repeat constructor; eexists; reflexivity]
          | reflexivity ].
Defined.
